(** * Monitoring service of the cluster-center backend

    A shallow embedding of [services/monitoringService.js] (class
    [MonitoringService]), of the Mongoose schemas it persists through
    ([VM], [VMMetrics], [SystemAlert], [PerformanceMetrics]) and of the
    handlers of [MonitoringController] that call it.

    Conventions.
    - JavaScript numbers are modelled as exact rationals ([Q]); counters,
      timestamps (milliseconds since the epoch) and floored values as [Z].
      The program computes in binary64: a result of the model can differ
      from it by the rounding of an operation.  The properties below are
      stated so that they do not depend on it: bounds are those that
      rounding to nearest preserves, and no property rests on the exact
      value of a mean.
    - The service is written in a state-and-exception monad over a [World]:
      the four collections, the logger output, the clock, the outcomes of
      [Math.random()], the outcomes of the persistence layer (a fault
      schedule) and the fields of the service singleton.  A thrown
      exception keeps the effects performed before it, as in JavaScript.
    - Collections are lists in insertion (natural) order. *)

From Stdlib Require Import ZArith QArith Qround Lqa List String Ascii Bool Lia
  DecimalString.
From Stdlib Require Import Permutation Sorted.
Import ListNotations.
Open Scope Z_scope.
Set Warnings "-register-all".

(* ------------------------------------------------------------------ *)
(** ** JavaScript values and small library functions *)

(** Values of the dynamically typed parts of the program: Mongoose [Mixed]
    fields and the documents produced by an aggregation pipeline. *)
Inductive JSValue : Type :=
| JUndefined
| JNull
| JNaN
| JNum (q : Q)
| JBool (b : bool)
| JStr (s : string)
| JDate (ms : Z)
| JObj (fields : list (string * JSValue)).

(** Property access [o.k]; a missing property reads as [undefined]. *)
Fixpoint assoc_get (k : string) (fs : list (string * JSValue)) : JSValue :=
  match fs with
  | [] => JUndefined
  | (k', v) :: tl => if String.eqb k k' then v else assoc_get k tl
  end.

Definition js_get (o : JSValue) (k : string) : JSValue :=
  match o with
  | JObj fs => assoc_get k fs
  | _ => JUndefined
  end.

(** [ToBoolean]. *)
Definition truthy (v : JSValue) : bool :=
  match v with
  | JUndefined | JNull | JNaN => false
  | JNum q => negb (Qeq_bool q 0)
  | JBool b => b
  | JStr s => negb (String.eqb s "")
  | JDate _ | JObj _ => true
  end.

(** [a || b]. *)
Definition js_or (a b : JSValue) : JSValue := if truthy a then a else b.

(** [x > y] on numbers. *)
Definition Qgtb (x y : Q) : bool := negb (Qle_bool x y).

(** [Math.min(a, b)] on numbers. *)
Definition Math_min (a b : Q) : Q := if Qle_bool a b then a else b.

(** [Math.floor]. *)
Definition Math_floor (x : Q) : Z := Qfloor x.

(** [Date]: a time value in milliseconds, or the Invalid Date obtained
    from [new Date(NaN)]. *)
Inductive JSDate : Type :=
| ValidDate (ms : Z)
| InvalidDate.

(** [String.prototype.trim] over ASCII white space. *)
Definition is_space (c : ascii) : bool :=
  let n := nat_of_ascii c in
  (Nat.eqb n 32 || (Nat.leb 9 n && Nat.leb n 13))%bool.

Fixpoint trim_left (s : string) : string :=
  match s with
  | String c tl => if is_space c then trim_left tl else s
  | EmptyString => EmptyString
  end.

Fixpoint trim_right (s : string) : string :=
  match s with
  | String c tl =>
      match trim_right tl with
      | EmptyString => if is_space c then EmptyString else String c EmptyString
      | tl' => String c tl'
      end
  | EmptyString => EmptyString
  end.

Definition trim (s : string) : string := trim_right (trim_left s).

(** [Number.prototype.toFixed(d)]: the decimal numeral with [d] fractional
    digits nearest to [x], ties rounded away from zero. *)
Definition pad_left (n : nat) (s : string) : string :=
  let fix zeros (k : nat) : string :=
    match k with O => EmptyString | S k' => String "0" (zeros k') end in
  append (zeros (n - String.length s)%nat) s.

Definition toFixed (d : nat) (x : Q) : string :=
  let neg := negb (Qle_bool 0 x) in
  let ax := if neg then Qopp x else x in
  let scale := Z.pow 10 (Z.of_nat d) in
  let n := Qfloor (Qplus (Qmult ax (inject_Z scale)) (1 # 2)) in
  let digits := pad_left (S d) (NilZero.string_of_uint (N.to_uint (Z.to_N n))) in
  let ilen := (String.length digits - d)%nat in
  let ipart := substring 0 ilen digits in
  let fpart := substring ilen d digits in
  append (if neg then "-" else "")
         (append ipart (match d with O => "" | _ => append "." fpart end)).

(* ------------------------------------------------------------------ *)
(** ** Documents *)

Definition ObjectId := N.
Definition TimerId := N.

(** The cast of a string to an [ObjectId], as the persistence layer does
    it for the [_id] of a query: the string must be the 24 hexadecimal
    digits of the identifier, in either case (bson 5 and later; older
    versions also took any string of 12 characters). *)
Definition hex_digit (c : ascii) : option N :=
  let n := N_of_ascii c in
  if ((48 <=? n) && (n <=? 57))%N%bool then Some (n - 48)%N
  else if ((97 <=? n) && (n <=? 102))%N%bool then Some (n - 87)%N
  else if ((65 <=? n) && (n <=? 70))%N%bool then Some (n - 55)%N
  else None.

Fixpoint hex_value (s : string) (acc : N) : option N :=
  match s with
  | EmptyString => Some acc
  | String c tl =>
      match hex_digit c with
      | Some d => hex_value tl (16 * acc + d)%N
      | None => None
      end
  end.

Definition castObjectId (s : string) : option ObjectId :=
  if Nat.eqb (String.length s) 24 then hex_value s 0%N else None.

(** [VM.status] enum. *)
Inductive VMStatus : Type :=
| creating | running | stopped | stopping | starting | error | suspended.

Definition VMStatus_eqb (a b : VMStatus) : bool :=
  match a, b with
  | creating, creating | running, running | stopped, stopped
  | stopping, stopping | starting, starting | error, error
  | suspended, suspended => true
  | _, _ => false
  end.

(** The fields of a [VM] document read by the monitoring service.
    [vm_createdAt] is [None] when the document carries no [createdAt];
    [vmSchema] has [timestamps: true], so that every document written
    through the model carries one. *)
Record VM := mkVM {
  vm_id : ObjectId;
  vm_status : VMStatus;
  vm_createdAt : option Z
}.

(** The object returned by [generateVMMetrics]. *)
Record Metrics := mkMetrics {
  cpuUsage : Q;
  memoryUsage : Q;
  diskUsage : Q;
  networkIn : Z;
  networkOut : Z;
  diskRead : Z;
  diskWrite : Z;
  uptime : Z;
  status : VMStatus;
  responseTime : Z;
  errorRate : Q
}.

(** A [VMMetrics] document.  The schema is strict: of the properties of a
    reading only [cpuUsage], [memoryUsage], [diskUsage] and [status] are
    schema paths, the others are not stored. *)
Record VMMetrics := mkVMMetrics {
  vmm_vmId : ObjectId;
  vmm_timestamp : Z;
  vmm_cpuUsage : Q;
  vmm_memoryUsage : Q;
  vmm_diskUsage : Q;
  vmm_status : VMStatus
}.

Inductive Severity : Type := critical | warning | info.

Inductive AlertType : Type :=
| cpu_high | memory_high | disk_full | error_rate_high.

Definition AlertType_eqb (a b : AlertType) : bool :=
  match a, b with
  | cpu_high, cpu_high | memory_high, memory_high
  | disk_full, disk_full | error_rate_high, error_rate_high => true
  | _, _ => false
  end.

Definition AlertType_name (t : AlertType) : string :=
  match t with
  | cpu_high => "cpu_high"
  | memory_high => "memory_high"
  | disk_full => "disk_full"
  | error_rate_high => "error_rate_high"
  end.

(** The transient alert object pushed by [checkForAlerts]. *)
Record AlertEvent := mkAlertEvent {
  ae_type : AlertType;
  ae_severity : Severity;
  ae_message : string;
  ae_value : Q
}.

(** A [SystemAlert] document ([systemAlertSchema], with [timestamps]). *)
Record SystemAlert := mkSystemAlert {
  sa_id : ObjectId;
  sa_vmId : option ObjectId;
  sa_type : option string;
  sa_severity : option Severity;
  sa_level : Severity;
  sa_title : string;
  sa_message : string;
  sa_currentValue : option Q;
  sa_count : Z;
  sa_resolved : bool;
  sa_resolvedAt : option Z;
  sa_resolvedBy : option string;
  sa_lastSeen : Z;
  sa_acknowledged : bool;
  sa_acknowledgedBy : option string;
  sa_acknowledgedAt : option Z;
  sa_metadata : JSValue;
  sa_createdAt : Z;
  sa_updatedAt : Z
}.

(** A [PerformanceMetrics] document ([performanceMetricsSchema]). *)
Record PerformanceMetrics := mkPerformanceMetrics {
  pm_id : ObjectId;
  pm_timestamp : Z;
  pm_operation : string;
  pm_durationMs : Z;
  pm_success : bool;
  pm_errorMessage : option string;
  pm_metadata : JSValue
}.

Inductive LogLevel : Type := L1Critical | L2Warning | L3Info.

(** One call of [Logger.logL1Critical], [logL2Warning] or [logL3Info]: the
    message and the document that the identifier ([vmId], [alertId]) of
    its context names, none when that is not an [ObjectId]. *)
Record LogEntry := mkLog {
  lg_level : LogLevel;
  lg_message : string;
  lg_ref : option ObjectId
}.

Inductive JSError : Type :=
| TypeError (msg : string)
| CastError (path : string)
| ValidatorError (path : string)
| StoreError (op : nat).

Inductive Result (A : Type) : Type :=
| Ok (a : A)
| Throw (e : JSError).
Arguments Ok {A} a.
Arguments Throw {A} e.

(* ------------------------------------------------------------------ *)
(** ** The world *)

(** Everything the service reads or writes.
    - [w_now], [w_tz]: the clock (milliseconds) and the offset of local
      time; the clock does not move during one operation.
    - [w_rand], [w_randIx]: the outcomes of [Math.random()] and the number
      of draws taken so far.
    - [w_faults], [w_ops]: which round trips to the database fail, and the
      number of round trips made so far.
    - [w_vms], [w_vmMetrics], [w_alerts], [w_perf]: the collections.
    - [w_log]: the calls of the logger, oldest first.
    - [w_isRunning], [w_metricsInterval]: the fields of the service
      singleton; [w_timers]: the active interval timers.
    - [w_emitted]: the alerts sent on the socket as [alert:resolved]. *)
Record World := mkWorld {
  w_now : Z;
  w_tz : Z;
  w_rand : nat -> Q;
  w_randIx : nat;
  w_faults : nat -> bool;
  w_ops : nat;
  w_nextId : ObjectId;
  w_vms : list VM;
  w_vmMetrics : list VMMetrics;
  w_alerts : list SystemAlert;
  w_perf : list PerformanceMetrics;
  w_log : list LogEntry;
  w_isRunning : bool;
  w_metricsInterval : option TimerId;
  w_timers : list TimerId;
  w_nextTimer : TimerId;
  w_emitted : list SystemAlert
}.

Definition set_now (x : Z) (w : World) : World :=
  mkWorld x (w_tz w) (w_rand w) (w_randIx w) (w_faults w) (w_ops w)
    (w_nextId w) (w_vms w) (w_vmMetrics w) (w_alerts w) (w_perf w)
    (w_log w) (w_isRunning w) (w_metricsInterval w) (w_timers w)
    (w_nextTimer w) (w_emitted w).

Definition set_randIx (x : nat) (w : World) : World :=
  mkWorld (w_now w) (w_tz w) (w_rand w) x (w_faults w) (w_ops w)
    (w_nextId w) (w_vms w) (w_vmMetrics w) (w_alerts w) (w_perf w)
    (w_log w) (w_isRunning w) (w_metricsInterval w) (w_timers w)
    (w_nextTimer w) (w_emitted w).

Definition set_ops (x : nat) (w : World) : World :=
  mkWorld (w_now w) (w_tz w) (w_rand w) (w_randIx w) (w_faults w) x
    (w_nextId w) (w_vms w) (w_vmMetrics w) (w_alerts w) (w_perf w)
    (w_log w) (w_isRunning w) (w_metricsInterval w) (w_timers w)
    (w_nextTimer w) (w_emitted w).

Definition set_nextId (x : ObjectId) (w : World) : World :=
  mkWorld (w_now w) (w_tz w) (w_rand w) (w_randIx w) (w_faults w) (w_ops w)
    x (w_vms w) (w_vmMetrics w) (w_alerts w) (w_perf w) (w_log w)
    (w_isRunning w) (w_metricsInterval w) (w_timers w) (w_nextTimer w)
    (w_emitted w).

Definition set_vmMetrics (x : list VMMetrics) (w : World) : World :=
  mkWorld (w_now w) (w_tz w) (w_rand w) (w_randIx w) (w_faults w) (w_ops w)
    (w_nextId w) (w_vms w) x (w_alerts w) (w_perf w) (w_log w)
    (w_isRunning w) (w_metricsInterval w) (w_timers w) (w_nextTimer w)
    (w_emitted w).

Definition set_alerts (x : list SystemAlert) (w : World) : World :=
  mkWorld (w_now w) (w_tz w) (w_rand w) (w_randIx w) (w_faults w) (w_ops w)
    (w_nextId w) (w_vms w) (w_vmMetrics w) x (w_perf w) (w_log w)
    (w_isRunning w) (w_metricsInterval w) (w_timers w) (w_nextTimer w)
    (w_emitted w).

Definition set_perf (x : list PerformanceMetrics) (w : World) : World :=
  mkWorld (w_now w) (w_tz w) (w_rand w) (w_randIx w) (w_faults w) (w_ops w)
    (w_nextId w) (w_vms w) (w_vmMetrics w) (w_alerts w) x (w_log w)
    (w_isRunning w) (w_metricsInterval w) (w_timers w) (w_nextTimer w)
    (w_emitted w).

Definition set_log (x : list LogEntry) (w : World) : World :=
  mkWorld (w_now w) (w_tz w) (w_rand w) (w_randIx w) (w_faults w) (w_ops w)
    (w_nextId w) (w_vms w) (w_vmMetrics w) (w_alerts w) (w_perf w) x
    (w_isRunning w) (w_metricsInterval w) (w_timers w) (w_nextTimer w)
    (w_emitted w).

Definition set_isRunning (x : bool) (w : World) : World :=
  mkWorld (w_now w) (w_tz w) (w_rand w) (w_randIx w) (w_faults w) (w_ops w)
    (w_nextId w) (w_vms w) (w_vmMetrics w) (w_alerts w) (w_perf w)
    (w_log w) x (w_metricsInterval w) (w_timers w) (w_nextTimer w)
    (w_emitted w).

Definition set_metricsInterval (x : option TimerId) (w : World) : World :=
  mkWorld (w_now w) (w_tz w) (w_rand w) (w_randIx w) (w_faults w) (w_ops w)
    (w_nextId w) (w_vms w) (w_vmMetrics w) (w_alerts w) (w_perf w)
    (w_log w) (w_isRunning w) x (w_timers w) (w_nextTimer w) (w_emitted w)
   .

Definition set_timers (x : list TimerId) (w : World) : World :=
  mkWorld (w_now w) (w_tz w) (w_rand w) (w_randIx w) (w_faults w) (w_ops w)
    (w_nextId w) (w_vms w) (w_vmMetrics w) (w_alerts w) (w_perf w)
    (w_log w) (w_isRunning w) (w_metricsInterval w) x (w_nextTimer w)
    (w_emitted w).

Definition set_nextTimer (x : TimerId) (w : World) : World :=
  mkWorld (w_now w) (w_tz w) (w_rand w) (w_randIx w) (w_faults w) (w_ops w)
    (w_nextId w) (w_vms w) (w_vmMetrics w) (w_alerts w) (w_perf w)
    (w_log w) (w_isRunning w) (w_metricsInterval w) (w_timers w) x
    (w_emitted w).

Definition set_emitted (x : list SystemAlert) (w : World) : World :=
  mkWorld (w_now w) (w_tz w) (w_rand w) (w_randIx w) (w_faults w) (w_ops w)
    (w_nextId w) (w_vms w) (w_vmMetrics w) (w_alerts w) (w_perf w)
    (w_log w) (w_isRunning w) (w_metricsInterval w) (w_timers w)
    (w_nextTimer w) x.

(* ------------------------------------------------------------------ *)
(** ** The effect monad *)

Definition M (A : Type) : Type := World -> Result A * World.

Definition ret {A : Type} (a : A) : M A := fun w => (Ok a, w).

Definition bind {A B : Type} (m : M A) (k : A -> M B) : M B :=
  fun w =>
    match m w with
    | (Ok a, w') => k a w'
    | (Throw e, w') => (Throw e, w')
    end.

Definition throw {A : Type} (e : JSError) : M A := fun w => (Throw e, w).

(** [try { body } catch (error) { handler }]. *)
Definition try_catch {A : Type} (body : M A) (handler : JSError -> M A) : M A :=
  fun w =>
    match body w with
    | (Ok a, w') => (Ok a, w')
    | (Throw e, w') => handler e w'
    end.

Declare Scope monad_scope.
Delimit Scope monad_scope with monad.
Notation "x <- m ;; k" := (bind m (fun x => k))
  (at level 100, m at next level, right associativity) : monad_scope.
Notation "m ;; k" := (bind m (fun _ => k))
  (at level 100, right associativity) : monad_scope.
Open Scope monad_scope.

(** [for (const x of l) { await f(x); }]. *)
Fixpoint forEach {A : Type} (l : list A) (f : A -> M unit) : M unit :=
  match l with
  | [] => ret tt
  | x :: tl => f x ;; forEach tl f
  end.

Definition gets {A : Type} (f : World -> A) : M A := fun w => (Ok (f w), w).
Definition modify (f : World -> World) : M unit := fun w => (Ok tt, f w).

(** [Date.now()], also the time value of [new Date()]. *)
Definition Date_now : M Z := gets w_now.

(** [new Date().getHours()], in the local time zone of the process. *)
Definition getHours : M Z :=
  gets (fun w => ((w_now w + w_tz w) / 3600000) mod 24).

(** [Math.random()]: the next draw. *)
Definition Math_random : M Q :=
  fun w => (Ok (w_rand w (w_randIx w)), set_randIx (S (w_randIx w)) w).

Definition Logger_log (lvl : LogLevel) (msg : string) (ref : option ObjectId)
  : M unit :=
  modify (fun w => set_log (w_log w ++ [mkLog lvl msg ref]) w).

(** One round trip to the database: it fails when the fault schedule says
    so for this operation, before reading or writing anything. *)
Definition store {A : Type} (body : M A) : M A :=
  fun w =>
    let w' := set_ops (S (w_ops w)) w in
    if w_faults w (w_ops w) then (Throw (StoreError (w_ops w)), w')
    else body w'.

Definition newObjectId : M ObjectId :=
  fun w => (Ok (w_nextId w), set_nextId (N.succ (w_nextId w)) w).

(* ------------------------------------------------------------------ *)
(** ** The persistence layer (Mongoose models) *)

(** [VM.find({ status: { $in: ['running', 'starting', 'stopping'] } })]. *)
Definition is_active (vm : VM) : bool :=
  match vm_status vm with
  | running | starting | stopping => true
  | _ => false
  end.

Definition VM_find_active : M (list VM) :=
  store (gets (fun w => filter is_active (w_vms w))).

Definition VM_countDocuments (p : VM -> bool) : M Z :=
  store (gets (fun w => Z.of_nat (List.length (filter p (w_vms w))))).

(** Schema validation of a [VMMetrics] document: [min: 0] and [max: 100]
    on the three percentages; the first failing path. *)
Definition in_percent_range (x : Q) : bool :=
  (Qle_bool 0 x && Qle_bool x 100)%bool.

Definition validate_VMMetrics (d : VMMetrics) : option string :=
  if negb (in_percent_range (vmm_cpuUsage d)) then Some "cpuUsage"%string
  else if negb (in_percent_range (vmm_memoryUsage d)) then Some "memoryUsage"%string
  else if negb (in_percent_range (vmm_diskUsage d)) then Some "diskUsage"%string
  else None.

(** [doc.save()] of a new [VMMetrics] document: validate, then insert. *)
Definition VMMetrics_save (d : VMMetrics) : M unit :=
  match validate_VMMetrics d with
  | Some path => throw (ValidatorError path)
  | None => store (modify (fun w => set_vmMetrics (w_vmMetrics w ++ [d]) w))
  end.

(** Casting of a date in a query filter: Mongoose rejects an Invalid Date
    with a [CastError] before the query is sent. *)
Definition castDate (path : string) (d : JSDate) : M Z :=
  match d with
  | ValidDate ms => ret ms
  | InvalidDate => throw (CastError path)
  end.

(** Aggregation pipelines are not cast; the driver serialises the time
    value of a date, and that of an Invalid Date (NaN) as 0. *)
Definition bson_date (d : JSDate) : Z :=
  match d with
  | ValidDate ms => ms
  | InvalidDate => 0
  end.

(** [.sort({ timestamp: 1 })]: a stable ascending sort. *)
Fixpoint insert_by {A : Type} (key : A -> Z) (x : A) (l : list A) : list A :=
  match l with
  | [] => [x]
  | y :: tl => if key y <=? key x then y :: insert_by key x tl else x :: l
  end.

Definition sort_by {A : Type} (key : A -> Z) (l : list A) : list A :=
  fold_left (fun acc x => insert_by key x acc) l [].

(** [VMMetrics.find({ vmId, timestamp: { $gte: since } }).sort({ timestamp: 1 })]. *)
Definition VMMetrics_find (vmId : ObjectId) (since : JSDate) : M (list VMMetrics) :=
  ms <- castDate "timestamp" since ;;
  store (gets (fun w =>
    sort_by vmm_timestamp
      (filter (fun d => (N.eqb (vmm_vmId d) vmId && (ms <=? vmm_timestamp d))%bool)
              (w_vmMetrics w)))).

(** The top-level paths of a stored [PerformanceMetrics] document. *)
Definition pm_field (d : PerformanceMetrics) (k : string) : JSValue :=
  assoc_get k
    [("_id"%string, JNum (inject_Z (Z.of_N (pm_id d))));
     ("timestamp"%string, JDate (pm_timestamp d));
     ("operation"%string, JStr (pm_operation d));
     ("durationMs"%string, JNum (inject_Z (pm_durationMs d)));
     ("success"%string, JBool (pm_success d));
     ("errorMessage"%string,
        match pm_errorMessage d with Some s => JStr s | None => JUndefined end);
     ("metadata"%string, pm_metadata d)].

Definition is_str (v : JSValue) (s : string) : bool :=
  match v with
  | JStr s' => String.eqb s' s
  | _ => false
  end.

(** [PerformanceMetrics.find({ category: 'system', timestamp: { $gte: since } })
      .sort({ timestamp: 1 })].  [category] is not a schema path; the
    condition is sent to the database as written and compares the
    top-level field of each document. *)
Definition PerformanceMetrics_find_system (since : JSDate)
  : M (list PerformanceMetrics) :=
  ms <- castDate "timestamp" since ;;
  store (gets (fun w =>
    sort_by pm_timestamp
      (filter (fun d => (is_str (pm_field d "category") "system"
                         && (ms <=? pm_timestamp d))%bool)
              (w_perf w)))).

(** [doc.save()] of a new [PerformanceMetrics] document. *)
Definition PerformanceMetrics_save (d : PerformanceMetrics) : M unit :=
  store (modify (fun w => set_perf (w_perf w ++ [d]) w)).

(** [SystemAlert.findOne(filter)]: the first match in natural order. *)
Definition SystemAlert_findOne (p : SystemAlert -> bool) : M (option SystemAlert) :=
  store (gets (fun w => find p (w_alerts w))).

(** [doc.save()] of a new [SystemAlert]; [timestamps] stamps both dates. *)
Definition SystemAlert_insert (a : SystemAlert) : M unit :=
  store (modify (fun w => set_alerts (w_alerts w ++ [a]) w)).

Definition set_updatedAt (t : Z) (a : SystemAlert) : SystemAlert :=
  mkSystemAlert (sa_id a) (sa_vmId a) (sa_type a) (sa_severity a) (sa_level a)
    (sa_title a) (sa_message a) (sa_currentValue a) (sa_count a)
    (sa_resolved a) (sa_resolvedAt a) (sa_resolvedBy a) (sa_lastSeen a)
    (sa_acknowledged a) (sa_acknowledgedBy a) (sa_acknowledgedAt a)
    (sa_metadata a) (sa_createdAt a) t.

(** Replace the first document that has the identifier of [a]. *)
Fixpoint replace_by_id (a : SystemAlert) (l : list SystemAlert) : list SystemAlert :=
  match l with
  | [] => []
  | x :: tl => if N.eqb (sa_id x) (sa_id a) then a :: tl
               else x :: replace_by_id a tl
  end.

(** [doc.save()] of a [SystemAlert] loaded from the database. *)
Definition SystemAlert_update (a : SystemAlert) : M unit :=
  now <- Date_now ;;
  store (modify (fun w =>
    set_alerts (replace_by_id (set_updatedAt now a) (w_alerts w)) w)).

Definition has_id (id : ObjectId) (a : SystemAlert) : bool := N.eqb (sa_id a) id.

(** [SystemAlert.findByIdAndUpdate(id, update, { new: true })]: the
    identifier is cast first, and a string that is no [ObjectId] is a
    [CastError] on [_id], raised before any round trip.  Otherwise the
    first document with that identifier is updated in place, whatever its
    other fields, and the updated document is returned, or [null] when
    there is none. *)
Definition SystemAlert_findByIdAndUpdate (id : string)
    (update : SystemAlert -> SystemAlert) : M (option SystemAlert) :=
  match castObjectId id with
  | None => throw (CastError "_id")
  | Some oid =>
      now <- Date_now ;;
      store (fun w =>
        match find (has_id oid) (w_alerts w) with
        | None => (Ok None, w)
        | Some a =>
            let a' := set_updatedAt now (update a) in
            (Ok (Some a'), set_alerts (replace_by_id a' (w_alerts w)) w)
        end)
  end.

(* ------------------------------------------------------------------ *)
(** ** MonitoringService *)

(** *** Sampling *)

(** [generateVMMetrics(vm)].  The draws are taken in evaluation order;
    [vm.createdAt.getTime()] throws when [createdAt] is undefined.  The
    arithmetic is exact, where the program rounds each operation to
    binary64. *)
Definition generateVMMetrics (vm : VM) : M Metrics :=
  r0 <- Math_random ;;
  let baseLoad := (r0 * 50)%Q in
  timeOfDay <- getHours ;;
  let isBusinessHours := ((9 <=? timeOfDay) && (timeOfDay <=? 17))%bool in
  let loadMultiplier := if isBusinessHours then (3 # 2)%Q else (4 # 5)%Q in
  r1 <- Math_random ;;
  r2 <- Math_random ;;
  r3 <- Math_random ;;
  r4 <- Math_random ;;
  r5 <- Math_random ;;
  r6 <- Math_random ;;
  r7 <- Math_random ;;
  now <- Date_now ;;
  createdAt <- match vm_createdAt vm with
               | Some t => ret t
               | None => throw (TypeError "Cannot read properties of undefined (reading 'getTime')")
               end ;;
  r8 <- Math_random ;;
  r9 <- Math_random ;;
  ret {| cpuUsage := Math_min 100 (baseLoad * loadMultiplier + (r1 * 20 - 10))%Q;
         memoryUsage :=
           Math_min 100 ((baseLoad * (4 # 5)) * loadMultiplier + (r2 * 15 - (15 # 2)))%Q;
         diskUsage := Math_min 100 (30 + r3 * 40)%Q;
         networkIn := Math_floor (r4 * 1000 + 100)%Q;
         networkOut := Math_floor (r5 * 500 + 50)%Q;
         diskRead := Math_floor (r6 * 100 + 10)%Q;
         diskWrite := Math_floor (r7 * 50 + 5)%Q;
         uptime := now / 1000 - createdAt / 1000;
         status := vm_status vm;
         responseTime := Math_floor (r8 * 50 + 10)%Q;
         errorRate := (r9 * (5 # 100))%Q |}.

(** [saveVMMetrics(vmId, metrics)]. *)
Definition saveVMMetrics (vmId : ObjectId) (metrics : Metrics) : M unit :=
  try_catch
    (ts <- Date_now ;;
     VMMetrics_save
       {| vmm_vmId := vmId;
          vmm_timestamp := ts;
          vmm_cpuUsage := cpuUsage metrics;
          vmm_memoryUsage := memoryUsage metrics;
          vmm_diskUsage := diskUsage metrics;
          vmm_status := status metrics |})
    (fun _ => Logger_log L2Warning "Failed to save VM metrics" (Some vmId)).

(** *** Threshold evaluation *)

Definition percent_message (prefix : string) (x : Q) (digits : nat) : string :=
  append prefix (append (toFixed digits x) "%").

(** The [alerts] array built by [checkForAlerts], one block per metric. *)
Definition cpu_alerts (metrics : Metrics) : list AlertEvent :=
  if Qgtb (cpuUsage metrics) 90 then
    [ {| ae_type := cpu_high; ae_severity := critical;
         ae_message := percent_message "High CPU usage: " (cpuUsage metrics) 1;
         ae_value := cpuUsage metrics |} ]
  else if Qgtb (cpuUsage metrics) 75 then
    [ {| ae_type := cpu_high; ae_severity := warning;
         ae_message := percent_message "Elevated CPU usage: " (cpuUsage metrics) 1;
         ae_value := cpuUsage metrics |} ]
  else [].

Definition memory_alerts (metrics : Metrics) : list AlertEvent :=
  if Qgtb (memoryUsage metrics) 95 then
    [ {| ae_type := memory_high; ae_severity := critical;
         ae_message := percent_message "Critical memory usage: " (memoryUsage metrics) 1;
         ae_value := memoryUsage metrics |} ]
  else if Qgtb (memoryUsage metrics) 85 then
    [ {| ae_type := memory_high; ae_severity := warning;
         ae_message := percent_message "High memory usage: " (memoryUsage metrics) 1;
         ae_value := memoryUsage metrics |} ]
  else [].

Definition disk_alerts (metrics : Metrics) : list AlertEvent :=
  if Qgtb (diskUsage metrics) 95 then
    [ {| ae_type := disk_full; ae_severity := critical;
         ae_message := percent_message "Disk almost full: " (diskUsage metrics) 1;
         ae_value := diskUsage metrics |} ]
  else [].

Definition error_rate_alerts (metrics : Metrics) : list AlertEvent :=
  if Qgtb (errorRate metrics) (2 # 100) then
    [ {| ae_type := error_rate_high; ae_severity := warning;
         ae_message := percent_message "High error rate: " (errorRate metrics * 100)%Q 2;
         ae_value := errorRate metrics |} ]
  else [].

Definition checkForAlerts_alerts (metrics : Metrics) : list AlertEvent :=
  cpu_alerts metrics ++ memory_alerts metrics ++ disk_alerts metrics
    ++ error_rate_alerts metrics.

(** *** Alert store *)

(** The filter of [createAlert]: same [vmId], same [type], unresolved,
    created in the last five minutes. *)
Definition similar_alert (vmId : ObjectId) (alertData : AlertEvent) (now : Z)
    (a : SystemAlert) : bool :=
  (match sa_vmId a with Some v => N.eqb v vmId | None => false end
   && match sa_type a with
      | Some t => String.eqb t (AlertType_name (ae_type alertData))
      | None => false
      end
   && negb (sa_resolved a)
   && (now - 5 * 60 * 1000 <=? sa_createdAt a))%bool.

(** [existingAlert.count = (existingAlert.count || 1) + 1] and the two
    other assignments of the update branch. *)
Definition bump_alert (now : Z) (value : Q) (a : SystemAlert) : SystemAlert :=
  mkSystemAlert (sa_id a) (sa_vmId a) (sa_type a) (sa_severity a) (sa_level a)
    (sa_title a) (sa_message a) (Some value)
    ((if sa_count a =? 0 then 1 else sa_count a) + 1)
    (sa_resolved a) (sa_resolvedAt a) (sa_resolvedBy a) now
    (sa_acknowledged a) (sa_acknowledgedBy a) (sa_acknowledgedAt a)
    (sa_metadata a) (sa_createdAt a) (sa_updatedAt a).

(** [new SystemAlert({ vmId, level, title, message, metadata })]: the
    paths given, the schema defaults for the others; [type], [severity]
    and [currentValue] are not given and stay undefined. *)
Definition new_alert (id vmId : ObjectId) (alertData : AlertEvent) (now : Z)
  : SystemAlert :=
  {| sa_id := id;
     sa_vmId := Some vmId;
     sa_type := None;
     sa_severity := None;
     sa_level := ae_severity alertData;
     sa_title := trim (AlertType_name (ae_type alertData));
     sa_message := ae_message alertData;
     sa_currentValue := None;
     sa_count := 1;
     sa_resolved := false;
     sa_resolvedAt := None;
     sa_resolvedBy := None;
     sa_lastSeen := now;
     sa_acknowledged := false;
     sa_acknowledgedBy := None;
     sa_acknowledgedAt := None;
     sa_metadata :=
       JObj [("currentValue"%string, JNum (ae_value alertData));
             ("count"%string, JNum 1);
             ("resolved"%string, JBool false);
             ("lastSeen"%string, JDate now)];
     sa_createdAt := now;
     sa_updatedAt := now |}.

(** [createAlert(vmId, alertData)]. *)
Definition createAlert (vmId : ObjectId) (alertData : AlertEvent) : M unit :=
  try_catch
    (now <- Date_now ;;
     existingAlert <- SystemAlert_findOne (similar_alert vmId alertData now) ;;
     match existingAlert with
     | Some a =>
         seen <- Date_now ;;
         SystemAlert_update (bump_alert seen (ae_value alertData) a)
     | None =>
         id <- newObjectId ;;
         created <- Date_now ;;
         SystemAlert_insert (new_alert id vmId alertData created) ;;
         Logger_log L2Warning "System alert created" (Some vmId)
     end)
    (fun _ => Logger_log L1Critical "Failed to create alert" (Some vmId)).

(** [checkForAlerts(vm, metrics)]. *)
Definition checkForAlerts (vm : VM) (metrics : Metrics) : M unit :=
  forEach (checkForAlerts_alerts metrics) (createAlert (vm_id vm)).

(** *** Aggregation *)

Definition Qsum (l : list Q) : Q := fold_right Qplus 0%Q l.

(** [$avg] and [$max] of a field over the grouped documents; [null] when
    no document has a numeric value for it.  The mean is the exact one;
    the database computes it in binary64. *)
Definition agg_avg (l : list Q) : JSValue :=
  match l with
  | [] => JNull
  | _ => JNum (Qsum l / inject_Z (Z.of_nat (List.length l)))%Q
  end.

Definition agg_max (l : list Q) : JSValue :=
  match l with
  | [] => JNull
  | x :: tl => JNum (fold_left (fun m y => if Qle_bool m y then y else m) tl x)
  end.

Definition agg_sum (l : list Q) : JSValue := JNum (Qsum l).

(** [$match] on [timestamp >= since], then [$group] with [_id: null]: no
    output document for an empty input, one otherwise.  Fields that are
    not paths of the [VMMetrics] schema are absent from every document. *)
Definition match_since (since : JSDate) (l : list VMMetrics) : list VMMetrics :=
  filter (fun d => bson_date since <=? vmm_timestamp d) l.

Definition VMMetrics_aggregate (since : JSDate)
    (group : list VMMetrics -> JSValue) : M (list JSValue) :=
  store (gets (fun w =>
    match match_since since (w_vmMetrics w) with
    | [] => []
    | ds => [group ds]
    end)).

Definition recent_group (ds : list VMMetrics) : JSValue :=
  JObj [("_id"%string, JNull);
        ("avgCpuUsage"%string, agg_avg (map vmm_cpuUsage ds));
        ("avgMemoryUsage"%string, agg_avg (map vmm_memoryUsage ds));
        ("totalNetworkIn"%string, agg_sum []);
        ("totalNetworkOut"%string, agg_sum []);
        ("avgResponseTime"%string, agg_avg []);
        ("totalErrorRate"%string, agg_avg [])].

Definition summary_group (ds : list VMMetrics) : JSValue :=
  JObj [("_id"%string, JNull);
        ("avgCpuUsage"%string, agg_avg (map vmm_cpuUsage ds));
        ("maxCpuUsage"%string, agg_max (map vmm_cpuUsage ds));
        ("avgMemoryUsage"%string, agg_avg (map vmm_memoryUsage ds));
        ("maxMemoryUsage"%string, agg_max (map vmm_memoryUsage ds));
        ("avgDiskUsage"%string, agg_avg (map vmm_diskUsage ds));
        ("maxDiskUsage"%string, agg_max (map vmm_diskUsage ds));
        ("totalNetworkIn"%string, agg_sum []);
        ("totalNetworkOut"%string, agg_sum []);
        ("avgResponseTime"%string, agg_avg []);
        ("maxResponseTime"%string, agg_max []);
        ("avgErrorRate"%string, agg_avg []);
        ("maxErrorRate"%string, agg_max []);
        ("dataPoints"%string, JNum (inject_Z (Z.of_nat (List.length ds))))].

(** [arr[0]], and [arr[0]?.k]. *)
Definition first_or_undefined (l : list JSValue) : JSValue :=
  match l with
  | [] => JUndefined
  | x :: _ => x
  end.

Record SystemMetrics := mkSystemMetrics {
  totalVMs : Z;
  runningVMs : Z;
  stoppedVMs : Z;
  errorVMs : Z;
  systemLoad : JSValue;
  memoryUtilization : JSValue;
  networkThroughput_in : JSValue;
  networkThroughput_out : JSValue;
  averageResponseTime : JSValue;
  systemErrorRate : JSValue;
  sm_timestamp : Z
}.

Definition SystemMetrics_value (s : SystemMetrics) : JSValue :=
  JObj [("totalVMs"%string, JNum (inject_Z (totalVMs s)));
        ("runningVMs"%string, JNum (inject_Z (runningVMs s)));
        ("stoppedVMs"%string, JNum (inject_Z (stoppedVMs s)));
        ("errorVMs"%string, JNum (inject_Z (errorVMs s)));
        ("systemLoad"%string, systemLoad s);
        ("memoryUtilization"%string, memoryUtilization s);
        ("networkThroughput"%string,
           JObj [("in"%string, networkThroughput_in s);
                 ("out"%string, networkThroughput_out s)]);
        ("averageResponseTime"%string, averageResponseTime s);
        ("systemErrorRate"%string, systemErrorRate s);
        ("timestamp"%string, JDate (sm_timestamp s))].

Definition VMStatus_is (s : VMStatus) (vm : VM) : bool :=
  VMStatus_eqb (vm_status vm) s.

(** [collectSystemMetrics()]. *)
Definition collectSystemMetrics : M SystemMetrics :=
  try_catch
    (total <- VM_countDocuments (fun _ => true) ;;
     nrunning <- VM_countDocuments (VMStatus_is running) ;;
     nstopped <- VM_countDocuments (VMStatus_is stopped) ;;
     nerror <- VM_countDocuments (VMStatus_is error) ;;
     now <- Date_now ;;
     recentMetrics <- VMMetrics_aggregate (ValidDate (now - 5 * 60 * 1000)) recent_group ;;
     let r0 := first_or_undefined recentMetrics in
     ts <- Date_now ;;
     let systemMetrics :=
       {| totalVMs := total;
          runningVMs := nrunning;
          stoppedVMs := nstopped;
          errorVMs := nerror;
          systemLoad := js_or (js_get r0 "avgCpuUsage") (JNum 0);
          memoryUtilization := js_or (js_get r0 "avgMemoryUsage") (JNum 0);
          networkThroughput_in := js_or (js_get r0 "totalNetworkIn") (JNum 0);
          networkThroughput_out := js_or (js_get r0 "totalNetworkOut") (JNum 0);
          averageResponseTime := js_or (js_get r0 "avgResponseTime") (JNum 0);
          systemErrorRate := js_or (js_get r0 "totalErrorRate") (JNum 0);
          sm_timestamp := ts |} in
     id <- newObjectId ;;
     t1 <- Date_now ;;
     t2 <- Date_now ;;
     PerformanceMetrics_save
       {| pm_id := id;
          pm_timestamp := t2;
          pm_operation := "system_metrics_collection";
          pm_durationMs := t1 - (sm_timestamp systemMetrics - 1000);
          pm_success := true;
          pm_errorMessage := None;
          pm_metadata :=
            JObj [("category"%string, JStr "system");
                  ("metrics"%string, SystemMetrics_value systemMetrics)] |} ;;
     ret systemMetrics)
    (fun e => Logger_log L1Critical "Failed to collect system metrics" None ;;
              throw e).

(** *** Collection cycle *)

(** The body of the loop of [collectMetrics], for one instance. *)
Definition collect_one (vm : VM) : M unit :=
  metrics <- generateVMMetrics vm ;;
  saveVMMetrics (vm_id vm) metrics ;;
  checkForAlerts vm metrics.

(** [collectMetrics()]. *)
Definition collectMetrics : M unit :=
  try_catch
    (vms <- VM_find_active ;;
     forEach vms collect_one ;;
     collectSystemMetrics ;;
     ret tt)
    (fun _ => Logger_log L1Critical "Error collecting metrics" None).

(** *** Scheduler *)

(** [setInterval(callback, 30000)] and [clearInterval(handle)]; the only
    timers of the model are those created by [startMonitoring]. *)
Definition setInterval : M TimerId :=
  fun w =>
    (Ok (w_nextTimer w),
     set_nextTimer (N.succ (w_nextTimer w))
       (set_timers (w_timers w ++ [w_nextTimer w]) w)).

Definition clearInterval (t : TimerId) : M unit :=
  modify (fun w => set_timers (filter (fun t' => negb (N.eqb t' t)) (w_timers w)) w).

(** [startMonitoring()]. *)
Definition startMonitoring : M unit :=
  isRunning <- gets w_isRunning ;;
  if isRunning : bool then
    Logger_log L2Warning "Monitoring already running" None
  else
    modify (set_isRunning true) ;;
    Logger_log L3Info "Starting monitoring service" None ;;
    t <- setInterval ;;
    modify (set_metricsInterval (Some t)).

(** [stopMonitoring()]. *)
Definition stopMonitoring : M unit :=
  isRunning <- gets w_isRunning ;;
  if negb isRunning then ret tt
  else
    modify (set_isRunning false) ;;
    metricsInterval <- gets w_metricsInterval ;;
    match metricsInterval with
    | Some t => clearInterval t ;; modify (set_metricsInterval None)
    | None => ret tt
    end ;;
    Logger_log L3Info "Monitoring service stopped" None.

(** Thirty seconds elapse: every active interval timer runs its callback,
    [collectMetrics], once. *)
Definition period_elapses : M unit :=
  modify (fun w => set_now (w_now w + 30000) w) ;;
  timers <- gets w_timers ;;
  forEach timers (fun _ => collectMetrics).

(** *** Queries *)

(** The [timeRanges] table; [None] is the [undefined] read for any other
    key. *)
Definition timeRanges (timeRange : string) : option Z :=
  if String.eqb timeRange "1h" then Some (60 * 60 * 1000)
  else if String.eqb timeRange "24h" then Some (24 * 60 * 60 * 1000)
  else if String.eqb timeRange "7d" then Some (7 * 24 * 60 * 60 * 1000)
  else if String.eqb timeRange "30d" then Some (30 * 24 * 60 * 60 * 1000)
  else None.

(** [new Date(Date.now() - timeRanges[timeRange])]: the subtraction is NaN
    when the table has no such key. *)
Definition since_date (timeRange : string) : M JSDate :=
  now <- Date_now ;;
  ret (match timeRanges timeRange with
       | Some span => ValidDate (now - span)
       | None => InvalidDate
       end).

(** A default parameter value: used when the argument is [undefined]. *)
Definition default_arg (arg : option string) (dflt : string) : string :=
  match arg with
  | Some s => s
  | None => dflt
  end.

(** [getVMMetrics(vmId, timeRange = '1h')]. *)
Definition getVMMetrics (vmId : ObjectId) (timeRange : option string)
  : M (list VMMetrics) :=
  let timeRange := default_arg timeRange "1h" in
  try_catch
    (since <- since_date timeRange ;;
     VMMetrics_find vmId since)
    (fun e => Logger_log L1Critical "Failed to get VM metrics" (Some vmId) ;;
              throw e).

(** [getSystemMetrics(timeRange = '1h')]. *)
Definition getSystemMetrics (timeRange : option string)
  : M (list PerformanceMetrics) :=
  let timeRange := default_arg timeRange "1h" in
  try_catch
    (since <- since_date timeRange ;;
     PerformanceMetrics_find_system since)
    (fun e => Logger_log L1Critical "Failed to get system metrics" None ;;
              throw e).

(** [getPerformanceSummary(timeRange = '24h')]; the result is
    [summary[0] || {}]. *)
Definition getPerformanceSummary (timeRange : option string) : M JSValue :=
  let timeRange := default_arg timeRange "24h" in
  try_catch
    (since <- since_date timeRange ;;
     summary <- VMMetrics_aggregate since summary_group ;;
     ret (js_or (first_or_undefined summary) (JObj [])))
    (fun e => Logger_log L1Critical "Failed to get performance summary" None ;;
              throw e).

(** *** Resolution *)

(** The update document of [resolveAlert]; [resolvedBy] is a trimmed
    string path. *)
Definition resolve_update (now : Z) (resolvedBy : string) (a : SystemAlert)
  : SystemAlert :=
  mkSystemAlert (sa_id a) (sa_vmId a) (sa_type a) (sa_severity a) (sa_level a)
    (sa_title a) (sa_message a) (sa_currentValue a) (sa_count a)
    true (Some now) (Some (trim resolvedBy)) (sa_lastSeen a)
    (sa_acknowledged a) (sa_acknowledgedBy a) (sa_acknowledgedAt a)
    (sa_metadata a) (sa_createdAt a) (sa_updatedAt a).

(** [resolveAlert(alertId, resolvedBy = 'system')]; [alertId] is the
    string of the route parameter. *)
Definition resolveAlert (alertId : string) (resolvedBy : option string)
  : M (option SystemAlert) :=
  let resolvedBy := default_arg resolvedBy "system" in
  try_catch
    (now <- Date_now ;;
     alert <- SystemAlert_findByIdAndUpdate alertId (resolve_update now resolvedBy) ;;
     match alert with
     | Some _ => Logger_log L3Info "Alert resolved" (castObjectId alertId)
     | None => ret tt
     end ;;
     ret alert)
    (fun e => Logger_log L1Critical "Failed to resolve alert" (castObjectId alertId) ;;
              throw e).

(* ------------------------------------------------------------------ *)
(** ** MonitoringController.resolveAlert *)

(** The response of the handler: status code and the [data] or [error]
    member of the JSON body. *)
Inductive HttpResponse : Type :=
| Json200 (data : SystemAlert)
| Json404 (err : string)
| Json500 (err : string).

Definition Logger_logPerformance (operation : string) (duration : Z) (ref : option ObjectId)
  : M unit :=
  Logger_log (if 5000 <? duration then L2Warning else L3Info)
    (append "Performance: "
       (append operation
          (append " took "
             (append (NilZero.string_of_uint (N.to_uint (Z.to_N duration))) "ms"))))
    ref.

(** The socket server of the application. *)
Inductive SocketServer : Type := SocketIO.

(** The application setting ['io'] as [server.js] leaves it: the file
    never calls [app.set], so that [app.get('io')] is [undefined]. *)
Definition server_io : option SocketServer := None.

(** [req.app.get('io').emit('alert:resolved', alert)], for the value
    [io] of the setting: a [TypeError] when it is [undefined]. *)
Definition emit_alert_resolved (io : option SocketServer) (a : SystemAlert)
  : M unit :=
  match io with
  | Some _ => modify (fun w => set_emitted (w_emitted w ++ [a]) w)
  | None => throw (TypeError "Cannot read properties of undefined (reading 'emit')")
  end.

(** The handler; [io] is [req.app.get('io')], [alertId] is
    [req.params.alertId] and [userId] is [req.user?.id]. *)
Definition MonitoringController_resolveAlert (io : option SocketServer)
    (alertId : string) (userId : option string) : M HttpResponse :=
  startTime <- Date_now ;;
  let resolvedBy :=
    match userId with
    | Some u => if String.eqb u "" then "system" else u
    | None => "system"
    end%string in
  try_catch
    (Logger_log L3Info "Resolving alert" (castObjectId alertId) ;;
     alert <- resolveAlert alertId (Some resolvedBy) ;;
     match alert with
     | None => ret (Json404 "Alert not found")
     | Some a =>
         finish <- Date_now ;;
         Logger_logPerformance "resolveAlert" (finish - startTime)
           (castObjectId alertId) ;;
         emit_alert_resolved io a ;;
         ret (Json200 a)
     end)
    (fun _ => Logger_log L1Critical "Failed to resolve alert" (castObjectId alertId) ;;
              ret (Json500 "Failed to resolve alert")).

(* ------------------------------------------------------------------ *)
(** ** Sample worlds *)

Definition no_faults : nat -> bool := fun _ => false.
Definition zero_draws : nat -> Q := fun _ => 0%Q.

(** An empty database, a stopped service, noon UTC of day 0. *)
Definition empty_world : World :=
  {| w_now := 43200000; w_tz := 0;
     w_rand := zero_draws; w_randIx := 0;
     w_faults := no_faults; w_ops := 0;
     w_nextId := 1%N;
     w_vms := []; w_vmMetrics := []; w_alerts := []; w_perf := [];
     w_log := [];
     w_isRunning := false; w_metricsInterval := None;
     w_timers := []; w_nextTimer := 1%N;
     w_emitted := [] |}.

(* ------------------------------------------------------------------ *)
(** ** Vocabulary of the properties *)

(** The events of one type in an [alerts] array. *)
Definition events_of (t : AlertType) (l : list AlertEvent) : list AlertEvent :=
  filter (fun ev => AlertType_eqb (ae_type ev) t) l.

(** The named time ranges. *)
Definition valid_ranges : list string := ["1h"; "24h"; "7d"; "30d"]%string.

(** Draws of [Math.random()] are in [0, 1). *)
Definition draws_in_range (rand : nat -> Q) : Prop :=
  forall i, (0 <= rand i /\ rand i < 1)%Q.

(** A low base load with a low jitter: 1/16, 1/8, then 1/2 for ever. *)
Definition low_draws : nat -> Q :=
  fun i => match i with
           | O => (1 # 16)%Q
           | S O => (1 # 8)%Q
           | _ => (1 # 2)%Q
           end.

(** An operation rejects its input before any side effect: it throws and
    leaves the world as it found it. *)
Definition rejects_untouched {A : Type} (op : M A) (w : World) : Prop :=
  exists e, op w = (Throw e, w).

(** A summary object is zeroed on [dataPoints]. *)
Definition dataPoints_zero (v : JSValue) : Prop :=
  exists q, js_get v "dataPoints" = JNum q /\ (q == 0)%Q.

(** The warnings logged by [saveVMMetrics]. *)
Definition is_save_warning (e : LogEntry) : bool :=
  match lg_level e with
  | L2Warning => String.eqb (lg_message e) "Failed to save VM metrics"
  | _ => false
  end.

Definition save_warnings (w : World) : nat :=
  List.length (filter is_save_warning (w_log w)).

(** The instance was handled in the cycle that led to [w']: a point of it
    was stored, or the failure to store it was logged. *)
Definition handled (vmId : ObjectId) (w' : World) : Prop :=
  (exists d, In d (w_vmMetrics w') /\ vmm_vmId d = vmId)
  \/ In (mkLog L2Warning "Failed to save VM metrics" (Some vmId)) (w_log w').

(** Calls of the scheduler interface. *)
Inductive SchedCall : Type := CallStart | CallStop.

Definition run_call (c : SchedCall) (w : World) : World :=
  match c with
  | CallStart => snd (startMonitoring w)
  | CallStop => snd (stopMonitoring w)
  end.

Definition run_calls (cs : list SchedCall) (w : World) : World :=
  fold_left (fun acc c => run_call c acc) cs w.

(** The state of the singleton built by the constructor. *)
Definition constructed (w : World) : Prop :=
  w_isRunning w = false /\ w_metricsInterval w = None /\ w_timers w = [].

(** The scheduler invariant: one timer, held in [metricsInterval], exactly
    when running. *)
Definition sched_inv (w : World) : Prop :=
  if w_isRunning w
  then exists t, w_metricsInterval w = Some t /\ w_timers w = [t]
  else w_metricsInterval w = None /\ w_timers w = [].

(** *** Sample data *)

Definition vmA : VM := mkVM 7%N running (Some 0).
Definition vmB : VM := mkVM 8%N running (Some 0).

Definition with_vms (vms : list VM) (w : World) : World :=
  mkWorld (w_now w) (w_tz w) (w_rand w) (w_randIx w) (w_faults w) (w_ops w)
    (w_nextId w) vms (w_vmMetrics w) (w_alerts w) (w_perf w) (w_log w)
    (w_isRunning w) (w_metricsInterval w) (w_timers w) (w_nextTimer w)
    (w_emitted w).

Definition with_rand (rand : nat -> Q) (w : World) : World :=
  mkWorld (w_now w) (w_tz w) rand (w_randIx w) (w_faults w) (w_ops w)
    (w_nextId w) (w_vms w) (w_vmMetrics w) (w_alerts w) (w_perf w) (w_log w)
    (w_isRunning w) (w_metricsInterval w) (w_timers w) (w_nextTimer w)
    (w_emitted w).

(** A reading with the CPU at 95 % and everything else quiet. *)
Definition hot_cpu : Metrics :=
  {| cpuUsage := 95; memoryUsage := 40; diskUsage := 50;
     networkIn := 100; networkOut := 50; diskRead := 10; diskWrite := 5;
     uptime := 3600; status := running; responseTime := 20;
     errorRate := (1 # 100)%Q |}.



(** An unresolved and a resolved alert. *)
Definition open_alert : SystemAlert :=
  new_alert 41%N 7%N
    (mkAlertEvent cpu_high critical "High CPU usage: 95.0%" 95) 43000000.

Definition closed_alert : SystemAlert :=
  set_updatedAt 43100000 (resolve_update 43100000 "alice" open_alert).

Definition with_alerts (l : list SystemAlert) (w : World) : World :=
  set_alerts l w.

(** A world whose clock is at day 60 and whose only point is of day 0,
    older than every named range. *)
Definition old_point : VMMetrics :=
  {| vmm_vmId := 7%N; vmm_timestamp := 1000; vmm_cpuUsage := 50;
     vmm_memoryUsage := 40; vmm_diskUsage := 50; vmm_status := running |}.

Definition day60_world : World :=
  set_vmMetrics [old_point] (set_now (60 * 24 * 60 * 60 * 1000) empty_world).

(** Noon, business hours, with the low draws. *)
Definition low_world : World := with_rand low_draws (with_vms [vmA] empty_world).

(** *** Alert store *)

(** A record without a [type], as [createAlert] writes them. *)
Definition untyped (a : SystemAlert) : Prop := sa_type a = None.

(** Two evaluations of the same hot reading of [vmA], thirty seconds
    apart, from an empty alert collection. *)
Definition first_eval : World :=
  snd (checkForAlerts vmA hot_cpu (with_vms [vmA] empty_world)).

Definition second_eval : World :=
  snd (checkForAlerts vmA hot_cpu (set_now (w_now first_eval + 30000) first_eval)).

(** *** Collection cycle *)

(** The document of the instance carries its creation date. *)
Definition dated (vm : VM) : Prop := vm_createdAt vm <> None.

(** Points stored plus save failures logged. *)
Definition progress (w : World) : nat :=
  (List.length (w_vmMetrics w) + save_warnings w)%nat.

(** Steps that neither sample nor save a point. *)
Definition same_cycle (w w' : World) : Prop :=
  w_vmMetrics w' = w_vmMetrics w /\ w_randIx w' = w_randIx w
  /\ save_warnings w' = save_warnings w.

(** Points and log entries are only ever appended. *)
Definition grows (w w' : World) : Prop :=
  (exists ds, w_vmMetrics w' = w_vmMetrics w ++ ds)
  /\ (exists es, w_log w' = w_log w ++ es).

Definition half_draws : nat -> Q := fun _ => (1 # 2)%Q.

(** The first write of the cycle (operation 1, after the [VM.find] of
    operation 0) fails. *)
Definition first_write_fails : nat -> bool := fun n => Nat.eqb n 1.

Definition with_faults (faults : nat -> bool) (w : World) : World :=
  mkWorld (w_now w) (w_tz w) (w_rand w) (w_randIx w) faults (w_ops w)
    (w_nextId w) (w_vms w) (w_vmMetrics w) (w_alerts w) (w_perf w) (w_log w)
    (w_isRunning w) (w_metricsInterval w) (w_timers w) (w_nextTimer w)
    (w_emitted w).

Definition calm_world : World := with_rand half_draws empty_world.

Definition flaky_world : World :=
  with_faults first_write_fails (with_vms [vmA; vmB] calm_world).

(** *** Resolution *)

(** One unresolved alert, identifier 41; one resolved by alice. *)
Definition open_world : World := with_alerts [open_alert] empty_world.
Definition closed_world : World := with_alerts [closed_alert] empty_world.

(** The route parameters of the identifiers 41 (hexadecimal 29) and 99
    (hexadecimal 63), and one that is no identifier. *)
Definition id41 : string := "000000000000000000000029".
Definition id99 : string := "000000000000000000000063".
Definition malformed_id : string := "not-an-id".

(** *** Queries *)

(** The world after one collection cycle over [vmA] and [vmB]. *)
Definition cycled_world : World :=
  snd (collectMetrics (with_vms [vmA; vmB] calm_world)).

(* ------------------------------------------------------------------ *)
(** ** Vocabulary of the further properties *)

(** *** Thresholds *)






(** The local hour read by [generateVMMetrics]. *)
Definition hour_of (w : World) : Z := ((w_now w + w_tz w) / 3600000) mod 24.

(** *** Sampling *)

(** The reading that [generateVMMetrics] returns for an instance created
    at [c], as a function of the ten draws it takes from the world. *)
Definition reading_of (vm : VM) (c : Z) (w : World) : Metrics :=
  let r := fun i => w_rand w (i + w_randIx w)%nat in
  let mult := if ((9 <=? hour_of w) && (hour_of w <=? 17))%bool
              then (3 # 2)%Q else (4 # 5)%Q in
  {| cpuUsage := Math_min 100 (r 0%nat * 50 * mult + (r 1%nat * 20 - 10))%Q;
     memoryUsage :=
       Math_min 100 (r 0%nat * 50 * (4 # 5) * mult + (r 2%nat * 15 - (15 # 2)))%Q;
     diskUsage := Math_min 100 (30 + r 3%nat * 40)%Q;
     networkIn := Math_floor (r 4%nat * 1000 + 100)%Q;
     networkOut := Math_floor (r 5%nat * 500 + 50)%Q;
     diskRead := Math_floor (r 6%nat * 100 + 10)%Q;
     diskWrite := Math_floor (r 7%nat * 50 + 5)%Q;
     uptime := w_now w / 1000 - c / 1000;
     status := vm_status vm;
     responseTime := Math_floor (r 8%nat * 50 + 10)%Q;
     errorRate := (r 9%nat * (5 # 100))%Q |}.

(** *** Alert store *)

(** The point that [saveVMMetrics] builds from a reading. *)
Definition point_of (vmId : ObjectId) (metrics : Metrics) (now : Z) : VMMetrics :=
  {| vmm_vmId := vmId;
     vmm_timestamp := now;
     vmm_cpuUsage := cpuUsage metrics;
     vmm_memoryUsage := memoryUsage metrics;
     vmm_diskUsage := diskUsage metrics;
     vmm_status := status metrics |}.

(** The three percentages of a reading pass the validators of the
    schema. *)
Definition valid_percentages (metrics : Metrics) : bool :=
  (in_percent_range (cpuUsage metrics)
   && in_percent_range (memoryUsage metrics)
   && in_percent_range (diskUsage metrics))%bool.

(** A record as another writer would store it, with its [type]: an
    unresolved [cpu_high] alert of instance 7, created at [created] and
    last seen at [seen]. *)
Definition typed_alert (id : ObjectId) (created seen : Z) : SystemAlert :=
  {| sa_id := id;
     sa_vmId := Some 7%N;
     sa_type := Some "cpu_high"%string;
     sa_severity := Some critical;
     sa_level := critical;
     sa_title := "cpu_high";
     sa_message := "High CPU usage: 95.0%";
     sa_currentValue := Some 95%Q;
     sa_count := 3;
     sa_resolved := false;
     sa_resolvedAt := None;
     sa_resolvedBy := None;
     sa_lastSeen := seen;
     sa_acknowledged := false;
     sa_acknowledgedBy := None;
     sa_acknowledgedAt := None;
     sa_metadata := JObj [];
     sa_createdAt := created;
     sa_updatedAt := seen |}.

Definition hot_event : AlertEvent :=
  mkAlertEvent cpu_high critical "High CPU usage: 97.0%" 97.

(** At the clock of [empty_world] (43200000): a typed record created one
    minute ago, and one created six minutes ago and seen one second
    ago. *)
Definition recent_typed_world : World :=
  with_alerts [typed_alert 51%N 43140000 43140000] empty_world.

Definition stale_typed_world : World :=
  with_alerts [typed_alert 52%N 42840000 43199000] empty_world.

(** Every round trip fails. *)
Definition all_faults : nat -> bool := fun _ => true.

(** *** Collection cycle *)

(** The point of the instance [vm] in the cycle of time [now]: it has
    the identifier and the status of the instance and is stamped with the
    time of the cycle. *)
Definition point_for (now : Z) (vm : VM) (d : VMMetrics) : Prop :=
  vmm_vmId d = vm_id vm /\ vmm_timestamp d = now /\ vmm_status d = vm_status vm.

(** [l1] is [l2] with some elements left out, the others in the order of
    [l2]. *)
Inductive subsequence {A : Type} : list A -> list A -> Prop :=
| subsequence_nil : subsequence [] []
| subsequence_skip (x : A) (l1 l2 : list A) :
    subsequence l1 l2 -> subsequence l1 (x :: l2)
| subsequence_take (x : A) (l1 l2 : list A) :
    subsequence l1 l2 -> subsequence (x :: l1) (x :: l2).

(** From [w1] to [w2] the clock has not moved, no stored point was
    removed or changed, and the points appended are those of some of the
    instances [l]: one point for each instance of a subsequence of
    [l], in that order. *)
Definition samples (l : list VM) (w1 w2 : World) : Prop :=
  w_now w2 = w_now w1
  /\ exists sampled ds,
       w_vmMetrics w2 = w_vmMetrics w1 ++ ds
       /\ subsequence sampled l
       /\ Forall2 (point_for (w_now w1)) sampled ds.

(** From [w1] to [w2] the clock has not moved and at most [n] points,
    all satisfying [P], were appended. *)
Definition appends (P : VMMetrics -> Prop) (n : nat) (w1 w2 : World) : Prop :=
  w_now w2 = w_now w1
  /\ exists ds, w_vmMetrics w2 = w_vmMetrics w1 ++ ds /\ Forall P ds
                /\ (List.length ds <= n)%nat.

(** A fleet with one instance in each status. *)
Definition mixed_fleet : list VM :=
  [mkVM 1%N creating (Some 0); mkVM 2%N running (Some 0);
   mkVM 3%N stopped (Some 0); mkVM 4%N stopping (Some 0);
   mkVM 5%N starting (Some 0); mkVM 6%N error (Some 0);
   mkVM 7%N suspended (Some 0)].

Definition mixed_world : World := with_vms mixed_fleet calm_world.

(** *** Queries *)

(** Ascending in the key. *)
Definition ascending {A : Type} (key : A -> Z) (l : list A) : Prop :=
  StronglySorted (fun a b => key a <= key b) l.

(** Three points of instance 7 stored out of order, and one of instance
    8, at the clock of [empty_world]. *)
Definition point_at (vmId : ObjectId) (t : Z) (cpu : Q) : VMMetrics :=
  {| vmm_vmId := vmId; vmm_timestamp := t; vmm_cpuUsage := cpu;
     vmm_memoryUsage := 40; vmm_diskUsage := 50; vmm_status := running |}.

Definition history_world : World :=
  set_vmMetrics
    [point_at 7%N 43100000 30; point_at 8%N 43050000 90;
     point_at 7%N 43000000 60; point_at 7%N 1000 99;
     point_at 7%N 43150000 45]
    empty_world.

(** [vmax] is the maximum of [f] over the points [ds]: a number that
    bounds every value and is one of them. *)
Definition maximum_of (f : VMMetrics -> Q) (ds : list VMMetrics)
    (vmax : JSValue) : Prop :=
  exists mx,
    vmax = JNum mx
    /\ (forall d, In d ds -> (f d <= mx)%Q)
    /\ (exists d, In d ds /\ f d = mx).

(** A number, not [null] or [undefined]. *)
Definition is_number (v : JSValue) : Prop := exists q, v = JNum q.

(* ------------------------------------------------------------------ *)
(** ** More of the program: library functions *)

(** Decimal numeral of a natural number, padded with zeros on the left
    to [width] digits. *)
Definition digits (width : nat) (n : Z) : string :=
  pad_left width (NilZero.string_of_uint (N.to_uint (Z.to_N n))).

(** The civil date (year, month, day) of a day number counted from
    1970-01-01, in the proleptic Gregorian calendar. *)
Definition civil_from_days (days : Z) : Z * Z * Z :=
  let z := days + 719468 in
  let era := z / 146097 in
  let doe := z - era * 146097 in
  let yoe := (doe - doe / 1460 + doe / 36524 - doe / 146096) / 365 in
  let doy := doe - (365 * yoe + yoe / 4 - yoe / 100) in
  let mp := (5 * doy + 2) / 153 in
  let d := doy - (153 * mp + 2) / 5 + 1 in
  let m := if mp <? 10 then mp + 3 else mp - 9 in
  let y := yoe + era * 400 + (if m <=? 2 then 1 else 0) in
  (y, m, d).

(** [Date.prototype.toISOString] of a valid time value:
    [YYYY-MM-DDTHH:mm:ss.sssZ], with a signed six-digit year outside
    0..9999. *)
Definition toISOString (ms : Z) : string :=
  let days := ms / 86400000 in
  let rest := ms mod 86400000 in
  let '(y, m, d) := civil_from_days days in
  let year :=
    if ((0 <=? y) && (y <=? 9999))%bool then digits 4 y
    else append (if y <? 0 then "-" else "+") (digits 6 (Z.abs y)) in
  append year
    (append "-" (append (digits 2 m)
    (append "-" (append (digits 2 d)
    (append "T" (append (digits 2 (rest / 3600000))
    (append ":" (append (digits 2 ((rest / 60000) mod 60))
    (append ":" (append (digits 2 ((rest / 1000) mod 60))
    (append "." (append (digits 3 (rest mod 1000)) "Z")))))))))))).

(** [String.prototype.includes]. *)
Fixpoint includes (s sub : string) : bool :=
  if String.prefix sub s then true
  else match s with
       | EmptyString => false
       | String _ tl => includes tl sub
       end.

(** [ToNumber] on the primitive values that a summary can hold (numbers,
    [null], [undefined]) and on booleans and dates; [None] is NaN.
    Strings and objects do not occur where it is used and read as NaN. *)
Definition to_number (v : JSValue) : option Q :=
  match v with
  | JNum q => Some q
  | JNull => Some 0%Q
  | JBool b => Some (if b then 1 else 0)%Q
  | JDate ms => Some (inject_Z ms)
  | JUndefined | JNaN | JStr _ | JObj _ => None
  end.

Definition of_number (n : option Q) : JSValue :=
  match n with
  | Some q => JNum q
  | None => JNaN
  end.

(** [a + b], [a * b] and [a / b] on such values; the divisor used by the
    program is a non-zero literal. *)
Definition js_add (a b : JSValue) : JSValue :=
  of_number match to_number a, to_number b with
            | Some x, Some y => Some (x + y)%Q
            | _, _ => None
            end.

Definition js_mul (a b : JSValue) : JSValue :=
  of_number match to_number a, to_number b with
            | Some x, Some y => Some (x * y)%Q
            | _, _ => None
            end.

Definition js_div (a b : JSValue) : JSValue :=
  of_number match to_number a, to_number b with
            | Some x, Some y => if Qeq_bool y 0 then None else Some (x / y)%Q
            | _, _ => None
            end.

(** [Promise.all] of three calls: all three run, in the order of the
    calls, whatever the outcome of the others; the result is the triple
    of the values, or the first rejection. *)
Definition settle {A : Type} (m : M A) : M (Result A) :=
  fun w => let (r, w') := m w in (Ok r, w').

Definition Promise_all3 {A B C : Type} (a : M A) (b : M B) (c : M C)
  : M (A * B * C) :=
  ra <- settle a ;;
  rb <- settle b ;;
  rc <- settle c ;;
  match ra, rb, rc with
  | Ok x, Ok y, Ok z => ret (x, y, z)
  | Throw e, _, _ => throw e
  | _, Throw e, _ => throw e
  | _, _, Throw e => throw e
  end.

(* ------------------------------------------------------------------ *)
(** ** More of the program: active alerts and the other handlers *)

(** The document that [populate('vmId', 'name status')] puts in place of
    the reference: of the selected paths the model keeps the identifier
    and the status ([name] is not a field of the [VM] record here). *)
Record PopulatedVM := mkPopulatedVM {
  pv_id : ObjectId;
  pv_status : VMStatus
}.

(** An alert as [getActiveAlerts] returns it: the document, and the
    populated [vmId] ([None] is the [null] of a reference that is absent
    or dangling). *)
Record ActiveAlert := mkActiveAlert {
  aa_alert : SystemAlert;
  aa_vm : option PopulatedVM
}.

Definition populate_vm (vms : list VM) (a : SystemAlert) : option PopulatedVM :=
  match sa_vmId a with
  | None => None
  | Some id =>
      match find (fun vm => N.eqb (vm_id vm) id) vms with
      | Some vm => Some (mkPopulatedVM (vm_id vm) (vm_status vm))
      | None => None
      end
  end.

(** The filter of [getActiveAlerts]: unresolved, and of the instance when
    one is given. *)
Definition active_filter (vmId : option ObjectId) (a : SystemAlert) : bool :=
  (negb (sa_resolved a)
   && match vmId with
      | None => true
      | Some id => match sa_vmId a with Some v => N.eqb v id | None => false end
      end)%bool.

Definition has_reference (a : SystemAlert) : bool :=
  match sa_vmId a with
  | Some _ => true
  | None => false
  end.

(** [SystemAlert.find(query).sort({ createdAt: -1 }).populate('vmId',
    'name status')]: one round trip for the alerts and, when one of them
    has a reference, one for the instances. *)
Definition SystemAlert_find_active (vmId : option ObjectId) : M (list ActiveAlert) :=
  alerts <- store (gets (fun w =>
              sort_by (fun a => - sa_createdAt a)
                (filter (active_filter vmId) (w_alerts w)))) ;;
  if existsb has_reference alerts
  then store (gets (fun w =>
         map (fun a => mkActiveAlert a (populate_vm (w_vms w) a)) alerts))
  else ret (map (fun a => mkActiveAlert a None) alerts).

(** [getActiveAlerts(vmId = null)]. *)
Definition getActiveAlerts (vmId : option ObjectId) : M (list ActiveAlert) :=
  try_catch
    (SystemAlert_find_active vmId)
    (fun e => Logger_log L1Critical "Failed to get active alerts" vmId ;;
              throw e).

(** [activeAlerts.filter(alert => alert.severity === s).length]. *)
Definition Severity_eqb (a b : Severity) : bool :=
  match a, b with
  | critical, critical | warning, warning | info, info => true
  | _, _ => false
  end.

Definition count_severity (s : Severity) (l : list ActiveAlert) : Z :=
  Z.of_nat (List.length
    (filter (fun x => match sa_severity (aa_alert x) with
                      | Some s' => Severity_eqb s' s
                      | None => false
                      end) l)).

(** *** MonitoringController.getDashboardData *)

Record DashboardOverview := mkDashboardOverview {
  ov_totalDataPoints : Z;
  ov_activeAlertCount : Z;
  ov_criticalAlerts : Z;
  ov_warningAlerts : Z;
  ov_timeRange : string;
  ov_lastUpdated : string
}.

Record DashboardData := mkDashboardData {
  dd_systemMetrics : list PerformanceMetrics;
  dd_activeAlerts : list ActiveAlert;
  dd_performanceSummary : JSValue;
  dd_overview : DashboardOverview
}.

(** The response of a handler: status 200 with the [data] member, or 500
    with the [error] member. *)
Inductive Response (A : Type) : Type :=
| Res200 (data : A)
| Res500 (err : string).
Arguments Res200 {A} data.
Arguments Res500 {A} err.

(** The handler; [timeRange] is [req.query.timeRange]. *)
Definition MonitoringController_getDashboardData (timeRange : option string)
  : M (Response DashboardData) :=
  startTime <- Date_now ;;
  let timeRange := default_arg timeRange "1h" in
  try_catch
    (Logger_log L3Info "Fetching dashboard data" None ;;
     r <- Promise_all3 (getSystemMetrics (Some timeRange))
                       (getActiveAlerts None)
                       (getPerformanceSummary (Some timeRange)) ;;
     let '(systemMetrics, activeAlerts, performanceSummary) := r in
     updated <- Date_now ;;
     let dashboardData :=
       {| dd_systemMetrics := systemMetrics;
          dd_activeAlerts := activeAlerts;
          dd_performanceSummary := performanceSummary;
          dd_overview :=
            {| ov_totalDataPoints := Z.of_nat (List.length systemMetrics);
               ov_activeAlertCount := Z.of_nat (List.length activeAlerts);
               ov_criticalAlerts := count_severity critical activeAlerts;
               ov_warningAlerts := count_severity warning activeAlerts;
               ov_timeRange := timeRange;
               ov_lastUpdated := toISOString updated |} |} in
     finish <- Date_now ;;
     Logger_logPerformance "getDashboardData" (finish - startTime) None ;;
     ret (Res200 dashboardData))
    (fun _ => Logger_log L1Critical "Failed to fetch dashboard data" None ;;
              ret (Res500 "Failed to fetch dashboard data")).

(** *** MonitoringController.getSystemOverview *)

Record Overview := mkOverview {
  so_metrics : SystemMetrics;
  so_alerts : Z;
  so_criticalAlerts : Z;
  so_warningAlerts : Z;
  so_uptime : Q;
  so_lastUpdate : string
}.

(** The handler; [uptime] is the value of [process.uptime()]. *)
Definition MonitoringController_getSystemOverview (uptime : Q)
  : M (Response Overview) :=
  startTime <- Date_now ;;
  try_catch
    (Logger_log L3Info "Fetching system overview" None ;;
     systemMetrics <- collectSystemMetrics ;;
     activeAlerts <- getActiveAlerts None ;;
     updated <- Date_now ;;
     let overview :=
       {| so_metrics := systemMetrics;
          so_alerts := Z.of_nat (List.length activeAlerts);
          so_criticalAlerts := count_severity critical activeAlerts;
          so_warningAlerts := count_severity warning activeAlerts;
          so_uptime := uptime;
          so_lastUpdate := toISOString updated |} in
     finish <- Date_now ;;
     Logger_logPerformance "getSystemOverview" (finish - startTime) None ;;
     ret (Res200 overview))
    (fun _ => Logger_log L1Critical "Failed to fetch system overview" None ;;
              ret (Res500 "Failed to fetch system overview")).

(** *** MonitoringController.getPerformanceMetrics *)

(** [alert.type.includes('crash')]: a [TypeError] when [type] is
    undefined. *)
Definition type_includes_crash (x : ActiveAlert) : M bool :=
  match sa_type (aa_alert x) with
  | Some t => ret (includes t "crash")
  | None => throw (TypeError "Cannot read properties of undefined (reading 'includes')")
  end.

(** [activeAlerts.filter(p)] and [activeAlerts.find(p)] for a predicate
    that can throw. *)
Fixpoint filterM (p : ActiveAlert -> M bool) (l : list ActiveAlert)
  : M (list ActiveAlert) :=
  match l with
  | [] => ret []
  | x :: tl =>
      b <- p x ;;
      rest <- filterM p tl ;;
      ret (if b : bool then x :: rest else rest)
  end.

Fixpoint findM (p : ActiveAlert -> M bool) (l : list ActiveAlert)
  : M (option ActiveAlert) :=
  match l with
  | [] => ret None
  | x :: tl =>
      b <- p x ;;
      if b : bool then ret (Some x) else findM p tl
  end.

(** The handler; [timeRange] is [req.query.timeRange].  The [data]
    member is the [metrics] object. *)
Definition MonitoringController_getPerformanceMetrics (timeRange : option string)
  : M (Response JSValue) :=
  startTime <- Date_now ;;
  let timeRange := default_arg timeRange "24h" in
  try_catch
    (Logger_log L3Info "Fetching performance metrics" None ;;
     performanceSummary <- getPerformanceSummary (Some timeRange) ;;
     systemMetrics <- getSystemMetrics (Some timeRange) ;;
     activeAlerts <- getActiveAlerts None ;;
     let get := js_get performanceSummary in
     let system :=
       JObj [("cpuUsage"%string, js_or (get "avgCpuUsage"%string) (JNum 0));
             ("memoryUsage"%string, js_or (get "avgMemoryUsage"%string) (JNum 0));
             ("diskUsage"%string, js_or (get "avgDiskUsage"%string) (JNum 0));
             ("networkUtilization"%string,
                js_or (js_div (js_add (get "totalNetworkIn"%string)
                                      (get "totalNetworkOut"%string)) (JNum 2))
                      (JNum 0))] in
     r1 <- Math_random ;;
     r2 <- Math_random ;;
     let application :=
       JObj [("requestsPerSecond"%string, JNum (inject_Z (Math_floor (r1 * 1000)%Q)));
             ("averageResponseTime"%string, js_or (get "avgResponseTime"%string) (JNum 0));
             ("errorRate"%string,
                js_or (js_mul (get "avgErrorRate"%string) (JNum 100)) (JNum 0));
             ("activeConnections"%string, JNum (inject_Z (Math_floor (r2 * 100)%Q)))] in
     r3 <- Math_random ;;
     r4 <- Math_random ;;
     reset <- Date_now ;;
     let rateLimits :=
       JObj [("current"%string, JNum (inject_Z (Math_floor (r3 * 80)%Q)));
             ("limit"%string, JNum 100);
             ("remaining"%string, JNum (inject_Z (Math_floor (r4 * 20)%Q)));
             ("resetTime"%string, JStr (toISOString (reset + 900000)))] in
     crashed <- filterM type_includes_crash activeAlerts ;;
     lastCrash <- findM type_includes_crash activeAlerts ;;
     let crashes :=
       JObj [("count24h"%string, JNum (inject_Z (Z.of_nat (List.length crashed))));
             ("lastCrash"%string,
                match lastCrash with
                | Some x => JDate (sa_createdAt (aa_alert x))
                | None => JNull
                end);
             ("avgRecoveryTime"%string, JStr "45 seconds")] in
     let metrics :=
       JObj [("summary"%string, performanceSummary);
             ("system"%string, system);
             ("application"%string, application);
             ("rateLimits"%string, rateLimits);
             ("crashes"%string, crashes);
             ("timeRange"%string, JStr timeRange);
             ("dataPoints"%string, js_or (get "dataPoints"%string) (JNum 0))] in
     finish <- Date_now ;;
     Logger_logPerformance "getPerformanceMetrics" (finish - startTime) None ;;
     ret (Res200 metrics))
    (fun _ => Logger_log L1Critical "Failed to fetch performance metrics" None ;;
              ret (Res500 "Failed to fetch performance metrics")).

(** *** MonitoringController.getVMUsageHistory *)

Record UsagePoint := mkUsagePoint {
  up_timestamp : string;
  up_cpu : Q;
  up_memory : Q;
  up_disk : Q;
  up_inbound : Q;
  up_outbound : Q
}.

Record UsageHistory := mkUsageHistory {
  uh_vmId : ObjectId;
  uh_timeRange : string;
  uh_interval : string;
  uh_dataPoints : list UsagePoint
}.

(** [timeRange === '1h' ? 12 : timeRange === '24h' ? 288 : 72]. *)
Definition usage_intervals (timeRange : string) : nat :=
  if String.eqb timeRange "1h" then 12%nat
  else if String.eqb timeRange "24h" then 288%nat
  else 72%nat.

(** One turn of the loop, for the index [i]. *)
Definition usage_point (now : Z) (i : nat) : M UsagePoint :=
  cpu <- Math_random ;;
  memory <- Math_random ;;
  disk <- Math_random ;;
  inbound <- Math_random ;;
  outbound <- Math_random ;;
  ret {| up_timestamp := toISOString (now - Z.of_nat i * 5 * 60 * 1000);
         up_cpu := (cpu * 100)%Q;
         up_memory := (memory * 100)%Q;
         up_disk := (disk * 100)%Q;
         up_inbound := (inbound * 100)%Q;
         up_outbound := (outbound * 80)%Q |}.

(** [for (let i = intervals; i >= 0; i--) dataPoints.push(...)]. *)
Fixpoint usage_loop (now : Z) (i : nat) : M (list UsagePoint) :=
  p <- usage_point now i ;;
  match i with
  | O => ret [p]
  | S i' => rest <- usage_loop now i' ;; ret (p :: rest)
  end.

(** The handler; [timeRange] and [interval] are the members of
    [req.query]. *)
Definition MonitoringController_getVMUsageHistory (vmId : ObjectId)
    (timeRange interval : option string) : M (Response UsageHistory) :=
  startTime <- Date_now ;;
  let timeRange := default_arg timeRange "1h" in
  let interval := default_arg interval "5m" in
  try_catch
    (Logger_log L3Info "Fetching VM usage history" (Some vmId) ;;
     now <- Date_now ;;
     dataPoints <- usage_loop now (usage_intervals timeRange) ;;
     finish <- Date_now ;;
     Logger_logPerformance "getVMUsageHistory" (finish - startTime) (Some vmId) ;;
     ret (Res200 {| uh_vmId := vmId; uh_timeRange := timeRange;
                    uh_interval := interval; uh_dataPoints := dataPoints |}))
    (fun _ => Logger_log L1Critical "Failed to fetch VM usage history" (Some vmId) ;;
              ret (Res500 "Failed to fetch VM usage history")).

(** *** Vocabulary *)

(** The database answers every request. *)
Definition reliable (w : World) : Prop := forall n, w_faults w n = false.

(** A record without a [severity], as [createAlert] writes them. *)
Definition unrated (a : SystemAlert) : Prop := sa_severity a = None.

(** Descending in the creation date. *)
Definition newest_first (l : list SystemAlert) : Prop :=
  ascending (fun a => - sa_createdAt a) l.

(** Two unresolved alerts of instance 7 and a resolved one of instance 8,
    as [createAlert] and [resolveAlert] leave them, over the fleet
    [vmA], [vmB]. *)
Definition alert_of (id vmId : ObjectId) (created : Z) : SystemAlert :=
  new_alert id vmId (mkAlertEvent cpu_high critical "High CPU usage: 95.0%" 95)
    created.

Definition triage_world : World :=
  with_alerts
    [alert_of 61%N 7%N 43000000;
     set_updatedAt 43100000 (resolve_update 43100000 "alice" (alert_of 62%N 8%N 43050000));
     alert_of 63%N 7%N 43150000]
    (with_vms [vmA; vmB] calm_world).

(* ------------------------------------------------------------------ *)
(** ** Comparisons on numbers *)

Lemma Qgtb_true (x y : Q) : Qgtb x y = true <-> (y < x)%Q.
Proof.
  unfold Qgtb. rewrite negb_true_iff, <- not_true_iff_false, Qle_bool_iff.
  split; intro H.
  - apply Qnot_le_lt; exact H.
  - apply Qlt_not_le; exact H.
Qed.

Lemma Qgtb_false (x y : Q) : Qgtb x y = false <-> (x <= y)%Q.
Proof.
  unfold Qgtb. rewrite negb_false_iff. apply Qle_bool_iff.
Qed.

Lemma Math_min_le_l (a b : Q) : (Math_min a b <= a)%Q.
Proof.
  unfold Math_min. destruct (Qle_bool a b) eqn:E.
  - apply Qle_refl.
  - apply Qlt_le_weak, Qgtb_true. unfold Qgtb. now rewrite E.
Qed.

Lemma Math_min_eq_r (a b : Q) : (b < a)%Q -> Math_min a b = b.
Proof.
  intro H. unfold Math_min.
  destruct (Qle_bool a b) eqn:E; [|reflexivity].
  apply Qle_bool_iff in E. exfalso. apply (Qlt_not_le _ _ H E).
Qed.

(* ------------------------------------------------------------------ *)
(** ** Threshold evaluation *)

Section Evaluator.

Variable m : Metrics.

Lemma events_of_app (t : AlertType) (l1 l2 : list AlertEvent) :
  events_of t (l1 ++ l2) = events_of t l1 ++ events_of t l2.
Proof. apply filter_app. Qed.

Lemma memory_alerts_type (t : AlertType) :
  t <> memory_high -> events_of t (memory_alerts m) = [].
Proof.
  intro Ht. unfold memory_alerts.
  destruct (Qgtb (memoryUsage m) 95); [|destruct (Qgtb (memoryUsage m) 85)];
    destruct t; simpl; congruence.
Qed.

Lemma disk_alerts_type (t : AlertType) :
  t <> disk_full -> events_of t (disk_alerts m) = [].
Proof.
  intro Ht. unfold disk_alerts.
  destruct (Qgtb (diskUsage m) 95); destruct t; simpl; congruence.
Qed.

Lemma error_rate_alerts_type (t : AlertType) :
  t <> error_rate_high -> events_of t (error_rate_alerts m) = [].
Proof.
  intro Ht. unfold error_rate_alerts.
  destruct (Qgtb (errorRate m) (2 # 100)); destruct t; simpl; congruence.
Qed.


(** The events of the CPU rule are those of its block. *)
Lemma events_of_cpu_high :
  events_of cpu_high (checkForAlerts_alerts m) = cpu_alerts m.
Proof.
  unfold checkForAlerts_alerts. rewrite !events_of_app.
  rewrite memory_alerts_type, disk_alerts_type, error_rate_alerts_type
    by discriminate.
  rewrite !app_nil_r. unfold cpu_alerts.
  destruct (Qgtb (cpuUsage m) 90); [|destruct (Qgtb (cpuUsage m) 75)];
    reflexivity.
Qed.



End Evaluator.



(* ------------------------------------------------------------------ *)
(** ** Symbolic execution *)

(** Unfolds the monad, the primitives and the accessors of the world; on
    a world that is a constructor application the accessors compute. *)
Ltac run_world :=
  cbv [bind ret throw try_catch gets modify store
       Date_now getHours Math_random Logger_log newObjectId
       set_now set_randIx set_ops set_nextId set_vmMetrics set_alerts
       set_perf set_log set_isRunning set_metricsInterval set_timers
       set_nextTimer set_emitted
       w_now w_tz w_rand w_randIx w_faults w_ops w_nextId w_vms
       w_vmMetrics w_alerts w_perf w_log w_isRunning w_metricsInterval
       w_timers w_nextTimer w_emitted fst snd].

Ltac run_world_in H :=
  cbv [bind ret throw try_catch gets modify store
       Date_now getHours Math_random Logger_log newObjectId
       set_now set_randIx set_ops set_nextId set_vmMetrics set_alerts
       set_perf set_log set_isRunning set_metricsInterval set_timers
       set_nextTimer set_emitted
       w_now w_tz w_rand w_randIx w_faults w_ops w_nextId w_vms
       w_vmMetrics w_alerts w_perf w_log w_isRunning w_metricsInterval
       w_timers w_nextTimer w_emitted fst snd] in H.

(* ------------------------------------------------------------------ *)
(** ** Sampling *)

Lemma low_draws_in_range : draws_in_range low_draws.
Proof.
  intros [|[|i]]; simpl; split; lra.
Qed.

(** What the generator does guarantee, for all draws in [0, 1): only the
    upper clamp exists, and it never binds. *)
Lemma generateVMMetrics_bounds (vm : VM) (w w' : World) (m : Metrics) :
  draws_in_range (w_rand w) ->
  generateVMMetrics vm w = (Ok m, w') ->
  (-10 <= cpuUsage m /\ cpuUsage m < 85)%Q
  /\ (-(15 # 2) <= memoryUsage m /\ memoryUsage m < (135 # 2))%Q
  /\ (30 <= diskUsage m /\ diskUsage m < 70)%Q
  /\ (0 <= errorRate m /\ errorRate m < (5 # 100))%Q.
Proof.
  intros Hr H. unfold generateVMMetrics in H.
  destruct w as [now tz rand ix faults ops nid vms pts als perf log run mi tms nt em].
  cbv [w_rand] in Hr.
  destruct (vm_createdAt vm) as [c|]; run_world_in H; [|discriminate H].
  injection H as Hm _. subst m.
  cbv [cpuUsage memoryUsage diskUsage errorRate].
  pose proof (Hr ix) as H0.
  pose proof (Hr (S ix)) as H1.
  pose proof (Hr (S (S ix))) as H2.
  pose proof (Hr (S (S (S ix)))) as H3.
  pose proof (Hr (S (S (S (S (S (S (S (S (S ix)))))))))) as H9.
  match goal with
  | |- context [if ?c then (3 # 2)%Q else ?b] =>
      set (mult := if c then (3 # 2)%Q else b)
  end.
  assert (Hmult : mult = (3 # 2)%Q \/ mult = (4 # 5)%Q)
    by (subst mult;
        match goal with |- context [if ?c then _ else _] => destruct c end;
        auto).
  clearbody mult.
  rewrite !Math_min_eq_r.
  - destruct Hmult; subst mult; repeat split; lra.
  - lra.
  - destruct Hmult; subst mult; lra.
  - destruct Hmult; subst mult; lra.
Qed.

(** C5. The percentage fields of a reading are meant to lie in [0, 100].
    At noon, with the draws 1/16 (base load) and 1/8 (jitter), both in
    [0, 1), the generator returns [cpuUsage = -45/16]: there is no lower
    clamp.  The [min: 0] validator of the schema then refuses the point,
    which is logged and not stored. *)
Theorem C5_cpu_below_zero :
  draws_in_range (w_rand low_world)
  /\ exists m w',
       generateVMMetrics vmA low_world = (Ok m, w')
       /\ (cpuUsage m == - (45 # 16))%Q
       /\ ~ (0 <= cpuUsage m)%Q
       /\ w_vmMetrics (snd (saveVMMetrics (vm_id vmA) m w')) = []
       /\ w_log (snd (saveVMMetrics (vm_id vmA) m w')) =
            [mkLog L2Warning "Failed to save VM metrics" (Some (vm_id vmA))].
Proof.
  split; [exact low_draws_in_range|].
  destruct (generateVMMetrics vmA low_world) as [r w'] eqn:E.
  vm_compute in E. injection E as <- <-.
  eexists; eexists. split; [reflexivity|].
  split; [vm_compute; reflexivity|].
  split; [intro H; vm_compute in H; apply H; reflexivity|].
  split; vm_compute; reflexivity.
Qed.

(* ------------------------------------------------------------------ *)
(** ** Alert store *)

Ltac destruct_world w :=
  destruct w as [now tz rand ix faults ops nid vms pts als perf log run mi tms nt em].

Ltac step_store :=
  match goal with
  | |- context [if ?faults ?n then _ else _] => destruct (faults n)
  end.

Lemma similar_alert_untyped (vmId : ObjectId) (ev : AlertEvent) (now : Z)
    (a : SystemAlert) :
  untyped a -> similar_alert vmId ev now a = false.
Proof.
  unfold untyped, similar_alert. intros ->.
  destruct (sa_vmId a) as [v|]; [destruct (N.eqb v vmId)|]; reflexivity.
Qed.

Lemma find_similar_untyped (vmId : ObjectId) (ev : AlertEvent) (now : Z)
    (l : list SystemAlert) :
  Forall untyped l -> find (similar_alert vmId ev now) l = None.
Proof.
  induction 1 as [|a l Ha _ IH]; simpl; [reflexivity|].
  now rewrite similar_alert_untyped.
Qed.

(** On a collection of untyped records the filter of [createAlert] finds
    nothing: the call inserts a new record or, when the store fails,
    changes nothing; it never updates. *)
Lemma createAlert_never_updates (vmId : ObjectId) (ev : AlertEvent) (w : World) :
  Forall untyped (w_alerts w) ->
  fst (createAlert vmId ev w) = Ok tt
  /\ (w_alerts (snd (createAlert vmId ev w)) = w_alerts w
      \/ w_alerts (snd (createAlert vmId ev w)) =
           w_alerts w ++ [new_alert (w_nextId w) vmId ev (w_now w)]).
Proof.
  destruct_world w. cbv [w_alerts w_nextId w_now]. intro Hu.
  unfold createAlert, SystemAlert_findOne, SystemAlert_insert.
  run_world.
  step_store; [auto|].
  rewrite (find_similar_untyped _ _ _ _ Hu).
  step_store; auto.
Qed.

(** The records written by [createAlert] are untyped. *)
Lemma createAlert_untyped (vmId : ObjectId) (ev : AlertEvent) (w : World) :
  Forall untyped (w_alerts w) ->
  Forall untyped (w_alerts (snd (createAlert vmId ev w))).
Proof.
  intro Hu. destruct (createAlert_never_updates vmId ev w Hu) as [_ [H|H]];
    rewrite H; [exact Hu|].
  apply Forall_app. split; [exact Hu|]. constructor; [reflexivity|constructor].
Qed.

(** The update branch, when a matching record is found and the store
    answers: the count of that record is incremented in place. *)
Lemma createAlert_updates_found (vmId : ObjectId) (ev : AlertEvent) (w : World)
    (a : SystemAlert) :
  w_faults w (w_ops w) = false ->
  w_faults w (S (w_ops w)) = false ->
  find (similar_alert vmId ev (w_now w)) (w_alerts w) = Some a ->
  w_alerts (snd (createAlert vmId ev w)) =
    replace_by_id
      (set_updatedAt (w_now w) (bump_alert (w_now w) (ae_value ev) a))
      (w_alerts w).
Proof.
  destruct_world w. cbv [w_faults w_ops w_now w_alerts]. intros F0 F1 Hf.
  unfold createAlert, SystemAlert_findOne, SystemAlert_update.
  run_world. rewrite F0, Hf. run_world. rewrite F1. reflexivity.
Qed.

(** C1. Two evaluations of the same (instance, type) pair within five
    minutes are meant to leave one record with [count = 2].  From an empty
    collection, two evaluations of a 95 % CPU reading of the same
    instance, thirty seconds apart, leave two records, each with
    [count = 1]: the records are written without [type], and the filter
    that looks for a similar alert asks for [type]. *)
Theorem C1_two_evaluations_two_records :
  map sa_count (w_alerts second_eval) = [1; 1]
  /\ map sa_vmId (w_alerts second_eval) = [Some (vm_id vmA); Some (vm_id vmA)]
  /\ map sa_title (w_alerts second_eval) = ["cpu_high"; "cpu_high"]%string
  /\ map sa_type (w_alerts second_eval) = [None; None]
  /\ map sa_resolved (w_alerts second_eval) = [false; false]
  /\ map sa_createdAt (w_alerts second_eval) = [43200000; 43230000].
Proof.
  vm_compute. repeat split.
Qed.

(* ------------------------------------------------------------------ *)
(** ** Collection cycle *)

Lemma same_cycle_refl (w : World) : same_cycle w w.
Proof. repeat split. Qed.

Lemma same_cycle_trans (w1 w2 w3 : World) :
  same_cycle w1 w2 -> same_cycle w2 w3 -> same_cycle w1 w3.
Proof. unfold same_cycle. intuition congruence. Qed.

Lemma grows_refl (w : World) : grows w w.
Proof. split; exists []; now rewrite app_nil_r. Qed.

Lemma grows_trans (w1 w2 w3 : World) : grows w1 w2 -> grows w2 w3 -> grows w1 w3.
Proof.
  intros [[d1 H1] [e1 G1]] [[d2 H2] [e2 G2]]. split.
  - exists (d1 ++ d2). now rewrite H2, H1, app_assoc.
  - exists (e1 ++ e2). now rewrite G2, G1, app_assoc.
Qed.

Lemma handled_grows (vmId : ObjectId) (w w' : World) :
  grows w w' -> handled vmId w -> handled vmId w'.
Proof.
  intros [[ds Hd] [es He]] [[d [Hin Hid]]|Hin].
  - left. exists d. split; [|exact Hid]. rewrite Hd. apply in_or_app. now left.
  - right. rewrite He. apply in_or_app. now left.
Qed.

(** A log entry that is not a save warning leaves the count alone. *)
Lemma filter_snoc_other (l : list LogEntry) (e : LogEntry) :
  is_save_warning e = false ->
  filter is_save_warning (l ++ [e]) = filter is_save_warning l.
Proof.
  intro He. rewrite filter_app. simpl. rewrite He. apply app_nil_r.
Qed.

Ltac solve_same_cycle :=
  unfold same_cycle, save_warnings; cbv [w_vmMetrics w_randIx w_log];
  repeat split;
  rewrite ?filter_snoc_other by reflexivity; reflexivity.

Ltac solve_grows :=
  unfold grows; cbv [w_vmMetrics w_log]; split;
  solve [ exists []; now rewrite app_nil_r
        | eexists; reflexivity
        | eexists; rewrite <- app_assoc; reflexivity ].

Lemma createAlert_frame (vmId : ObjectId) (ev : AlertEvent) (w : World) :
  fst (createAlert vmId ev w) = Ok tt
  /\ same_cycle w (snd (createAlert vmId ev w))
  /\ grows w (snd (createAlert vmId ev w)).
Proof.
  destruct_world w.
  unfold createAlert, SystemAlert_findOne, SystemAlert_update, SystemAlert_insert.
  run_world.
  step_store; [split; [reflexivity|split; [solve_same_cycle|solve_grows]]|].
  destruct (find _ als) as [a|]; step_store;
    (split; [reflexivity|split; [solve_same_cycle|solve_grows]]).
Qed.

Lemma forEach_frame {A : Type} (f : A -> M unit) (l : list A) :
  (forall x w, fst (f x w) = Ok tt /\ same_cycle w (snd (f x w))
               /\ grows w (snd (f x w))) ->
  forall w, fst (forEach l f w) = Ok tt
            /\ same_cycle w (snd (forEach l f w))
            /\ grows w (snd (forEach l f w)).
Proof.
  intro Hf. induction l as [|x l IH]; intro w; simpl.
  - split; [reflexivity|]. split; [apply same_cycle_refl|apply grows_refl].
  - unfold bind. destruct (Hf x w) as (Hr & Hs & Hg).
    destruct (f x w) as [[[]|e] w1]; cbn [fst snd] in Hr, Hs, Hg; [|discriminate].
    destruct (IH w1) as (Hr' & Hs' & Hg'). split; [exact Hr'|]. split.
    + apply (same_cycle_trans _ w1); assumption.
    + apply (grows_trans _ w1); assumption.
Qed.

Lemma checkForAlerts_frame (vm : VM) (metrics : Metrics) (w : World) :
  fst (checkForAlerts vm metrics w) = Ok tt
  /\ same_cycle w (snd (checkForAlerts vm metrics w))
  /\ grows w (snd (checkForAlerts vm metrics w)).
Proof.
  unfold checkForAlerts. apply forEach_frame. intros ev w0.
  apply createAlert_frame.
Qed.

(** [saveVMMetrics] never throws; it stores the point or logs the
    failure, one or the other. *)
Lemma saveVMMetrics_progress (vmId : ObjectId) (metrics : Metrics) (w : World) :
  fst (saveVMMetrics vmId metrics w) = Ok tt
  /\ w_randIx (snd (saveVMMetrics vmId metrics w)) = w_randIx w
  /\ progress (snd (saveVMMetrics vmId metrics w)) = S (progress w)
  /\ grows w (snd (saveVMMetrics vmId metrics w))
  /\ handled vmId (snd (saveVMMetrics vmId metrics w)).
Proof.
  destruct_world w.
  unfold saveVMMetrics, VMMetrics_save. run_world.
  destruct (validate_VMMetrics _); run_world; [|step_store];
    unfold progress, save_warnings, handled;
    cbv [w_vmMetrics w_log w_randIx fst snd];
    (split; [reflexivity|]); (split; [reflexivity|]);
    (split; [rewrite ?filter_app, ?length_app; simpl; lia|]);
    (split; [solve_grows|]).
  - right. apply in_or_app. right. now left.
  - right. apply in_or_app. right. now left.
  - left. eexists. split; [apply in_or_app; right; now left|reflexivity].
Qed.

(** Sampling an instance whose document has its creation date takes ten
    draws and returns. *)
Lemma generateVMMetrics_dated (vm : VM) (w : World) :
  dated vm ->
  exists m, generateVMMetrics vm w = (Ok m, set_randIx (10 + w_randIx w) w).
Proof.
  unfold dated. intro Hd.
  destruct (vm_createdAt vm) as [c|] eqn:Hc; [clear Hd|congruence].
  destruct_world w. unfold generateVMMetrics. rewrite Hc. run_world.
  eexists. reflexivity.
Qed.

(** Sampling an instance whose document has no creation date throws. *)
Lemma generateVMMetrics_undated (vm : VM) (w : World) :
  vm_createdAt vm = None ->
  exists e, fst (generateVMMetrics vm w) = Throw e.
Proof.
  intro Hc. destruct_world w. unfold generateVMMetrics. rewrite Hc. run_world.
  eexists. reflexivity.
Qed.

Lemma collectSystemMetrics_frame (w : World) :
  same_cycle w (snd (collectSystemMetrics w))
  /\ grows w (snd (collectSystemMetrics w)).
Proof.
  destruct_world w.
  unfold collectSystemMetrics, VM_countDocuments, VMMetrics_aggregate,
    PerformanceMetrics_save.
  run_world.
  repeat (step_store; [split; [solve_same_cycle|solve_grows]|]).
  split; [solve_same_cycle|solve_grows].
Qed.

Lemma collect_one_dated (vm : VM) (w : World) :
  dated vm ->
  fst (collect_one vm w) = Ok tt
  /\ w_randIx (snd (collect_one vm w)) = (10 + w_randIx w)%nat
  /\ progress (snd (collect_one vm w)) = S (progress w)
  /\ grows w (snd (collect_one vm w))
  /\ handled (vm_id vm) (snd (collect_one vm w)).
Proof.
  intro Hd. destruct (generateVMMetrics_dated vm w Hd) as [m Hg].
  unfold collect_one, bind. rewrite Hg.
  set (w1 := set_randIx _ w).
  assert (Hw1 : w_randIx w1 = (10 + w_randIx w)%nat /\ progress w1 = progress w
                /\ grows w w1).
  { subst w1. destruct_world w. unfold progress, save_warnings. run_world.
    split; [reflexivity|]. split; [reflexivity|]. solve_grows. }
  destruct Hw1 as (Hw1 & Hw2 & Hw3).
  destruct (saveVMMetrics_progress (vm_id vm) m w1) as (Hs1 & Hs2 & Hs3 & Hs4 & Hs5).
  destruct (saveVMMetrics (vm_id vm) m w1) as [[[]|e] w2];
    cbn [fst snd] in Hs1, Hs2, Hs3, Hs4, Hs5; [|discriminate].
  destruct (checkForAlerts_frame vm m w2) as (Hc1 & (Hc2 & Hc3 & Hc4) & Hc5).
  split; [exact Hc1|]. split; [congruence|]. split.
  - unfold progress in *. rewrite Hc2, Hc4. lia.
  - split.
    + apply (grows_trans _ w1); [exact Hw3|].
      apply (grows_trans _ w2); [exact Hs4|exact Hc5].
    + apply (handled_grows _ w2); [exact Hc5|exact Hs5].
Qed.

Lemma loop_dated (l : list VM) :
  Forall dated l ->
  forall w,
    fst (forEach l collect_one w) = Ok tt
    /\ w_randIx (snd (forEach l collect_one w)) = (10 * List.length l + w_randIx w)%nat
    /\ progress (snd (forEach l collect_one w)) = (List.length l + progress w)%nat
    /\ grows w (snd (forEach l collect_one w))
    /\ (forall vm, In vm l -> handled (vm_id vm) (snd (forEach l collect_one w))).
Proof.
  induction 1 as [|vm l Hvm _ IH]; intro w.
  - simpl. split; [reflexivity|]. split; [reflexivity|]. split; [reflexivity|].
    split; [apply grows_refl|]. intros vm [].
  - simpl forEach. unfold bind.
    destruct (collect_one_dated vm w Hvm) as (H1 & H2 & H3 & H4 & H5).
    destruct (collect_one vm w) as [[[]|e] w1];
      cbn [fst snd] in H1, H2, H3, H4, H5; [|discriminate].
    destruct (IH w1) as (I1 & I2 & I3 & I4 & I5).
    split; [exact I1|]. split; [simpl List.length; lia|].
    split; [simpl List.length; lia|].
    split; [apply (grows_trans _ w1); assumption|].
    intros vm' [<-|Hin]; [apply (handled_grows _ w1); assumption|apply I5, Hin].
Qed.

Lemma VM_find_active_ok (w : World) :
  w_faults w (w_ops w) = false ->
  VM_find_active w = (Ok (filter is_active (w_vms w)), set_ops (S (w_ops w)) w).
Proof.
  destruct_world w. cbv [w_faults w_ops w_vms]. intro F.
  unfold VM_find_active. run_world. now rewrite F.
Qed.

(** The end of a cycle, after the loop: the system-wide aggregation and
    the handler of the cycle neither sample nor save a point. *)
Lemma cycle_tail_frame (w : World) :
  let tail :=
    try_catch (collectSystemMetrics ;; ret tt)
      (fun _ => Logger_log L1Critical "Error collecting metrics" None) in
  fst (tail w) = Ok tt /\ same_cycle w (snd (tail w)) /\ grows w (snd (tail w)).
Proof.
  intro tail. subst tail. unfold try_catch, bind.
  destruct (collectSystemMetrics_frame w) as [Hs Hg].
  destruct (collectSystemMetrics w) as [[sm|e] w1]; cbn [fst snd] in Hs, Hg.
  - unfold ret. cbn [fst snd]. auto.
  - destruct_world w1. unfold Logger_log. run_world.
    split; [reflexivity|]. split.
    + apply (same_cycle_trans _ _ _ Hs). solve_same_cycle.
    + apply (grows_trans _ _ _ Hg). solve_grows.
Qed.

(** C8.  In a cycle whose [VM.find] answers, over instances whose
    documents carry their creation date (the schema stamps it on every
    document of the collection), whatever the later failures of the
    persistence layer and whatever the draws: the cycle completes, every
    active instance is sampled (ten draws each), and for every one of
    them either its point is stored or the failure to store it is logged;
    no failure to store a point or an alert stops the loop. *)
Theorem C8_persistence_failures_isolated (w : World) :
  w_faults w (w_ops w) = false ->
  Forall dated (filter is_active (w_vms w)) ->
  fst (collectMetrics w) = Ok tt
  /\ w_randIx (snd (collectMetrics w)) =
       (10 * List.length (filter is_active (w_vms w)) + w_randIx w)%nat
  /\ progress (snd (collectMetrics w)) =
       (List.length (filter is_active (w_vms w)) + progress w)%nat
  /\ (forall vm, In vm (w_vms w) -> is_active vm = true ->
        handled (vm_id vm) (snd (collectMetrics w))).
Proof.
  intros F Hd.
  pose proof (VM_find_active_ok w F) as Hfind.
  set (l := filter is_active (w_vms w)) in *.
  set (w0 := set_ops (S (w_ops w)) w) in *.
  assert (Hw0 : w_randIx w0 = w_randIx w /\ progress w0 = progress w).
  { subst w0. destruct_world w. split; reflexivity. }
  destruct Hw0 as [Hw0 Hw0'].
  destruct (loop_dated l Hd w0) as (L1 & L2 & L3 & L4 & L5).
  pose proof (cycle_tail_frame (snd (forEach l collect_one w0))) as T.
  cbv zeta in T. destruct T as (T1 & (T2 & T3 & T4) & T5).
  assert (E : collectMetrics w =
              try_catch (collectSystemMetrics ;; ret tt)
                (fun _ => Logger_log L1Critical "Error collecting metrics" None)
                (snd (forEach l collect_one w0))).
  { unfold collectMetrics, try_catch at 1, bind at 1. rewrite Hfind.
    unfold bind at 1.
    destruct (forEach l collect_one w0) as [[[]|e] w1]; cbn [fst snd] in *;
      [|discriminate].
    unfold try_catch, bind. reflexivity. }
  rewrite E. split; [exact T1|]. split; [congruence|]. split.
  - unfold progress in *. rewrite T2, T4. lia.
  - intros vm Hin Hact. apply (handled_grows _ _ _ T5). apply L5.
    subst l. apply filter_In. auto.
Qed.

Lemma C8_persistence_failures_isolated_witness :
  fst (collectMetrics flaky_world) = Ok tt
  /\ w_randIx (snd (collectMetrics flaky_world)) =
       (10 * List.length (filter is_active (w_vms flaky_world))
        + w_randIx flaky_world)%nat
  /\ progress (snd (collectMetrics flaky_world)) =
       (List.length (filter is_active (w_vms flaky_world)) + progress flaky_world)%nat
  /\ (forall vm, In vm (w_vms flaky_world) -> is_active vm = true ->
        handled (vm_id vm) (snd (collectMetrics flaky_world))).
Proof.
  apply (C8_persistence_failures_isolated flaky_world).
  - reflexivity.
  - repeat constructor; discriminate.
Defined.

(** The failure injected in [flaky_world] hits the point of [vmA]: it is
    logged, and the point of [vmB] is stored all the same. *)
Lemma flaky_cycle :
  map vmm_vmId (w_vmMetrics (snd (collectMetrics flaky_world))) = [vm_id vmB]
  /\ filter is_save_warning (w_log (snd (collectMetrics flaky_world))) =
       [mkLog L2Warning "Failed to save VM metrics" (Some (vm_id vmA))].
Proof.
  vm_compute. split; reflexivity.
Qed.

(* ------------------------------------------------------------------ *)
(** ** Scheduler *)

Lemma constructed_inv (w : World) : constructed w -> sched_inv w.
Proof.
  intros (Hr & Hm & Ht). unfold sched_inv. rewrite Hr. auto.
Qed.

(** [startMonitoring] on a running service only logs. *)
Lemma startMonitoring_running (w : World) :
  w_isRunning w = true ->
  startMonitoring w =
    (Ok tt, set_log (w_log w ++ [mkLog L2Warning "Monitoring already running" None]) w).
Proof.
  destruct_world w. cbv [w_isRunning]. intros ->. reflexivity.
Qed.

(** [stopMonitoring] on a stopped service does nothing at all. *)
Lemma stopMonitoring_stopped (w : World) :
  w_isRunning w = false -> stopMonitoring w = (Ok tt, w).
Proof.
  destruct_world w. cbv [w_isRunning]. intros ->. reflexivity.
Qed.

Lemma startMonitoring_inv (w : World) :
  sched_inv w ->
  sched_inv (snd (startMonitoring w)) /\ w_isRunning (snd (startMonitoring w)) = true.
Proof.
  unfold sched_inv. destruct (w_isRunning w) eqn:Hr.
  - rewrite (startMonitoring_running w Hr). destruct_world w.
    cbv [w_isRunning] in Hr. subst run. run_world. auto.
  - intros [Hm Ht]. destruct_world w.
    cbv [w_isRunning w_metricsInterval w_timers] in Hr, Hm, Ht. subst.
    unfold startMonitoring, setInterval. run_world.
    split; [|reflexivity]. exists nt. auto.
Qed.

Lemma stopMonitoring_inv (w : World) :
  sched_inv w ->
  sched_inv (snd (stopMonitoring w))
  /\ w_isRunning (snd (stopMonitoring w)) = false
  /\ w_timers (snd (stopMonitoring w)) = [].
Proof.
  unfold sched_inv. destruct (w_isRunning w) eqn:Hr.
  - intros [t [Hm Ht]]. destruct_world w.
    cbv [w_isRunning w_metricsInterval w_timers] in Hr, Hm, Ht. subst.
    unfold stopMonitoring, clearInterval. run_world.
    cbn [filter negb]. rewrite N.eqb_refl. cbn [negb]. auto.
  - intros [Hm Ht]. rewrite (stopMonitoring_stopped w Hr). cbn [snd].
    rewrite Hr. auto.
Qed.

Lemma run_call_inv (c : SchedCall) (w : World) : sched_inv w -> sched_inv (run_call c w).
Proof.
  intro H. destruct c; simpl.
  - apply startMonitoring_inv, H.
  - apply stopMonitoring_inv, H.
Qed.

Lemma run_calls_inv (cs : list SchedCall) :
  forall w, sched_inv w -> sched_inv (run_calls cs w).
Proof.
  induction cs as [|c cs IH]; intros w H; simpl; [exact H|].
  apply IH, run_call_inv, H.
Qed.

Lemma sched_inv_timers (w : World) :
  sched_inv w -> List.length (w_timers w) = if w_isRunning w then 1%nat else 0%nat.
Proof.
  unfold sched_inv. destruct (w_isRunning w).
  - intros [t [_ ->]]. reflexivity.
  - intros [_ ->]. reflexivity.
Qed.

(** C7. From the state built by the constructor, after any sequence of
    [startMonitoring] and [stopMonitoring] calls: there is one active
    timer when the service runs and none when it is stopped; a
    [startMonitoring] on a running service changes nothing but the log;
    two [startMonitoring] in a row leave exactly one timer;
    [stopMonitoring] leaves no timer, and does nothing on a stopped
    service. *)
Theorem C7_scheduler_idempotent (w0 : World) (cs : list SchedCall) :
  constructed w0 ->
  let w := run_calls cs w0 in
  List.length (w_timers w) = (if w_isRunning w then 1%nat else 0%nat)
  /\ (w_isRunning w = true ->
        startMonitoring w =
          (Ok tt,
           set_log (w_log w ++ [mkLog L2Warning "Monitoring already running" None]) w))
  /\ List.length (w_timers (run_calls [CallStart; CallStart] w)) = 1%nat
  /\ w_timers (snd (stopMonitoring w)) = []
  /\ w_isRunning (snd (stopMonitoring w)) = false
  /\ (w_isRunning w = false -> stopMonitoring w = (Ok tt, w)).
Proof.
  intros H0 w.
  assert (Hw : sched_inv w) by (apply run_calls_inv, constructed_inv, H0).
  split; [apply sched_inv_timers, Hw|].
  split; [apply startMonitoring_running|].
  split.
  - destruct (startMonitoring_inv w Hw) as [H1 R1].
    destruct (startMonitoring_inv _ H1) as [H2 R2].
    cbn [run_calls fold_left run_call].
    rewrite (sched_inv_timers _ H2), R2. reflexivity.
  - destruct (stopMonitoring_inv w Hw) as (_ & R & T).
    split; [exact T|]. split; [exact R|]. apply stopMonitoring_stopped.
Qed.

Lemma C7_scheduler_idempotent_witness :
  let w := run_calls [CallStart; CallStop; CallStart] empty_world in
  List.length (w_timers w) = (if w_isRunning w then 1%nat else 0%nat)
  /\ (w_isRunning w = true ->
        startMonitoring w =
          (Ok tt,
           set_log (w_log w ++ [mkLog L2Warning "Monitoring already running" None]) w))
  /\ List.length (w_timers (run_calls [CallStart; CallStart] w)) = 1%nat
  /\ w_timers (snd (stopMonitoring w)) = []
  /\ w_isRunning (snd (stopMonitoring w)) = false
  /\ (w_isRunning w = false -> stopMonitoring w = (Ok tt, w)).
Proof.
  apply (C7_scheduler_idempotent empty_world [CallStart; CallStop; CallStart]).
  repeat split.
Defined.

(** With one timer, one collection cycle runs per period: after two
    [startMonitoring] on a fresh service, thirty seconds later the system
    metrics have been collected once. *)
Lemma one_cycle_per_period :
  List.length
    (w_perf (snd (period_elapses (run_calls [CallStart; CallStart] empty_world))))
  = 1%nat.
Proof.
  vm_compute. reflexivity.
Qed.

(* ------------------------------------------------------------------ *)
(** ** Resolution *)

Lemma find_id_none (id : ObjectId) (l : list SystemAlert) :
  (forall a, In a l -> sa_id a <> id) -> find (has_id id) l = None.
Proof.
  induction l as [|x l IH]; intro H; simpl; [reflexivity|].
  unfold has_id at 1. destruct (N.eqb_spec (sa_id x) id) as [E|_].
  - exfalso. apply (H x); [now left|exact E].
  - apply IH. intros a Ha. apply H. now right.
Qed.

Lemma find_id_unique (l : list SystemAlert) (a : SystemAlert) :
  NoDup (map sa_id l) -> In a l -> find (has_id (sa_id a)) l = Some a.
Proof.
  induction l as [|x l IH]; intros Hnd Hin; [contradiction|].
  simpl in Hnd. inversion Hnd as [|? ? Hx Hl]; subst. simpl.
  unfold has_id at 1. destruct Hin as [->|Hin].
  - now rewrite N.eqb_refl.
  - destruct (N.eqb_spec (sa_id x) (sa_id a)) as [E|_]; [|now apply IH].
    exfalso. apply Hx. rewrite E. now apply in_map.
Qed.

(** After the replacement the updated record is in the collection, and
    the records with another identifier are still there. *)
Lemma replace_by_id_in (a a' : SystemAlert) (l : list SystemAlert) :
  find (has_id (sa_id a')) l = Some a ->
  In a' (replace_by_id a' l)
  /\ (forall b, In b l -> sa_id b <> sa_id a' -> In b (replace_by_id a' l))
  /\ List.length (replace_by_id a' l) = List.length l.
Proof.
  induction l as [|x l IH]; intro H; simpl in H; [discriminate|].
  simpl. unfold has_id in H at 1.
  destruct (N.eqb (sa_id x) (sa_id a')) eqn:E.
  - split; [now left|]. split; [|reflexivity].
    intros b [<-|Hb] Hne; [|now right].
    apply N.eqb_eq in E. contradiction.
  - destruct (IH H) as (I1 & I2 & I3). split; [now right|]. split.
    + intros b [<-|Hb] Hne; [now left|right; now apply I2].
    + simpl. now rewrite I3.
Qed.

Lemma find_id_split (id : ObjectId) (l1 l2 : list SystemAlert) (a : SystemAlert) :
  sa_id a = id ->
  (forall b, In b l1 -> sa_id b <> id) ->
  find (has_id id) (l1 ++ a :: l2) = Some a.
Proof.
  intros Hid. induction l1 as [|x l1 IH]; intro H; cbn [app find].
  - unfold has_id. now rewrite Hid, N.eqb_refl.
  - unfold has_id at 1. destruct (N.eqb_spec (sa_id x) id) as [E|_].
    + exfalso. apply (H x); [now left|exact E].
    + apply IH. intros b Hb. apply H. now right.
Qed.

(** The replacement is in place: the first record with the identifier
    gives way to the new one, and every other record stays where it
    is. *)
Lemma replace_by_id_split (a a' : SystemAlert) (l1 l2 : list SystemAlert) :
  sa_id a' = sa_id a ->
  (forall b, In b l1 -> sa_id b <> sa_id a) ->
  replace_by_id a' (l1 ++ a :: l2) = l1 ++ a' :: l2.
Proof.
  intros Hid. induction l1 as [|x l1 IH]; intro H; cbn [app replace_by_id].
  - now rewrite Hid, N.eqb_refl.
  - destruct (N.eqb_spec (sa_id x) (sa_id a')) as [E|_].
    + exfalso. apply (H x); [now left|congruence].
    + f_equal. apply IH. intros b Hb. apply H. now right.
Qed.

Lemma resolveAlert_malformed (w : World) (alertId : string)
    (resolvedBy : option string) :
  castObjectId alertId = None ->
  resolveAlert alertId resolvedBy w =
    (Throw (CastError "_id"),
     set_log (w_log w ++ [mkLog L1Critical "Failed to resolve alert" None]) w).
Proof.
  intro Hc. destruct_world w.
  unfold resolveAlert, SystemAlert_findByIdAndUpdate. rewrite Hc. run_world.
  reflexivity.
Qed.

Lemma resolveAlert_unknown (w : World) (alertId : string) (id : ObjectId)
    (resolvedBy : option string) :
  castObjectId alertId = Some id ->
  w_faults w (w_ops w) = false ->
  find (has_id id) (w_alerts w) = None ->
  resolveAlert alertId resolvedBy w = (Ok None, set_ops (S (w_ops w)) w).
Proof.
  destruct_world w. cbv [w_faults w_ops w_alerts]. intros Hc F H.
  unfold resolveAlert, SystemAlert_findByIdAndUpdate. rewrite Hc. run_world.
  rewrite F, H. reflexivity.
Qed.

Lemma resolveAlert_known (w : World) (alertId : string) (id : ObjectId)
    (resolvedBy : option string) (a : SystemAlert) :
  castObjectId alertId = Some id ->
  w_faults w (w_ops w) = false ->
  find (has_id id) (w_alerts w) = Some a ->
  let a' := set_updatedAt (w_now w)
              (resolve_update (w_now w) (default_arg resolvedBy "system") a) in
  resolveAlert alertId resolvedBy w =
    (Ok (Some a'),
     set_log (w_log w ++ [mkLog L3Info "Alert resolved" (Some id)])
       (set_alerts (replace_by_id a' (w_alerts w)) (set_ops (S (w_ops w)) w))).
Proof.
  destruct_world w. cbv [w_faults w_ops w_alerts w_now w_log]. intros Hc F H.
  unfold resolveAlert, SystemAlert_findByIdAndUpdate. rewrite Hc. run_world.
  rewrite F, H. reflexivity.
Qed.

(** The handler answers 500 for a string that is no identifier. *)
Lemma controller_malformed (w : World) (io : option SocketServer)
    (alertId : string) (userId : option string) :
  castObjectId alertId = None ->
  MonitoringController_resolveAlert io alertId userId w =
    (Ok (Json500 "Failed to resolve alert"),
     set_log (w_log w ++ [mkLog L3Info "Resolving alert" None;
                          mkLog L1Critical "Failed to resolve alert" None;
                          mkLog L1Critical "Failed to resolve alert" None]) w).
Proof.
  intro Hc. unfold MonitoringController_resolveAlert. rewrite Hc.
  unfold bind at 1, Date_now at 1, gets at 1, try_catch at 1, bind at 1,
    Logger_log at 1, modify at 1, bind at 1.
  rewrite resolveAlert_malformed by exact Hc.
  destruct_world w. run_world. rewrite <- !app_assoc. reflexivity.
Qed.

(** The handler answers 404 for an identifier that no record has. *)
Lemma controller_unknown (w : World) (io : option SocketServer)
    (alertId : string) (id : ObjectId) (userId : option string) :
  castObjectId alertId = Some id ->
  w_faults w (w_ops w) = false ->
  find (has_id id) (w_alerts w) = None ->
  MonitoringController_resolveAlert io alertId userId w =
    (Ok (Json404 "Alert not found"),
     set_ops (S (w_ops w))
       (set_log (w_log w ++ [mkLog L3Info "Resolving alert" (Some id)]) w)).
Proof.
  intros Hc F H. unfold MonitoringController_resolveAlert. rewrite Hc.
  unfold bind at 1, Date_now at 1, gets at 1, try_catch at 1, bind at 1,
    Logger_log at 1, modify at 1, bind at 1.
  set (w1 := set_log _ w).
  assert (F1 : w_faults w1 (w_ops w1) = false) by (subst w1; destruct_world w; exact F).
  assert (H1 : find (has_id id) (w_alerts w1) = None)
    by (subst w1; destruct_world w; exact H).
  rewrite (resolveAlert_unknown w1 alertId id _ Hc F1 H1).
  subst w1. destruct_world w. reflexivity.
Qed.

(** For an identifier that a record has, the handler resolves the record
    whatever the socket setting; the answer depends on the setting. *)
Lemma controller_known (w : World) (io : option SocketServer)
    (alertId : string) (id : ObjectId) (userId : option string) (a : SystemAlert) :
  castObjectId alertId = Some id ->
  w_faults w (w_ops w) = false ->
  find (has_id id) (w_alerts w) = Some a ->
  exists a' w',
    MonitoringController_resolveAlert io alertId userId w =
      (Ok match io with
          | Some _ => Json200 a'
          | None => Json500 "Failed to resolve alert"
          end, w')
    /\ sa_resolved a' = true /\ sa_id a' = sa_id a
    /\ sa_resolvedAt a' = Some (w_now w)
    /\ w_alerts w' = replace_by_id a' (w_alerts w)
    /\ w_emitted w' = match io with
                      | Some _ => w_emitted w ++ [a']
                      | None => w_emitted w
                      end.
Proof.
  intros Hc F H. unfold MonitoringController_resolveAlert. rewrite Hc.
  unfold bind at 1, Date_now at 1, gets at 1, try_catch at 1, bind at 1,
    Logger_log at 1, modify at 1, bind at 1.
  set (w1 := set_log _ w).
  assert (F1 : w_faults w1 (w_ops w1) = false) by (subst w1; destruct_world w; exact F).
  assert (H1 : find (has_id id) (w_alerts w1) = Some a)
    by (subst w1; destruct_world w; exact H).
  rewrite (resolveAlert_known w1 alertId id _ a Hc F1 H1).
  subst w1. destruct_world w. unfold Logger_logPerformance, emit_alert_resolved.
  exists (set_updatedAt now
            (resolve_update now
               match userId with
               | Some u => if String.eqb u "" then "system"%string else u
               | None => "system"%string
               end a)).
  destruct io as [s|]; run_world;
    (eexists; split; [reflexivity|]; repeat split).
Qed.

(** C6.  With a persistence layer that answers, for a well-formed
    identifier (the 24 hexadecimal digits of an [ObjectId]):
    [resolveAlert] on an identifier that no alert record has returns
    [null] (the handler answers 404, "Alert not found") and writes
    nothing; on an identifier that a record has, it returns that record
    with [resolved] set and [resolvedAt] and [resolvedBy] stamped (the
    resolver as the schema stores it, trimmed), and in the collection
    exactly that record, the first with the identifier, has given way to
    the updated one, through the service and through the handler alike.
    For a string that is no identifier there is no not-found signal: the
    cast fails before any round trip, the service logs and rethrows the
    [CastError], the handler answers 500, and nothing is written. *)
Theorem C6_resolveAlert (w : World) (io : option SocketServer) (alertId : string)
    (resolvedBy : string) (userId : option string) :
  (forall id, castObjectId alertId = Some id ->
     w_faults w (w_ops w) = false ->
     ((forall a, In a (w_alerts w) -> sa_id a <> id) ->
        resolveAlert alertId (Some resolvedBy) w =
          (Ok None, set_ops (S (w_ops w)) w)
        /\ fst (MonitoringController_resolveAlert io alertId userId w) =
             Ok (Json404 "Alert not found")
        /\ w_alerts (snd (MonitoringController_resolveAlert io alertId userId w)) =
             w_alerts w)
     /\ (forall l1 a l2,
           w_alerts w = l1 ++ a :: l2 ->
           sa_id a = id ->
           (forall b, In b l1 -> sa_id b <> id) ->
           let a' := set_updatedAt (w_now w)
                       (resolve_update (w_now w) resolvedBy a) in
           fst (resolveAlert alertId (Some resolvedBy) w) = Ok (Some a')
           /\ w_alerts (snd (resolveAlert alertId (Some resolvedBy) w)) =
                l1 ++ a' :: l2
           /\ sa_id a' = id
           /\ sa_resolved a' = true
           /\ sa_resolvedAt a' = Some (w_now w)
           /\ sa_resolvedBy a' = Some (trim resolvedBy)
           /\ exists r,
                w_alerts (snd (MonitoringController_resolveAlert io alertId userId w)) =
                  l1 ++ r :: l2
                /\ sa_id r = id
                /\ sa_resolved r = true
                /\ sa_resolvedAt r = Some (w_now w)))
  /\ (castObjectId alertId = None ->
        resolveAlert alertId (Some resolvedBy) w =
          (Throw (CastError "_id"),
           set_log (w_log w ++ [mkLog L1Critical "Failed to resolve alert" None]) w)
        /\ fst (MonitoringController_resolveAlert io alertId userId w) =
             Ok (Json500 "Failed to resolve alert")
        /\ w_alerts (snd (MonitoringController_resolveAlert io alertId userId w)) =
             w_alerts w).
Proof.
  split.
  - intros id Hc F. split.
    + intro Hnone. pose proof (find_id_none id _ Hnone) as Hf.
      split; [now apply (resolveAlert_unknown w alertId id)|].
      rewrite (controller_unknown w io alertId id userId Hc F Hf).
      destruct_world w. split; reflexivity.
    + intros l1 a l2 Hl Hid Hl1 a'.
      assert (Hf : find (has_id id) (w_alerts w) = Some a)
        by (rewrite Hl; now apply find_id_split).
      assert (Hrep : forall r, sa_id r = sa_id a ->
                replace_by_id r (w_alerts w) = l1 ++ r :: l2).
      { intros r Hr. rewrite Hl. apply replace_by_id_split; [exact Hr|].
        intros b Hb. rewrite Hid. now apply Hl1. }
      rewrite (resolveAlert_known w alertId id (Some resolvedBy) a Hc F Hf).
      cbv zeta. cbn [fst snd default_arg]. fold a'.
      split; [reflexivity|]. split.
      { rewrite <- (Hrep a' eq_refl). destruct_world w. reflexivity. }
      split; [exact Hid|]. split; [reflexivity|]. split; [reflexivity|].
      split; [reflexivity|].
      destruct (controller_known w io alertId id userId a Hc F Hf)
        as (r & w' & E & Hres & Hrid & Hat & Hal & _).
      exists r. rewrite E. cbn [snd]. rewrite Hal, (Hrep r Hrid).
      split; [reflexivity|]. split; [congruence|]. split; assumption.
  - intro Hc. split; [now apply resolveAlert_malformed|].
    rewrite (controller_malformed w io alertId userId Hc).
    destruct_world w. split; reflexivity.
Qed.

Lemma C6_resolveAlert_witness :
  (resolveAlert id99 (Some "alice"%string) open_world =
     (Ok None, set_ops (S (w_ops open_world)) open_world)
   /\ fst (MonitoringController_resolveAlert server_io id99 None open_world) =
        Ok (Json404 "Alert not found"))
  /\ (exists a',
        fst (resolveAlert id41 (Some "alice"%string) open_world) = Ok (Some a')
        /\ w_alerts (snd (resolveAlert id41 (Some "alice"%string) open_world)) = [a']
        /\ sa_resolved a' = true
        /\ sa_resolvedBy a' = Some "alice"%string)
  /\ fst (MonitoringController_resolveAlert server_io malformed_id None open_world) =
       Ok (Json500 "Failed to resolve alert").
Proof.
  pose proof (C6_resolveAlert open_world server_io id99 "alice" None) as [H99 _].
  pose proof (C6_resolveAlert open_world server_io id41 "alice" None) as [H41 _].
  pose proof (C6_resolveAlert open_world server_io malformed_id "alice" None)
    as [_ Hbad].
  split; [|split].
  - destruct (H99 99%N eq_refl eq_refl) as [U _].
    destruct U as (U1 & U2 & _).
    + intros a [<-|[]]. discriminate.
    + split; [exact U1|exact U2].
  - destruct (H41 41%N eq_refl eq_refl) as [_ K].
    pose proof (K [] open_alert [] eq_refl eq_refl
                  (fun b (H : In b []) => match H with end)) as K'.
    cbv zeta in K'. destruct K' as (K1 & K2 & _ & K4 & _ & K6 & _).
    eexists. split; [exact K1|]. split; [exact K2|]. split; [exact K4|exact K6].
  - apply (Hbad eq_refl).
Defined.

(** C6, counterexample.  A string that is no identifier matches no alert
    record, yet [resolveAlert] signals no not-found condition for it: the
    service throws the [CastError] of the cast, and the handler answers
    500, "Failed to resolve alert", whatever the socket setting. *)
Lemma C6_malformed_identifier :
  (forall a, In a (w_alerts open_world) ->
     castObjectId malformed_id <> Some (sa_id a))
  /\ fst (resolveAlert malformed_id (Some "alice"%string) open_world) =
       Throw (CastError "_id")
  /\ fst (MonitoringController_resolveAlert server_io malformed_id None open_world) =
       Ok (Json500 "Failed to resolve alert")
  /\ fst (MonitoringController_resolveAlert (Some SocketIO) malformed_id None
            open_world) =
       Ok (Json500 "Failed to resolve alert")
  /\ w_alerts (snd (resolveAlert malformed_id (Some "alice"%string) open_world)) =
       w_alerts open_world.
Proof.
  split; [intros a _ H; discriminate H|].
  repeat split; vm_compute; reflexivity.
Qed.

(** C9. [resolveAlert] does not look at [resolved]: on a record that is
    already resolved, a second call with the same identifier finds it,
    returns it, not [null], and overwrites [resolvedAt] and [resolvedBy]
    with the values of the second call, in place: the collection differs
    from the one before in that record only. *)
Theorem C9_resolve_again (w : World) (alertId : string) (l1 l2 : list SystemAlert)
    (a : SystemAlert) (resolvedBy : string) :
  castObjectId alertId = Some (sa_id a) ->
  w_faults w (w_ops w) = false ->
  w_alerts w = l1 ++ a :: l2 ->
  (forall b, In b l1 -> sa_id b <> sa_id a) ->
  sa_resolved a = true ->
  let a' := set_updatedAt (w_now w) (resolve_update (w_now w) resolvedBy a) in
  fst (resolveAlert alertId (Some resolvedBy) w) = Ok (Some a')
  /\ w_alerts (snd (resolveAlert alertId (Some resolvedBy) w)) = l1 ++ a' :: l2
  /\ sa_id a' = sa_id a
  /\ sa_resolved a' = true
  /\ sa_resolvedAt a' = Some (w_now w)
  /\ sa_resolvedBy a' = Some (trim resolvedBy).
Proof.
  intros Hc F Hl Hl1 _ a'.
  assert (Hf : find (has_id (sa_id a)) (w_alerts w) = Some a)
    by (rewrite Hl; now apply find_id_split).
  rewrite (resolveAlert_known w alertId (sa_id a) (Some resolvedBy) a Hc F Hf).
  cbv zeta. cbn [fst snd default_arg]. fold a'.
  split; [reflexivity|]. split.
  - rewrite <- (replace_by_id_split a a' l1 l2 eq_refl Hl1), <- Hl.
    destruct_world w. reflexivity.
  - repeat split.
Qed.

Lemma C9_resolve_again_witness :
  sa_resolvedAt closed_alert = Some 43100000
  /\ sa_resolvedBy closed_alert = Some "alice"%string
  /\ exists a',
       fst (resolveAlert id41 (Some "bob"%string)
              (set_now 43200500 closed_world)) = Ok (Some a')
       /\ w_alerts (snd (resolveAlert id41 (Some "bob"%string)
                           (set_now 43200500 closed_world))) = [a']
       /\ sa_resolvedAt a' = Some 43200500
       /\ sa_resolvedBy a' = Some "bob"%string.
Proof.
  split; [reflexivity|]. split; [reflexivity|].
  pose proof (C9_resolve_again (set_now 43200500 closed_world) id41 [] []
                closed_alert "bob" eq_refl eq_refl eq_refl) as H.
  cbv zeta in H. destruct H as (H1 & H2 & _ & _ & H5 & H6).
  - intros b [].
  - reflexivity.
  - eexists. split; [exact H1|]. split; [exact H2|]. split; [exact H5|exact H6].
Defined.

(* ------------------------------------------------------------------ *)
(** ** Queries *)

Lemma timeRanges_valid (timeRange : string) :
  In timeRange valid_ranges <-> exists span, timeRanges timeRange = Some span.
Proof.
  split.
  - intros [<-|[<-|[<-|[<-|[]]]]]; eexists; reflexivity.
  - intros [span H]. unfold timeRanges in H. unfold valid_ranges.
    destruct (String.eqb_spec timeRange "1h"); [subst; simpl; auto|].
    destruct (String.eqb_spec timeRange "24h"); [subst; simpl; auto|].
    destruct (String.eqb_spec timeRange "7d"); [subst; simpl; auto|].
    destruct (String.eqb_spec timeRange "30d"); [subst; simpl; auto 6|].
    discriminate.
Qed.

Lemma timeRanges_invalid (timeRange : string) :
  ~ In timeRange valid_ranges -> timeRanges timeRange = None.
Proof.
  intro H. destruct (timeRanges timeRange) as [span|] eqn:E; [|reflexivity].
  exfalso. apply H, timeRanges_valid. now exists span.
Qed.

Lemma filter_none {A : Type} (p : A -> bool) (l : list A) :
  (forall x, In x l -> p x = false) -> filter p l = [].
Proof.
  induction l as [|x l IH]; intro H; simpl; [reflexivity|].
  rewrite (H x) by now left. apply IH. intros y Hy. apply H. now right.
Qed.

Lemma filter_all {A : Type} (p : A -> bool) (l : list A) :
  (forall x, In x l -> p x = true) -> filter p l = l.
Proof.
  induction l as [|x l IH]; intro H; simpl; [reflexivity|].
  rewrite (H x) by now left. f_equal. apply IH. intros y Hy. apply H. now right.
Qed.

(** No stored [PerformanceMetrics] document has a top-level [category]. *)
Lemma pm_field_category (d : PerformanceMetrics) :
  pm_field d "category" = JUndefined.
Proof. reflexivity. Qed.

Lemma system_filter_empty (ms : Z) (l : list PerformanceMetrics) :
  filter (fun d => (is_str (pm_field d "category") "system"
                    && (ms <=? pm_timestamp d))%bool) l = [].
Proof.
  apply filter_none. intros d _. reflexivity.
Qed.

Lemma getSystemMetrics_valid (w : World) (timeRange : option string) (span : Z) :
  timeRanges (default_arg timeRange "1h") = Some span ->
  getSystemMetrics timeRange w =
    if w_faults w (w_ops w)
    then (Throw (StoreError (w_ops w)),
          set_log (w_log w ++ [mkLog L1Critical "Failed to get system metrics" None])
            (set_ops (S (w_ops w)) w))
    else (Ok [], set_ops (S (w_ops w)) w).
Proof.
  intro H. destruct_world w.
  unfold getSystemMetrics, since_date, PerformanceMetrics_find_system.
  rewrite H. unfold castDate. run_world.
  destruct (faults ops); [reflexivity|].
  rewrite system_filter_empty. reflexivity.
Qed.

(** A successful [collectSystemMetrics] appends one document, whose
    marker is under [metadata]. *)
Lemma collectSystemMetrics_marker (w w' : World) (sm : SystemMetrics) :
  collectSystemMetrics w = (Ok sm, w') ->
  exists d, w_perf w' = w_perf w ++ [d]
            /\ js_get (pm_metadata d) "category" = JStr "system"
            /\ pm_field d "category" = JUndefined.
Proof.
  destruct_world w.
  unfold collectSystemMetrics, VM_countDocuments, VMMetrics_aggregate,
    PerformanceMetrics_save.
  run_world.
  repeat (step_store; [discriminate|]).
  intro H. injection H as _ <-. eexists. cbv [w_perf]. repeat split.
Qed.

(** C10. For every state and every valid time range (the default
    included), [getSystemMetrics] returns the empty list as soon as the
    persistence layer answers: its filter asks for a top-level [category],
    which no [PerformanceMetrics] document has; [collectSystemMetrics]
    writes the marker inside [metadata]. *)
Theorem C10_getSystemMetrics_empty (w : World) (timeRange : option string) :
  In (default_arg timeRange "1h") valid_ranges ->
  fst (getSystemMetrics timeRange w) =
    (if w_faults w (w_ops w) then Throw (StoreError (w_ops w)) else Ok [])
  /\ (forall d, In d (w_perf w) -> pm_field d "category" = JUndefined)
  /\ (forall sm w', collectSystemMetrics w = (Ok sm, w') ->
        exists d, w_perf w' = w_perf w ++ [d]
                  /\ js_get (pm_metadata d) "category" = JStr "system"
                  /\ pm_field d "category" = JUndefined).
Proof.
  intro Hv. apply timeRanges_valid in Hv. destruct Hv as [span Hs].
  split.
  - rewrite (getSystemMetrics_valid w timeRange span Hs).
    destruct (w_faults w (w_ops w)); reflexivity.
  - split; [intros d _; apply pm_field_category|].
    intros sm w'. apply collectSystemMetrics_marker.
Qed.

Lemma C10_getSystemMetrics_empty_witness :
  List.length (w_perf cycled_world) = 1%nat
  /\ fst (getSystemMetrics (Some "24h"%string) cycled_world) = Ok []
  /\ fst (getSystemMetrics None cycled_world) = Ok [].
Proof.
  split; [vm_compute; reflexivity|]. split.
  - apply (proj1 (C10_getSystemMetrics_empty cycled_world (Some "24h"%string)
                    (or_intror (or_introl eq_refl)))).
  - apply (proj1 (C10_getSystemMetrics_empty cycled_world None (or_introl eq_refl))).
Defined.

Lemma getPerformanceSummary_eq (w : World) (timeRange : string) :
  w_faults w (w_ops w) = false ->
  getPerformanceSummary (Some timeRange) w =
    (Ok (js_or
           (first_or_undefined
              match match_since
                      match timeRanges timeRange with
                      | Some span => ValidDate (w_now w - span)
                      | None => InvalidDate
                      end (w_vmMetrics w)
              with
              | [] => []
              | d :: ds => [summary_group (d :: ds)]
              end)
           (JObj [])),
     set_ops (S (w_ops w)) w).
Proof.
  destruct_world w. cbv [w_faults w_ops w_now w_vmMetrics]. intro F.
  unfold getPerformanceSummary, since_date, VMMetrics_aggregate, default_arg.
  run_world. rewrite F. reflexivity.
Qed.

(** C4, counterexample.  Over an empty point set [getPerformanceSummary]
    returns the empty object: it has no [dataPoints] field, zeroed or
    not. *)
Lemma C4_no_dataPoints_field :
  In "1h"%string valid_ranges
  /\ w_vmMetrics empty_world = []
  /\ fst (getPerformanceSummary (Some "1h"%string) empty_world) = Ok (JObj [])
  /\ ~ dataPoints_zero (JObj []).
Proof.
  split; [left; reflexivity|]. split; [reflexivity|]. split; [reflexivity|].
  intros [q [H _]]. discriminate H.
Qed.

(** C4, as the code has it.  For a valid time range over a state with no
    point in the range, with a persistence layer that answers:
    [getPerformanceSummary] returns the empty object without error and
    without writing; reading [dataPoints] from it gives [undefined], which
    the [|| 0] of its caller turns into 0; [getSystemMetrics] returns the
    empty list. *)
Theorem C4_empty_range (w : World) (timeRange : string) (span : Z) :
  In timeRange valid_ranges ->
  timeRanges timeRange = Some span ->
  (forall d, In d (w_vmMetrics w) -> vmm_timestamp d < w_now w - span) ->
  w_faults w (w_ops w) = false ->
  getPerformanceSummary (Some timeRange) w = (Ok (JObj []), set_ops (S (w_ops w)) w)
  /\ js_get (JObj []) "dataPoints" = JUndefined
  /\ js_or (js_get (JObj []) "dataPoints") (JNum 0) = JNum 0
  /\ fst (getSystemMetrics (Some timeRange) w) = Ok [].
Proof.
  intros _ Hs Hold F. split.
  - rewrite (getPerformanceSummary_eq w timeRange F), Hs.
    unfold match_since, bson_date. rewrite filter_none; [reflexivity|].
    intros d Hd. apply Z.leb_gt. apply Hold, Hd.
  - split; [reflexivity|]. split; [reflexivity|].
    rewrite (getSystemMetrics_valid w (Some timeRange) span Hs), F. reflexivity.
Qed.

Lemma C4_empty_range_witness :
  getPerformanceSummary (Some "24h"%string) day60_world =
    (Ok (JObj []), set_ops (S (w_ops day60_world)) day60_world)
  /\ js_get (JObj []) "dataPoints" = JUndefined
  /\ js_or (js_get (JObj []) "dataPoints") (JNum 0) = JNum 0
  /\ fst (getSystemMetrics (Some "24h"%string) day60_world) = Ok [].
Proof.
  apply (C4_empty_range day60_world "24h" (24 * 60 * 60 * 1000)).
  - right. left. reflexivity.
  - reflexivity.
  - intros d [<-|[]]. reflexivity.
  - reflexivity.
Defined.

(** C3, counterexample.  "2h" is not a named range, yet
    [getPerformanceSummary] does not reject it: it queries the store and
    returns a result, here the summary of a point that is sixty days
    old. *)
Lemma C3_unknown_range_not_rejected :
  ~ In "2h"%string valid_ranges
  /\ ~ rejects_untouched (getPerformanceSummary (Some "2h"%string)) day60_world
  /\ fst (getPerformanceSummary (Some "2h"%string) day60_world) =
       Ok (summary_group [old_point])
  /\ w_ops (snd (getPerformanceSummary (Some "2h"%string) day60_world)) = 1%nat.
Proof.
  split.
  { intros [H|[H|[H|[H|[]]]]]; discriminate H. }
  split.
  { intros [e H]. vm_compute in H. discriminate H. }
  split; reflexivity.
Qed.

(** C3, as the code has it.  No operation checks the time range.  For a
    range that is not in the table the lower bound of the query is an
    Invalid Date.  [getVMMetrics] and [getSystemMetrics] then fail with the
    cast error of the persistence layer, before any round trip to the
    database; the error is logged and rethrown.  [getPerformanceSummary]
    does not fail: its pipeline is sent as it is, and it returns the
    summary of all the stored points. *)
Theorem C3_unknown_range (w : World) (vmId : ObjectId) (timeRange : string) :
  ~ In timeRange valid_ranges ->
  getVMMetrics vmId (Some timeRange) w =
    (Throw (CastError "timestamp"),
     set_log (w_log w ++ [mkLog L1Critical "Failed to get VM metrics" (Some vmId)]) w)
  /\ getSystemMetrics (Some timeRange) w =
    (Throw (CastError "timestamp"),
     set_log (w_log w ++ [mkLog L1Critical "Failed to get system metrics" None]) w)
  /\ (w_faults w (w_ops w) = false ->
      (forall d, In d (w_vmMetrics w) -> 0 <= vmm_timestamp d) ->
      getPerformanceSummary (Some timeRange) w =
        (Ok match w_vmMetrics w with
            | [] => JObj []
            | ds => summary_group ds
            end,
         set_ops (S (w_ops w)) w)).
Proof.
  intro Hn. apply timeRanges_invalid in Hn. split; [|split].
  - destruct_world w. unfold getVMMetrics, since_date, VMMetrics_find, default_arg.
    rewrite Hn. unfold castDate. run_world. reflexivity.
  - destruct_world w.
    unfold getSystemMetrics, since_date, PerformanceMetrics_find_system, default_arg.
    rewrite Hn. unfold castDate. run_world. reflexivity.
  - intros F Hpos. rewrite (getPerformanceSummary_eq w timeRange F), Hn.
    unfold match_since, bson_date. rewrite filter_all.
    + destruct (w_vmMetrics w); reflexivity.
    + intros d Hd. apply Z.leb_le, Hpos, Hd.
Qed.

Lemma C3_unknown_range_witness :
  getVMMetrics 7%N (Some "2h"%string) day60_world =
    (Throw (CastError "timestamp"),
     set_log (w_log day60_world
                ++ [mkLog L1Critical "Failed to get VM metrics" (Some 7%N)])
       day60_world)
  /\ getSystemMetrics (Some "2h"%string) day60_world =
    (Throw (CastError "timestamp"),
     set_log (w_log day60_world
                ++ [mkLog L1Critical "Failed to get system metrics" None])
       day60_world)
  /\ getPerformanceSummary (Some "2h"%string) day60_world =
       (Ok (summary_group [old_point]), set_ops 1 day60_world).
Proof.
  assert (Hn : ~ In "2h"%string valid_ranges).
  { intros [H|[H|[H|[H|[]]]]]; discriminate H. }
  destruct (C3_unknown_range day60_world 7%N "2h" Hn) as (H1 & H2 & H3).
  split; [exact H1|]. split; [exact H2|].
  apply H3.
  - reflexivity.
  - intros d [<-|[]]. discriminate.
Defined.

(* ------------------------------------------------------------------ *)
(** ** Further properties: sampling and thresholds *)

Lemma floor_range (r : Q) (a : positive) (b : Z) :
  (0 <= r /\ r < 1)%Q ->
  b <= Math_floor (r * (Z.pos a # 1) + (b # 1))%Q < Z.pos a + b.
Proof.
  intros [H0 H1]. unfold Math_floor.
  change (Z.pos a # 1) with (inject_Z (Z.pos a)).
  change (b # 1) with (inject_Z b).
  assert (Ha' : (0 < inject_Z (Z.pos a))%Q) by (unfold Qlt; simpl; lia).
  split.
  - rewrite <- (Qfloor_Z b) at 1. apply Qfloor_resp_le. nra.
  - rewrite Zlt_Qlt. eapply Qle_lt_trans; [apply Qfloor_le|].
    rewrite inject_Z_plus. nra.
Qed.

(** The reading of an instance whose document is dated, in terms of the
    draws. *)
Lemma generateVMMetrics_eq (vm : VM) (c : Z) (w : World) :
  vm_createdAt vm = Some c ->
  generateVMMetrics vm w = (Ok (reading_of vm c w), set_randIx (10 + w_randIx w) w).
Proof.
  intro Hc. destruct_world w. unfold generateVMMetrics, reading_of, hour_of.
  rewrite Hc. run_world. reflexivity.
Qed.

(** X1. For draws in [0, 1) the throughput and latency fields of a
    reading are integers of fixed ranges: networkIn in [100, 1100],
    networkOut in [50, 550], diskRead in [10, 109], diskWrite in [5, 54],
    responseTime in [10, 59]; the status is that of the instance, the
    uptime is not negative for an instance created in the past, and ten
    draws are taken.  The upper ends of the two network fields are one
    above what exact arithmetic gives: the sum is rounded before
    [Math.floor], and for the draw next to 1 it rounds to 1100 and to
    550. *)
Theorem X1_reading_ranges (vm : VM) (c : Z) (w w' : World) (m : Metrics) :
  draws_in_range (w_rand w) ->
  vm_createdAt vm = Some c ->
  c <= w_now w ->
  generateVMMetrics vm w = (Ok m, w') ->
  100 <= networkIn m <= 1100
  /\ 50 <= networkOut m <= 550
  /\ 10 <= diskRead m <= 109
  /\ 5 <= diskWrite m <= 54
  /\ 10 <= responseTime m <= 59
  /\ 0 <= uptime m
  /\ status m = vm_status vm
  /\ w_randIx w' = (10 + w_randIx w)%nat.
Proof.
  intros Hr Hc Hpast H.
  rewrite (generateVMMetrics_eq vm c w Hc) in H.
  assert (Hm : m = reading_of vm c w) by congruence.
  assert (Hw : w' = set_randIx (10 + w_randIx w) w) by congruence.
  subst m w'. clear H. unfold reading_of.
  cbv [networkIn networkOut diskRead diskWrite responseTime uptime status].
  pose proof (floor_range _ 1000 100 (Hr (4 + w_randIx w)%nat)) as H4.
  pose proof (floor_range _ 500 50 (Hr (5 + w_randIx w)%nat)) as H5.
  pose proof (floor_range _ 100 10 (Hr (6 + w_randIx w)%nat)) as H6.
  pose proof (floor_range _ 50 5 (Hr (7 + w_randIx w)%nat)) as H7.
  pose proof (floor_range _ 50 10 (Hr (8 + w_randIx w)%nat)) as H8.
  assert (Hup : c / 1000 <= w_now w / 1000) by (apply Z.div_le_mono; lia).
  repeat split; lia.
Qed.

Lemma X1_reading_ranges_witness :
  exists m,
    fst (generateVMMetrics vmA calm_world) = Ok m
    /\ 100 <= networkIn m <= 1100
    /\ 50 <= networkOut m <= 550
    /\ 10 <= diskRead m <= 109
    /\ 5 <= diskWrite m <= 54
    /\ 10 <= responseTime m <= 59
    /\ 0 <= uptime m
    /\ status m = vm_status vmA.
Proof.
  destruct (generateVMMetrics vmA calm_world) as [[m|e] w'] eqn:E;
    [|vm_compute in E; discriminate E].
  exists m. split; [reflexivity|].
  destruct (X1_reading_ranges vmA 0 calm_world w' m) as (H1 & H2 & H3 & H4 & H5 & H6 & H7 & _).
  - intro i. unfold calm_world, half_draws. simpl. split; lra.
  - reflexivity.
  - vm_compute. discriminate.
  - exact E.
  - repeat split; tauto.
Defined.


Lemma generateVMMetrics_ok (vm : VM) (w w' : World) (m : Metrics) :
  generateVMMetrics vm w = (Ok m, w') ->
  exists c, vm_createdAt vm = Some c /\ m = reading_of vm c w
            /\ w' = set_randIx (10 + w_randIx w) w.
Proof.
  intro H. destruct (vm_createdAt vm) as [c|] eqn:Hc.
  - exists c. rewrite (generateVMMetrics_eq vm c w Hc) in H.
    split; [reflexivity|]. split; congruence.
  - destruct (generateVMMetrics_undated vm w Hc) as [e He].
    rewrite H in He. discriminate He.
Qed.

(** Outside business hours the multiplier is 0.8 and the CPU percentage
    of a reading stays below 50. *)
Lemma reading_cpu_off_hours (vm : VM) (c : Z) (w : World) :
  draws_in_range (w_rand w) ->
  hour_of w < 9 \/ 17 < hour_of w ->
  (cpuUsage (reading_of vm c w) < 50)%Q.
Proof.
  intros Hr Hh. unfold reading_of. cbv [cpuUsage].
  assert (Hb : ((9 <=? hour_of w) && (hour_of w <=? 17))%bool = false).
  { apply andb_false_iff. destruct Hh; [left; apply Z.leb_gt|right; apply Z.leb_gt]; lia. }
  rewrite Hb.
  pose proof (Hr (0 + w_randIx w)%nat) as H0.
  pose proof (Hr (1 + w_randIx w)%nat) as H1.
  rewrite Math_min_eq_r; lra.
Qed.

(** X2. The readings that the generator can produce, for draws in
    [0, 1), never raise a critical event, nor a memory or disk event: the
    only events are a [cpu_high] warning and an [error_rate_high] warning;
    outside business hours (before 9 or after 17) not even the CPU
    event. *)
Theorem X2_synthetic_alerts (vm : VM) (w w' : World) (m : Metrics) :
  draws_in_range (w_rand w) ->
  generateVMMetrics vm w = (Ok m, w') ->
  (forall ev, In ev (checkForAlerts_alerts m) ->
     ae_severity ev = warning
     /\ (ae_type ev = cpu_high \/ ae_type ev = error_rate_high))
  /\ (hour_of w < 9 \/ 17 < hour_of w ->
      events_of cpu_high (checkForAlerts_alerts m) = []).
Proof.
  intros Hr H.
  destruct (generateVMMetrics_bounds vm w w' m Hr H)
    as ((_ & Hc) & (_ & Hm) & (_ & Hd) & _).
  assert (Ec : Qgtb (cpuUsage m) 90 = false) by (apply Qgtb_false; lra).
  assert (Em1 : Qgtb (memoryUsage m) 95 = false) by (apply Qgtb_false; lra).
  assert (Em2 : Qgtb (memoryUsage m) 85 = false) by (apply Qgtb_false; lra).
  assert (Ed : Qgtb (diskUsage m) 95 = false) by (apply Qgtb_false; lra).
  split.
  - intros ev Hin. unfold checkForAlerts_alerts, cpu_alerts, memory_alerts,
      disk_alerts, error_rate_alerts in Hin.
    rewrite Ec, Em1, Em2, Ed in Hin.
    destruct (Qgtb (cpuUsage m) 75); destruct (Qgtb (errorRate m) (2 # 100));
      simpl in Hin; intuition (subst; simpl; auto).
  - intro Hh. rewrite events_of_cpu_high. unfold cpu_alerts. rewrite Ec.
    destruct (generateVMMetrics_ok vm w w' m H) as (c & _ & -> & _).
    pose proof (reading_cpu_off_hours vm c w Hr Hh) as Hlow.
    assert (E75 : Qgtb (cpuUsage (reading_of vm c w)) 75 = false)
      by (apply Qgtb_false; lra).
    now rewrite E75.
Qed.

Lemma X2_synthetic_alerts_witness :
  exists m,
    fst (generateVMMetrics vmA calm_world) = Ok m
    /\ forall ev, In ev (checkForAlerts_alerts m) ->
         ae_severity ev = warning
         /\ (ae_type ev = cpu_high \/ ae_type ev = error_rate_high).
Proof.
  destruct (generateVMMetrics vmA calm_world) as [[m|e] w'] eqn:E;
    [|vm_compute in E; discriminate E].
  exists m. split; [reflexivity|].
  apply (proj1 (X2_synthetic_alerts vmA calm_world w' m
                  (fun i => conj (Qle_bool_imp_le 0 (1 # 2) eq_refl) eq_refl) E)).
Defined.





(* ------------------------------------------------------------------ *)
(** ** Further properties: the point and alert stores *)

Lemma validate_VMMetrics_none (vmId : ObjectId) (metrics : Metrics) (now : Z) :
  validate_VMMetrics (point_of vmId metrics now) = None
  <-> valid_percentages metrics = true.
Proof.
  unfold validate_VMMetrics, valid_percentages, point_of.
  cbn [vmm_cpuUsage vmm_memoryUsage vmm_diskUsage].
  destruct (in_percent_range (cpuUsage metrics));
    destruct (in_percent_range (memoryUsage metrics));
    destruct (in_percent_range (diskUsage metrics)); simpl;
    split; intro H; try reflexivity; discriminate H.
Qed.

(** The points and the clock after [saveVMMetrics]. *)
Lemma saveVMMetrics_points (vmId : ObjectId) (metrics : Metrics) (w : World) :
  w_now (snd (saveVMMetrics vmId metrics w)) = w_now w
  /\ w_vmMetrics (snd (saveVMMetrics vmId metrics w)) =
       (if (valid_percentages metrics && negb (w_faults w (w_ops w)))%bool
        then w_vmMetrics w ++ [point_of vmId metrics (w_now w)]
        else w_vmMetrics w).
Proof.
  destruct_world w.
  unfold saveVMMetrics, VMMetrics_save. run_world.
  fold (point_of vmId metrics now).
  destruct (validate_VMMetrics (point_of vmId metrics now)) as [path|] eqn:V.
  - assert (Hv : valid_percentages metrics = false).
    { destruct (valid_percentages metrics) eqn:E; [|reflexivity].
      apply validate_VMMetrics_none with (vmId := vmId) (now := now) in E.
      rewrite E in V. discriminate V. }
    rewrite Hv. run_world. repeat split.
  - apply validate_VMMetrics_none in V. rewrite V. run_world.
    destruct (faults ops); repeat split.
Qed.

(** X4. [saveVMMetrics] never throws.  It stores the point of the
    reading, stamped with the instance and the current time, exactly when
    the three percentages are in [0, 100] and the database answers, and
    then logs nothing; in every other case the collection is unchanged
    and one warning is logged.  A reading that fails validation makes no
    round trip to the database. *)
Theorem X4_saveVMMetrics (vmId : ObjectId) (metrics : Metrics) (w : World) :
  let w' := snd (saveVMMetrics vmId metrics w) in
  let stored := (valid_percentages metrics && negb (w_faults w (w_ops w)))%bool in
  fst (saveVMMetrics vmId metrics w) = Ok tt
  /\ w_vmMetrics w' =
       (if stored then w_vmMetrics w ++ [point_of vmId metrics (w_now w)]
        else w_vmMetrics w)
  /\ w_log w' =
       (if stored then w_log w
        else w_log w ++ [mkLog L2Warning "Failed to save VM metrics" (Some vmId)])
  /\ w_ops w' = (if valid_percentages metrics then S (w_ops w) else w_ops w).
Proof.
  destruct_world w. cbv zeta.
  unfold saveVMMetrics, VMMetrics_save. run_world.
  fold (point_of vmId metrics now).
  destruct (validate_VMMetrics (point_of vmId metrics now)) as [path|] eqn:V.
  - assert (Hv : valid_percentages metrics = false).
    { destruct (valid_percentages metrics) eqn:E; [|reflexivity].
      apply validate_VMMetrics_none with (vmId := vmId) (now := now) in E.
      rewrite E in V. discriminate V. }
    rewrite Hv. run_world. repeat split.
  - apply validate_VMMetrics_none in V. rewrite V. run_world.
    destruct (faults ops); repeat split.
Qed.


Lemma createAlert_found (vmId : ObjectId) (ev : AlertEvent) (w : World)
    (a : SystemAlert) :
  w_faults w (w_ops w) = false ->
  w_faults w (S (w_ops w)) = false ->
  find (similar_alert vmId ev (w_now w)) (w_alerts w) = Some a ->
  createAlert vmId ev w =
    (Ok tt,
     set_alerts
       (replace_by_id
          (set_updatedAt (w_now w) (bump_alert (w_now w) (ae_value ev) a))
          (w_alerts w))
       (set_ops (S (S (w_ops w))) w)).
Proof.
  destruct_world w. cbv [w_faults w_ops w_now w_alerts]. intros F0 F1 Hf.
  unfold createAlert, SystemAlert_findOne, SystemAlert_update.
  run_world. rewrite F0, Hf. run_world. rewrite F1. reflexivity.
Qed.

Lemma createAlert_not_found (vmId : ObjectId) (ev : AlertEvent) (w : World) :
  w_faults w (w_ops w) = false ->
  w_faults w (S (w_ops w)) = false ->
  find (similar_alert vmId ev (w_now w)) (w_alerts w) = None ->
  createAlert vmId ev w =
    (Ok tt,
     set_log (w_log w ++ [mkLog L2Warning "System alert created" (Some vmId)])
       (set_alerts (w_alerts w ++ [new_alert (w_nextId w) vmId ev (w_now w)])
          (set_ops (S (S (w_ops w)))
             (set_nextId (N.succ (w_nextId w)) w)))).
Proof.
  destruct_world w. cbv [w_faults w_ops w_now w_alerts w_log w_nextId].
  intros F0 F1 Hf.
  unfold createAlert, SystemAlert_findOne, SystemAlert_insert.
  run_world. rewrite F0, Hf. run_world. rewrite F1. reflexivity.
Qed.

(** A replacement keeps the identifiers, in order. *)
Lemma replace_by_id_ids (a' : SystemAlert) (l : list SystemAlert) :
  map sa_id (replace_by_id a' l) = map sa_id l.
Proof.
  induction l as [|x l IH]; [reflexivity|].
  cbn [replace_by_id]. destruct (N.eqb_spec (sa_id x) (sa_id a')) as [E|_].
  - cbn [map]. now rewrite E.
  - cbn [map]. now rewrite IH.
Qed.

(** X5. The update branch of [createAlert].  When the filter finds a
    record (same instance, same type, unresolved, created in the last
    five minutes) and the database answers, no record is added and
    nothing is logged: that record stays in place with its count
    incremented ([count || 1] plus one), [lastSeen] and [updatedAt] set to
    the current time and [currentValue] to the new value; its severity,
    message and creation date are kept. *)
Theorem X5_createAlert_updates (vmId : ObjectId) (ev : AlertEvent) (w : World)
    (a : SystemAlert) :
  w_faults w (w_ops w) = false ->
  w_faults w (S (w_ops w)) = false ->
  NoDup (map sa_id (w_alerts w)) ->
  find (similar_alert vmId ev (w_now w)) (w_alerts w) = Some a ->
  let w' := snd (createAlert vmId ev w) in
  exists a',
    In a' (w_alerts w')
    /\ List.length (w_alerts w') = List.length (w_alerts w)
    /\ map sa_id (w_alerts w') = map sa_id (w_alerts w)
    /\ w_log w' = w_log w
    /\ sa_id a' = sa_id a
    /\ sa_count a' = (if sa_count a =? 0 then 1 else sa_count a) + 1
    /\ sa_lastSeen a' = w_now w
    /\ sa_updatedAt a' = w_now w
    /\ sa_currentValue a' = Some (ae_value ev)
    /\ sa_level a' = sa_level a
    /\ sa_message a' = sa_message a
    /\ sa_createdAt a' = sa_createdAt a
    /\ sa_resolved a' = false.
Proof.
  intros F0 F1 Hnd Hf. cbv zeta.
  rewrite (createAlert_found vmId ev w a F0 F1 Hf).
  set (a' := set_updatedAt (w_now w) (bump_alert (w_now w) (ae_value ev) a)).
  destruct (find_some _ _ Hf) as [Hin Hsim].
  assert (Hid : find (has_id (sa_id a')) (w_alerts w) = Some a)
    by (apply (find_id_unique _ a Hnd Hin)).
  destruct (replace_by_id_in a a' (w_alerts w) Hid) as (R1 & _ & R3).
  assert (Hres : sa_resolved a = false).
  { unfold similar_alert in Hsim.
    apply andb_prop in Hsim. destruct Hsim as [Hsim _].
    apply andb_prop in Hsim. destruct Hsim as [_ Hr].
    now apply negb_true_iff. }
  pose proof (replace_by_id_ids a' (w_alerts w)) as Rids.
  exists a'. destruct_world w. cbv [snd w_alerts w_log set_alerts set_ops] in *.
  split; [exact R1|]. split; [exact R3|]. split; [exact Rids|].
  repeat split. exact Hres.
Qed.

Lemma X5_createAlert_updates_witness :
  exists a',
    In a' (w_alerts (snd (createAlert 7%N hot_event recent_typed_world)))
    /\ List.length (w_alerts (snd (createAlert 7%N hot_event recent_typed_world))) = 1%nat
    /\ sa_count a' = 4
    /\ sa_currentValue a' = Some 97%Q
    /\ sa_lastSeen a' = 43200000.
Proof.
  destruct (X5_createAlert_updates 7%N hot_event recent_typed_world
              (typed_alert 51%N 43140000 43140000))
    as (a' & H1 & H2 & _ & _ & _ & H6 & H7 & _ & H9 & _).
  - reflexivity.
  - reflexivity.
  - repeat constructor. intros [].
  - reflexivity.
  - exists a'. split; [exact H1|]. split; [exact H2|]. split; [exact H6|].
    split; [exact H9|exact H7].
Defined.

(** X6. The window of [createAlert] is counted from the creation of the
    record, not from its last occurrence.  When every unresolved record
    of the same instance and type was created more than five minutes ago
    (whenever it was last seen), and the database answers, the call
    appends a new record with count 1 and logs the creation. *)
Theorem X6_createAlert_window (vmId : ObjectId) (ev : AlertEvent) (w : World) :
  w_faults w (w_ops w) = false ->
  w_faults w (S (w_ops w)) = false ->
  (forall a, In a (w_alerts w) ->
     sa_vmId a = Some vmId ->
     sa_type a = Some (AlertType_name (ae_type ev)) ->
     sa_resolved a = false ->
     sa_createdAt a < w_now w - 5 * 60 * 1000) ->
  let w' := snd (createAlert vmId ev w) in
  w_alerts w' = w_alerts w ++ [new_alert (w_nextId w) vmId ev (w_now w)]
  /\ sa_count (new_alert (w_nextId w) vmId ev (w_now w)) = 1
  /\ w_log w' = w_log w ++ [mkLog L2Warning "System alert created" (Some vmId)].
Proof.
  intros F0 F1 Hold. cbv zeta.
  assert (Hf : find (similar_alert vmId ev (w_now w)) (w_alerts w) = None).
  { destruct (find _ _) as [a|] eqn:E; [|reflexivity]. exfalso.
    destruct (find_some _ _ E) as [Hin Hsim]. unfold similar_alert in Hsim.
    apply andb_prop in Hsim. destruct Hsim as [Hsim Ht].
    apply andb_prop in Hsim. destruct Hsim as [Hsim Hr].
    apply andb_prop in Hsim. destruct Hsim as [Hv Hty].
    apply Z.leb_le in Ht.
    assert (sa_createdAt a < w_now w - 5 * 60 * 1000); [|lia].
    apply Hold; [exact Hin| | |].
    - destruct (sa_vmId a) as [v|]; [|discriminate Hv].
      apply N.eqb_eq in Hv. now subst.
    - destruct (sa_type a) as [t|]; [|discriminate Hty].
      apply String.eqb_eq in Hty. now subst.
    - now apply negb_true_iff. }
  rewrite (createAlert_not_found vmId ev w F0 F1 Hf).
  destruct_world w. repeat split.
Qed.

Lemma X6_createAlert_window_witness :
  map sa_lastSeen (w_alerts stale_typed_world) = [43199000]
  /\ w_alerts (snd (createAlert 7%N hot_event stale_typed_world)) =
       w_alerts stale_typed_world
         ++ [new_alert (w_nextId stale_typed_world) 7%N hot_event
               (w_now stale_typed_world)].
Proof.
  split; [reflexivity|].
  apply (X6_createAlert_window 7%N hot_event stale_typed_world eq_refl eq_refl).
  intros a [<-|[]] _ _ _. reflexivity.
Defined.

(** X7. [createAlert] never throws, and a failure of the database drops
    the candidate alert: when the lookup or the write that follows it
    fails, the collection of alerts is left as it was and the failure is
    logged as critical. *)
Theorem X7_createAlert_failure (vmId : ObjectId) (ev : AlertEvent) (w : World) :
  fst (createAlert vmId ev w) = Ok tt
  /\ (w_faults w (w_ops w) = true \/ w_faults w (S (w_ops w)) = true ->
      w_alerts (snd (createAlert vmId ev w)) = w_alerts w
      /\ w_log (snd (createAlert vmId ev w)) =
           w_log w ++ [mkLog L1Critical "Failed to create alert" (Some vmId)]).
Proof.
  destruct_world w. cbv [w_faults w_ops w_alerts w_log].
  unfold createAlert, SystemAlert_findOne, SystemAlert_update, SystemAlert_insert.
  run_world.
  destruct (faults ops) eqn:F0.
  - split; [reflexivity|]. intros _. split; reflexivity.
  - destruct (find _ als) as [a|]; destruct (faults (S ops)) eqn:F1;
      (split; [reflexivity|]); intros [H|H]; try discriminate H;
      split; reflexivity.
Qed.

Lemma X7_createAlert_failure_witness :
  w_alerts (snd (createAlert 7%N hot_event (with_faults all_faults recent_typed_world))) =
    w_alerts recent_typed_world
  /\ w_log (snd (createAlert 7%N hot_event (with_faults all_faults recent_typed_world))) =
       [mkLog L1Critical "Failed to create alert" (Some 7%N)].
Proof.
  apply (proj2 (X7_createAlert_failure 7%N hot_event
                  (with_faults all_faults recent_typed_world))).
  left. reflexivity.
Defined.


(* ------------------------------------------------------------------ *)
(** ** Further properties: the collection cycle *)

Lemma collectMetrics_ok (w : World) : fst (collectMetrics w) = Ok tt.
Proof.
  unfold collectMetrics, try_catch.
  destruct (bind VM_find_active _ w) as [[[]|e] w1]; [reflexivity|].
  destruct_world w1. reflexivity.
Qed.

(** X8. [collectMetrics] never throws, whatever the database, the fleet
    and the draws.  When the query for the active instances fails,
    nothing is sampled, stored or aggregated: the only effect is one
    critical log entry. *)
Theorem X8_collectMetrics_total (w : World) :
  fst (collectMetrics w) = Ok tt
  /\ (w_faults w (w_ops w) = true ->
      snd (collectMetrics w) =
        set_log (w_log w ++ [mkLog L1Critical "Error collecting metrics" None])
          (set_ops (S (w_ops w)) w)).
Proof.
  split; [apply collectMetrics_ok|].
  destruct_world w. cbv [w_faults w_ops w_log]. intro F.
  unfold collectMetrics, VM_find_active. run_world. rewrite F. reflexivity.
Qed.

Lemma X8_collectMetrics_total_witness :
  snd (collectMetrics (with_faults all_faults mixed_world)) =
    set_log [mkLog L1Critical "Error collecting metrics" None]
      (set_ops 1 (with_faults all_faults mixed_world)).
Proof.
  apply (proj2 (X8_collectMetrics_total (with_faults all_faults mixed_world))).
  reflexivity.
Defined.

Section Appends.

Variable P : VMMetrics -> Prop.

Lemma appends_trans (n1 n2 : nat) (w1 w2 w3 : World) :
  appends P n1 w1 w2 -> appends P n2 w2 w3 -> appends P (n1 + n2) w1 w3.
Proof.
  intros (N1 & d1 & H1 & F1 & L1) (N2 & d2 & H2 & F2 & L2). split; [congruence|].
  exists (d1 ++ d2). split; [now rewrite H2, H1, app_assoc|]. split.
  - apply Forall_app. now split.
  - rewrite length_app. lia.
Qed.

(** Steps that leave the clock and the points alone. *)
Lemma appends_same (n : nat) (w1 w2 : World) :
  w_now w2 = w_now w1 -> w_vmMetrics w2 = w_vmMetrics w1 -> appends P n w1 w2.
Proof.
  intros Hn Hp. split; [exact Hn|]. exists []. split; [now rewrite app_nil_r|].
  split; [constructor|simpl; lia].
Qed.

Lemma appends_weaken (n n' : nat) (w1 w2 : World) :
  (n <= n')%nat -> appends P n w1 w2 -> appends P n' w1 w2.
Proof.
  intros Hle (N & ds & H & F & L). split; [exact N|]. exists ds.
  split; [exact H|]. split; [exact F|lia].
Qed.

Lemma createAlert_appends (vmId : ObjectId) (ev : AlertEvent) (w : World) :
  appends P 0 w (snd (createAlert vmId ev w)).
Proof.
  destruct_world w.
  unfold createAlert, SystemAlert_findOne, SystemAlert_update, SystemAlert_insert.
  run_world.
  step_store; [apply appends_same; reflexivity|].
  destruct (find _ als) as [a|]; step_store; apply appends_same; reflexivity.
Qed.

Lemma forEach_appends {A : Type} (f : A -> M unit) (k : nat) (now : Z)
    (l : list A) :
  (forall x, In x l -> forall w, w_now w = now -> appends P k w (snd (f x w))) ->
  forall w, w_now w = now ->
            appends P (k * List.length l) w (snd (forEach l f w)).
Proof.
  induction l as [|x l IH]; intros Hf w Hw; cbn [forEach].
  - apply appends_same; reflexivity.
  - unfold bind. pose proof (Hf x (or_introl eq_refl) w Hw) as Hx.
    destruct (f x w) as [[[]|e] w1]; cbn [fst snd] in *.
    + apply (appends_weaken (k + k * List.length l)); [simpl; lia|].
      apply (appends_trans _ _ _ w1); [exact Hx|].
      apply IH.
      * intros y Hy. apply Hf. now right.
      * destruct Hx as [Hn _]. congruence.
    + apply (appends_weaken k); [simpl; lia|exact Hx].
Qed.

Lemma checkForAlerts_appends (vm : VM) (metrics : Metrics) (w : World) :
  appends P 0 w (snd (checkForAlerts vm metrics w)).
Proof.
  unfold checkForAlerts.
  apply (appends_weaken (0 * List.length (checkForAlerts_alerts metrics)));
    [lia|].
  apply (forEach_appends _ 0 (w_now w)); [|reflexivity].
  intros ev _ w0 _. apply createAlert_appends.
Qed.

Lemma collectSystemMetrics_appends (w : World) :
  appends P 0 w (snd (collectSystemMetrics w)).
Proof.
  destruct_world w.
  unfold collectSystemMetrics, VM_countDocuments, VMMetrics_aggregate,
    PerformanceMetrics_save.
  run_world.
  repeat (step_store; [apply appends_same; reflexivity|]).
  apply appends_same; reflexivity.
Qed.

Lemma saveVMMetrics_appends (vmId : ObjectId) (metrics : Metrics) (w : World) :
  P (point_of vmId metrics (w_now w)) ->
  appends P 1 w (snd (saveVMMetrics vmId metrics w)).
Proof.
  intro Hp. destruct (saveVMMetrics_points vmId metrics w) as (Hn & Hv).
  split; [exact Hn|]. rewrite Hv.
  destruct (valid_percentages metrics && negb (w_faults w (w_ops w)))%bool.
  - exists [point_of vmId metrics (w_now w)]. split; [reflexivity|].
    split; [constructor; [exact Hp|constructor]|simpl; lia].
  - exists []. split; [now rewrite app_nil_r|]. split; [constructor|simpl; lia].
Qed.

(** One turn of the loop: at most one point, that of the instance. *)
Lemma collect_one_appends (vm : VM) (w : World) :
  (forall m, status m = vm_status vm -> P (point_of (vm_id vm) m (w_now w))) ->
  appends P 1 w (snd (collect_one vm w)).
Proof.
  intro Hp. unfold collect_one, bind.
  destruct (generateVMMetrics vm w) as [[m|e] w1] eqn:G.
  - destruct (generateVMMetrics_ok vm w w1 m G) as (c & _ & Hm & Hw1).
    assert (Hs : status m = vm_status vm) by (subst m; reflexivity).
    assert (A1 : appends P 0 w w1)
      by (subst w1; destruct_world w; apply appends_same; reflexivity).
    assert (Hn1 : w_now w1 = w_now w) by apply A1.
    pose proof (saveVMMetrics_appends (vm_id vm) m w1) as A2.
    rewrite Hn1 in A2. specialize (A2 (Hp m Hs)).
    destruct (saveVMMetrics (vm_id vm) m w1) as [[[]|e] w2]; cbn [fst snd] in *.
    + apply (appends_trans 0 1 w w1 _ A1).
      apply (appends_trans 1 0 w1 w2 _ A2). apply checkForAlerts_appends.
    + apply (appends_trans 0 1 w w1 _ A1 A2).
  - cbn [snd]. destruct (vm_createdAt vm) as [c|] eqn:Hc.
    + rewrite (generateVMMetrics_eq vm c w Hc) in G. discriminate G.
    + revert G. destruct_world w. unfold generateVMMetrics. rewrite Hc.
      run_world. intro G. injection G as _ <-. apply appends_same; reflexivity.
Qed.

End Appends.

Lemma subsequence_nil_l {A : Type} (l : list A) : subsequence [] l.
Proof.
  induction l as [|x l IH]; [constructor|now constructor].
Qed.

Lemma subsequence_app {A : Type} (l1 l2 l1' l2' : list A) :
  subsequence l1 l1' -> subsequence l2 l2' -> subsequence (l1 ++ l2) (l1' ++ l2').
Proof.
  intros H1 H2. induction H1; cbn [app]; [exact H2| |]; now constructor.
Qed.

(** Steps that leave the clock and the points alone sample nothing. *)
Lemma samples_same (l : list VM) (w1 w2 : World) :
  w_now w2 = w_now w1 -> w_vmMetrics w2 = w_vmMetrics w1 -> samples l w1 w2.
Proof.
  intros Hn Hp. split; [exact Hn|]. exists [], [].
  split; [now rewrite app_nil_r|]. split; [apply subsequence_nil_l|constructor].
Qed.

Lemma samples_app (l1 l2 : list VM) (w1 w2 w3 : World) :
  samples l1 w1 w2 -> samples l2 w2 w3 -> samples (l1 ++ l2) w1 w3.
Proof.
  intros (N1 & s1 & d1 & H1 & S1 & F1) (N2 & s2 & d2 & H2 & S2 & F2).
  split; [congruence|]. exists (s1 ++ s2), (d1 ++ d2).
  split; [now rewrite H2, H1, app_assoc|].
  split; [now apply subsequence_app|].
  apply Forall2_app; [exact F1|]. now rewrite <- N1.
Qed.

(** One turn of the loop samples its instance at most once. *)
Lemma collect_one_samples (vm : VM) (w : World) :
  samples [vm] w (snd (collect_one vm w)).
Proof.
  destruct (collect_one_appends (point_for (w_now w) vm) vm w)
    as (Hn & ds & Hd & HP & Hlen).
  { intros m Hs. unfold point_for, point_of.
    cbn [vmm_vmId vmm_timestamp vmm_status]. auto. }
  split; [exact Hn|].
  destruct ds as [|d [|d' ds]]; [| |simpl in Hlen; lia].
  - exists [], []. split; [exact Hd|]. split; [apply subsequence_nil_l|constructor].
  - exists [vm], [d]. split; [exact Hd|].
    split; [apply subsequence_take, subsequence_nil|].
    constructor; [|constructor]. now inversion HP.
Qed.

(** The loop of the cycle: the instances are taken in order, and an
    exception leaves the remaining ones out. *)
Lemma loop_samples (l : list VM) :
  forall w, samples l w (snd (forEach l collect_one w)).
Proof.
  induction l as [|vm l IH]; intro w; cbn [forEach].
  - apply samples_same; reflexivity.
  - unfold bind. pose proof (collect_one_samples vm w) as H1.
    destruct (collect_one vm w) as [[[]|e] w1]; cbn [fst snd] in *.
    + apply (samples_app [vm] l w w1 _ H1 (IH w1)).
    + apply (samples_app [vm] l w w1 w1 H1). apply samples_same; reflexivity.
Qed.

(** X9. Only the active instances are sampled, each at most once.
    Whatever the database, the fleet and the draws, a collection cycle
    removes or changes no stored point; the points it appends are the
    points of some of the active instances (status running, starting or
    stopping): one point for each instance of a subsequence of the list
    of active instances, in the order of that list, each with the
    identifier and the status of its instance and stamped with the time
    of the cycle. *)
Theorem X9_only_active_sampled (w : World) :
  exists sampled ds,
    w_vmMetrics (snd (collectMetrics w)) = w_vmMetrics w ++ ds
    /\ subsequence sampled (filter is_active (w_vms w))
    /\ Forall2 (point_for (w_now w)) sampled ds.
Proof.
  assert (H : samples (filter is_active (w_vms w)) w (snd (collectMetrics w)));
    [|apply H].
  set (l := filter is_active (w_vms w)).
  assert (Hsame : forall w1 w2, samples l w w1 ->
            w_now w2 = w_now w1 -> w_vmMetrics w2 = w_vmMetrics w1 ->
            samples l w w2).
  { intros w1 w2 S1 Hn Hp. rewrite <- (app_nil_r l).
    apply (samples_app l [] w w1 w2 S1). now apply samples_same. }
  assert (Hhandler : forall w1, samples l w w1 ->
            samples l w
              (snd (Logger_log L1Critical "Error collecting metrics" None w1))).
  { intros w1 S1. apply (Hsame w1 _ S1); destruct_world w1; reflexivity. }
  assert (Hfind : w_now (snd (VM_find_active w)) = w_now w
                  /\ w_vmMetrics (snd (VM_find_active w)) = w_vmMetrics w
                  /\ forall l0, fst (VM_find_active w) = Ok l0 -> l0 = l).
  { subst l. destruct_world w. unfold VM_find_active. run_world.
    destruct (faults ops); cbn [fst snd]; repeat split; intros l0 E;
      [discriminate E|congruence]. }
  destruct Hfind as (Hn0 & Hp0 & Hl0).
  unfold collectMetrics, try_catch, bind.
  destruct (VM_find_active w) as [[l0|e] w0]; cbn [fst snd] in *.
  - rewrite (Hl0 l0 eq_refl).
    assert (AL : samples l w (snd (forEach l collect_one w0))).
    { change l with ([] ++ l).
      apply (samples_app [] l w w0 _); [now apply samples_same|apply loop_samples]. }
    destruct (forEach l collect_one w0) as [[[]|e] w1]; cbn [fst snd] in *.
    + pose proof (collectSystemMetrics_appends (fun _ => True) w1) as AS.
      destruct AS as (ASn & ds & ASd & _ & ASl).
      assert (Hds : ds = []) by (destruct ds; [reflexivity|simpl in ASl; lia]).
      subst ds. rewrite app_nil_r in ASd.
      destruct (collectSystemMetrics w1) as [[sm|e] w2]; cbn [fst snd] in *.
      * apply (Hsame w1 w2 AL ASn ASd).
      * apply Hhandler. apply (Hsame w1 w2 AL ASn ASd).
    + apply Hhandler, AL.
  - apply Hhandler. now apply samples_same.
Qed.

(** Of the seven instances of [mixed_fleet], one per status, a cycle
    stores the points of instances 2 (running), 4 (stopping) and 5
    (starting). *)
Lemma mixed_fleet_cycle :
  map vmm_vmId (w_vmMetrics (snd (collectMetrics mixed_world))) = [2%N; 4%N; 5%N].
Proof.
  vm_compute. reflexivity.
Qed.


Lemma status_counts (vms : list VM) :
  (List.length (filter (VMStatus_is running) vms)
   + List.length (filter (VMStatus_is stopped) vms)
   + List.length (filter (VMStatus_is error) vms)
   <= List.length vms)%nat.
Proof.
  induction vms as [|vm vms IH]; [simpl; lia|].
  cbn [filter].
  destruct (VMStatus_is running vm) eqn:E1;
    destruct (VMStatus_is stopped vm) eqn:E2;
    destruct (VMStatus_is error vm) eqn:E3;
    cbn [List.length]; try lia;
    exfalso; unfold VMStatus_is in E1, E2, E3;
    destruct (vm_status vm); discriminate.
Qed.

(** X10. [collectSystemMetrics] either returns or rethrows, and never
    swallows a failure.  When it returns, it has appended exactly one
    [PerformanceMetrics] document (operation [system_metrics_collection],
    successful, stamped with the current time) and logged nothing; the
    four counts it returns are those of the fleet (all instances, and
    those whose status is running, stopped and error), the last three
    together at most the total.  When it throws, no
    document was written and the failure was logged as critical. *)
Theorem X10_collectSystemMetrics (w : World) :
  match collectSystemMetrics w with
  | (Ok sm, w') =>
      (exists d, w_perf w' = w_perf w ++ [d]
                 /\ pm_operation d = "system_metrics_collection"%string
                 /\ pm_success d = true
                 /\ pm_timestamp d = w_now w)
      /\ w_log w' = w_log w
      /\ totalVMs sm = Z.of_nat (List.length (w_vms w))
      /\ runningVMs sm = Z.of_nat (List.length (filter (VMStatus_is running) (w_vms w)))
      /\ stoppedVMs sm = Z.of_nat (List.length (filter (VMStatus_is stopped) (w_vms w)))
      /\ errorVMs sm = Z.of_nat (List.length (filter (VMStatus_is error) (w_vms w)))
      /\ runningVMs sm + stoppedVMs sm + errorVMs sm <= totalVMs sm
      /\ sm_timestamp sm = w_now w
  | (Throw e, w') =>
      w_perf w' = w_perf w
      /\ w_log w' =
           w_log w ++ [mkLog L1Critical "Failed to collect system metrics" None]
  end.
Proof.
  pose proof (status_counts (w_vms w)) as Hc.
  destruct_world w. cbv [w_vms] in Hc.
  unfold collectSystemMetrics, VM_countDocuments, VMMetrics_aggregate,
    PerformanceMetrics_save.
  run_world.
  repeat (step_store; [split; reflexivity|]).
  split; [eexists; repeat split|].
  split; [reflexivity|].
  cbn [totalVMs runningVMs stoppedVMs errorVMs sm_timestamp].
  split; [now rewrite filter_all by reflexivity|].
  split; [reflexivity|]. split; [reflexivity|]. split; [reflexivity|].
  split; [|reflexivity].
  rewrite (filter_all (fun _ => true)) by reflexivity. lia.
Qed.


(** X11. With no point stored in the last five minutes, a successful
    [collectSystemMetrics] reports a load, a memory utilisation, a response
    time and an error rate of zero, not the [null] of the empty
    aggregation. *)
Theorem X11_idle_system_metrics (w w' : World) (sm : SystemMetrics) :
  (forall d, In d (w_vmMetrics w) -> vmm_timestamp d < w_now w - 5 * 60 * 1000) ->
  collectSystemMetrics w = (Ok sm, w') ->
  systemLoad sm = JNum 0 /\ memoryUtilization sm = JNum 0
  /\ networkThroughput_in sm = JNum 0 /\ networkThroughput_out sm = JNum 0
  /\ averageResponseTime sm = JNum 0 /\ systemErrorRate sm = JNum 0.
Proof.
  destruct_world w. cbv [w_vmMetrics w_now]. intro Hold.
  assert (Hm : match_since (ValidDate (now - 5 * 60 * 1000)) pts = []).
  { unfold match_since, bson_date. apply filter_none. intros d Hd.
    apply Z.leb_gt, Hold, Hd. }
  unfold collectSystemMetrics, VM_countDocuments, VMMetrics_aggregate,
    PerformanceMetrics_save.
  run_world.
  repeat (step_store; [discriminate|]).
  rewrite Hm. intro E.
  assert (E1 : Ok (A := SystemMetrics) _ = Ok sm) by (exact (f_equal fst E)).
  injection E1 as <-. repeat split.
Qed.

Lemma X11_idle_system_metrics_witness :
  exists sm,
    fst (collectSystemMetrics day60_world) = Ok sm
    /\ systemLoad sm = JNum 0 /\ memoryUtilization sm = JNum 0.
Proof.
  destruct (collectSystemMetrics day60_world) as [[sm|e] w'] eqn:E;
    [|vm_compute in E; discriminate E].
  exists sm. split; [reflexivity|].
  destruct (X11_idle_system_metrics day60_world w' sm) as (H1 & H2 & _).
  - intros d [<-|[]]. reflexivity.
  - exact E.
  - split; assumption.
Defined.

(* ------------------------------------------------------------------ *)
(** ** Further properties: the scheduler and the cycles *)

Lemma period_elapses_stopped (w : World) :
  w_timers w = [] -> period_elapses w = (Ok tt, set_now (w_now w + 30000) w).
Proof.
  destruct_world w. cbv [w_timers]. intros ->. reflexivity.
Qed.

Lemma period_elapses_one (w : World) (t : TimerId) :
  w_timers w = [t] ->
  period_elapses w = collectMetrics (set_now (w_now w + 30000) w).
Proof.
  intro Ht. unfold period_elapses, bind at 1, modify at 1.
  set (w1 := set_now _ w).
  assert (Ht1 : w_timers w1 = [t]) by (subst w1; destruct_world w; exact Ht).
  unfold bind at 1, gets at 1. rewrite Ht1. cbn [forEach]. unfold bind.
  pose proof (collectMetrics_ok w1) as Hok.
  destruct (collectMetrics w1) as [[[]|e] w2]; cbn [fst] in Hok;
    [reflexivity|discriminate Hok].
Qed.

(** X12. After any sequence of [startMonitoring] and [stopMonitoring]
    calls on a freshly constructed service, the lapse of one period runs
    exactly one collection cycle when the service is running, and none
    when it is stopped: then only the clock has moved. *)
Theorem X12_cycles_per_period (w0 : World) (cs : list SchedCall) :
  constructed w0 ->
  let w := run_calls cs w0 in
  period_elapses w =
    if w_isRunning w
    then collectMetrics (set_now (w_now w + 30000) w)
    else (Ok tt, set_now (w_now w + 30000) w).
Proof.
  intros H0 w.
  assert (Hw : sched_inv w) by (apply run_calls_inv, constructed_inv, H0).
  unfold sched_inv in Hw. destruct (w_isRunning w).
  - destruct Hw as (t & _ & Ht). apply (period_elapses_one w t Ht).
  - destruct Hw as (_ & Ht). apply (period_elapses_stopped w Ht).
Qed.

Lemma X12_cycles_per_period_witness :
  period_elapses (run_calls [CallStart; CallStart; CallStop] mixed_world) =
    (Ok tt,
     set_now (w_now (run_calls [CallStart; CallStart; CallStop] mixed_world) + 30000)
       (run_calls [CallStart; CallStart; CallStop] mixed_world)).
Proof.
  pose proof (X12_cycles_per_period mixed_world [CallStart; CallStart; CallStop]
                (conj eq_refl (conj eq_refl eq_refl))) as H.
  cbv zeta in H.
  assert (R : w_isRunning (run_calls [CallStart; CallStart; CallStop] mixed_world)
              = false) by (vm_compute; reflexivity).
  rewrite R in H. exact H.
Defined.


(* ------------------------------------------------------------------ *)
(** ** Further properties: the queries *)

Section SortBy.

Context {A : Type} (key : A -> Z).

Lemma insert_by_perm (x : A) (l : list A) : Permutation (insert_by key x l) (x :: l).
Proof.
  induction l as [|y l IH]; cbn [insert_by]; [reflexivity|].
  destruct (key y <=? key x); [|reflexivity].
  rewrite IH. apply perm_swap.
Qed.

Lemma insert_by_ascending (x : A) (l : list A) :
  ascending key l -> ascending key (insert_by key x l).
Proof.
  unfold ascending. induction 1 as [|y l Hs IH Hy]; cbn [insert_by].
  - constructor; constructor.
  - destruct (key y <=? key x) eqn:E.
    + constructor; [exact IH|].
      apply (Permutation_Forall (Permutation_sym (insert_by_perm x l))).
      constructor; [now apply Z.leb_le|exact Hy].
    + apply Z.leb_gt in E. constructor; [constructor; assumption|].
      constructor; [lia|].
      eapply Forall_impl; [|exact Hy]. intros b Hb. simpl in Hb. lia.
Qed.

Lemma fold_insert_by (l acc : list A) :
  Permutation (fold_left (fun a x => insert_by key x a) l acc) (l ++ acc)
  /\ (ascending key acc ->
      ascending key (fold_left (fun a x => insert_by key x a) l acc)).
Proof.
  revert acc. induction l as [|x l IH]; intro acc; cbn [fold_left app].
  - split; [reflexivity|auto].
  - destruct (IH (insert_by key x acc)) as [P S]. split.
    + rewrite P. rewrite insert_by_perm. symmetry. apply Permutation_middle.
    + intro Ha. apply S, insert_by_ascending, Ha.
Qed.

Lemma sort_by_perm (l : list A) : Permutation (sort_by key l) l.
Proof.
  unfold sort_by. destruct (fold_insert_by l []) as [P _].
  now rewrite app_nil_r in P.
Qed.

Lemma sort_by_ascending (l : list A) : ascending key (sort_by key l).
Proof.
  unfold sort_by. apply fold_insert_by. constructor.
Qed.

End SortBy.

(** X13. For a valid time range and a database that answers,
    [getVMMetrics] changes nothing and returns the stored points of that
    instance whose timestamp is in the range: each of them once (a
    permutation of those points), no other, in ascending order of
    timestamp. *)
Theorem X13_getVMMetrics (w : World) (vmId : ObjectId) (timeRange : option string)
    (span : Z) :
  timeRanges (default_arg timeRange "1h") = Some span ->
  w_faults w (w_ops w) = false ->
  exists ms,
    getVMMetrics vmId timeRange w = (Ok ms, set_ops (S (w_ops w)) w)
    /\ Permutation ms
         (filter (fun d => (N.eqb (vmm_vmId d) vmId
                            && (w_now w - span <=? vmm_timestamp d))%bool)
                 (w_vmMetrics w))
    /\ ascending vmm_timestamp ms
    /\ (forall d, In d ms <->
          In d (w_vmMetrics w) /\ vmm_vmId d = vmId
          /\ w_now w - span <= vmm_timestamp d).
Proof.
  intros Hs F. eexists. split; [|split; [apply sort_by_perm|split]].
  - destruct_world w. cbv [w_faults w_ops] in F.
    unfold getVMMetrics, since_date, VMMetrics_find. rewrite Hs.
    unfold castDate. run_world. rewrite F. reflexivity.
  - apply sort_by_ascending.
  - intro d. split.
    + intro Hin. apply (Permutation_in _ (sort_by_perm _ _)) in Hin.
      apply filter_In in Hin. destruct Hin as [Hin Hp].
      apply andb_prop in Hp. destruct Hp as [Hv Ht].
      split; [exact Hin|]. split; [now apply N.eqb_eq|now apply Z.leb_le].
    + intros (Hin & Hv & Ht).
      apply (Permutation_in _ (Permutation_sym (sort_by_perm _ _))).
      apply filter_In. split; [exact Hin|].
      apply andb_true_intro. split; [now apply N.eqb_eq|now apply Z.leb_le].
Qed.

Lemma X13_getVMMetrics_witness :
  exists ms,
    getVMMetrics 7%N None history_world = (Ok ms, set_ops 1 history_world)
    /\ map vmm_timestamp ms = [43000000; 43100000; 43150000]
    /\ ascending vmm_timestamp ms.
Proof.
  destruct (X13_getVMMetrics history_world 7%N None (60 * 60 * 1000) eq_refl eq_refl)
    as (ms & H1 & _ & H3 & _).
  exists ms. split; [exact H1|]. split; [|exact H3].
  assert (E : fst (getVMMetrics 7%N None history_world) = Ok ms)
    by (rewrite H1; reflexivity).
  vm_compute in E. injection E as <-. reflexivity.
Defined.


Lemma fold_max_spec (tl : list Q) :
  forall x,
    let mx := fold_left (fun m y => if Qle_bool m y then y else m) tl x in
    (x <= mx)%Q /\ (forall y, In y tl -> (y <= mx)%Q) /\ (mx = x \/ In mx tl).
Proof.
  induction tl as [|y tl IH]; intro x; cbn [fold_left].
  - split; [apply Qle_refl|]. split; [intros y []|now left].
  - destruct (Qle_bool x y) eqn:E.
    + apply Qle_bool_iff in E. destruct (IH y) as (H1 & H2 & H3). cbv zeta in *.
      split; [eapply Qle_trans; eassumption|]. split.
      * intros z [<-|Hz]; [exact H1|apply H2, Hz].
      * right. destruct H3 as [->|H3]; [now left|now right].
    + assert (Hlt : (y < x)%Q).
      { apply Qnot_le_lt. intro H. apply Qle_bool_iff in H. congruence. }
      destruct (IH x) as (H1 & H2 & H3). cbv zeta in *.
      split; [exact H1|]. split.
      * intros z [<-|Hz]; [|apply H2, Hz].
        eapply Qle_trans; [apply Qlt_le_weak, Hlt|exact H1].
      * destruct H3 as [->|H3]; [now left|right; now right].
Qed.

Lemma maximum_group (f : VMMetrics -> Q) (d0 : VMMetrics) (ds : list VMMetrics) :
  maximum_of f (d0 :: ds) (agg_max (map f (d0 :: ds)))
  /\ is_number (agg_avg (map f (d0 :: ds))).
Proof.
  unfold maximum_of, is_number, agg_max, agg_avg. cbn [map].
  destruct (fold_max_spec (map f ds) (f d0)) as (H1 & H2 & H3). cbv zeta in *.
  set (mx := fold_left _ (map f ds) (f d0)) in *.
  split; [|eexists; reflexivity].
  exists mx. split; [reflexivity|]. split.
  - intros d [<-|Hd]; [exact H1|]. apply H2. now apply in_map.
  - destruct H3 as [H3|H3].
    + exists d0. split; [now left|now symmetry].
    + apply in_map_iff in H3. destruct H3 as (d & Hd & Hin).
      exists d. split; [now right|exact Hd].
Qed.

(** X14. For a valid time range with at least one stored point in it and
    a database that answers, [getPerformanceSummary] changes nothing and
    returns one summary over exactly the points of the range:
    [dataPoints] is their number; for each of CPU, memory and disk the
    maximum bounds the value of every point and is the value of one of
    them, and the average is a number; the figures computed from fields
    that no stored point has carry no data, whatever was sampled: the two
    network totals are 0, and the averages and maxima of the response
    time and of the error rate are [null]. *)
Theorem X14_summary_of_range (w : World) (timeRange : string) (span : Z)
    (d0 : VMMetrics) :
  timeRanges timeRange = Some span ->
  w_faults w (w_ops w) = false ->
  In d0 (w_vmMetrics w) ->
  w_now w - span <= vmm_timestamp d0 ->
  let ds := filter (fun d => w_now w - span <=? vmm_timestamp d) (w_vmMetrics w) in
  exists v,
    getPerformanceSummary (Some timeRange) w = (Ok v, set_ops (S (w_ops w)) w)
    /\ js_get v "dataPoints" = JNum (inject_Z (Z.of_nat (List.length ds)))
    /\ maximum_of vmm_cpuUsage ds (js_get v "maxCpuUsage")
    /\ maximum_of vmm_memoryUsage ds (js_get v "maxMemoryUsage")
    /\ maximum_of vmm_diskUsage ds (js_get v "maxDiskUsage")
    /\ is_number (js_get v "avgCpuUsage")
    /\ is_number (js_get v "avgMemoryUsage")
    /\ is_number (js_get v "avgDiskUsage")
    /\ js_get v "totalNetworkIn" = JNum 0
    /\ js_get v "totalNetworkOut" = JNum 0
    /\ js_get v "avgResponseTime" = JNull
    /\ js_get v "maxResponseTime" = JNull
    /\ js_get v "avgErrorRate" = JNull
    /\ js_get v "maxErrorRate" = JNull.
Proof.
  intros Hs F Hin Ht ds.
  rewrite (getPerformanceSummary_eq w timeRange F), Hs.
  unfold match_since, bson_date. fold ds.
  assert (Hne : In d0 ds)
    by (subst ds; apply filter_In; split; [exact Hin|now apply Z.leb_le]).
  destruct ds as [|d1 ds']; [contradiction|].
  eexists. split; [reflexivity|].
  cbn [first_or_undefined js_or truthy summary_group js_get assoc_get String.eqb
       Ascii.eqb Bool.eqb andb].
  split; [reflexivity|].
  split; [apply maximum_group|]. split; [apply maximum_group|].
  split; [apply maximum_group|]. split; [apply maximum_group|].
  split; [apply maximum_group|]. split; [apply maximum_group|].
  repeat split.
Qed.

Lemma X14_summary_of_range_witness :
  exists v,
    fst (getPerformanceSummary (Some "1h"%string) history_world) = Ok v
    /\ js_get v "dataPoints" = JNum 4
    /\ js_get v "maxCpuUsage" = JNum 90.
Proof.
  destruct (X14_summary_of_range history_world "1h" (60 * 60 * 1000)
              (point_at 7%N 43100000 30) eq_refl eq_refl)
    as (v & H1 & _).
  - left. reflexivity.
  - discriminate.
  - exists v.
    assert (E : fst (getPerformanceSummary (Some "1h"%string) history_world) = Ok v)
      by (rewrite H1; reflexivity).
    split; [exact E|]. vm_compute in E. injection E as <-.
    split; reflexivity.
Defined.


(* ------------------------------------------------------------------ *)
(** ** Further properties: active alerts *)

Lemma no_reference_populate (vms : list VM) (l : list SystemAlert) :
  existsb has_reference l = false ->
  map (fun a => mkActiveAlert a None) l =
  map (fun a => mkActiveAlert a (populate_vm vms a)) l.
Proof.
  intro H. apply map_ext_in. intros a Ha.
  assert (Hr : has_reference a = false).
  { destruct (has_reference a) eqn:E; [|reflexivity].
    assert (existsb has_reference l = true)
      by (apply existsb_exists; now exists a).
    congruence. }
  unfold has_reference in Hr. unfold populate_vm.
  destruct (sa_vmId a); [discriminate Hr|reflexivity].
Qed.

(** The result of [getActiveAlerts] when the database answers. *)
Lemma getActiveAlerts_eq (w : World) (vmId : option ObjectId) :
  w_faults w (w_ops w) = false ->
  w_faults w (S (w_ops w)) = false ->
  let found := sort_by (fun a => - sa_createdAt a)
                 (filter (active_filter vmId) (w_alerts w)) in
  getActiveAlerts vmId w =
    (Ok (map (fun a => mkActiveAlert a (populate_vm (w_vms w) a)) found),
     set_ops (if existsb has_reference found then S (S (w_ops w)) else S (w_ops w)) w).
Proof.
  destruct_world w. cbv [w_faults w_ops w_alerts w_vms]. intros F0 F1.
  cbv zeta. unfold getActiveAlerts, SystemAlert_find_active.
  run_world. rewrite F0.
  destruct (existsb has_reference _) eqn:E.
  - run_world. rewrite F1. reflexivity.
  - run_world. rewrite (no_reference_populate vms _ E). reflexivity.
Qed.

(** X15. When the database answers, [getActiveAlerts] changes no
    collection and returns exactly the unresolved alerts (those of the
    instance, when one is given), each once, newest first; each comes
    with the identifier and status of the instance it refers to, or with
    [null] when it refers to none or to one that no longer exists. *)
Theorem X15_getActiveAlerts (w : World) (vmId : option ObjectId) :
  w_faults w (w_ops w) = false ->
  w_faults w (S (w_ops w)) = false ->
  exists l w',
    getActiveAlerts vmId w = (Ok l, w')
    /\ w_alerts w' = w_alerts w /\ w_log w' = w_log w
    /\ Permutation (map aa_alert l) (filter (active_filter vmId) (w_alerts w))
    /\ newest_first (map aa_alert l)
    /\ (forall a, In a (map aa_alert l) <->
          In a (w_alerts w) /\ sa_resolved a = false
          /\ match vmId with
             | Some id => sa_vmId a = Some id
             | None => True
             end)
    /\ (forall x, In x l -> aa_vm x = populate_vm (w_vms w) (aa_alert x)).
Proof.
  intros F0 F1. rewrite (getActiveAlerts_eq w vmId F0 F1). cbv zeta.
  set (found := sort_by _ _).
  assert (Hmap : map aa_alert
                   (map (fun a => mkActiveAlert a (populate_vm (w_vms w) a)) found)
                 = found).
  { rewrite map_map. cbn [aa_alert]. apply map_id. }
  eexists. eexists. split; [reflexivity|].
  split; [destruct_world w; reflexivity|].
  split; [destruct_world w; reflexivity|].
  rewrite Hmap. split; [apply sort_by_perm|].
  split; [apply sort_by_ascending|]. split.
  - intro a. split.
    + intro Hin. apply (Permutation_in _ (sort_by_perm _ _)) in Hin.
      apply filter_In in Hin. destruct Hin as [Hin Hp].
      unfold active_filter in Hp. apply andb_prop in Hp. destruct Hp as [Hr Hv].
      split; [exact Hin|]. split; [now apply negb_true_iff|].
      destruct vmId as [id|]; [|exact I].
      destruct (sa_vmId a) as [v|]; [|discriminate Hv].
      apply N.eqb_eq in Hv. now subst.
    + intros (Hin & Hr & Hv).
      apply (Permutation_in _ (Permutation_sym (sort_by_perm _ _))).
      apply filter_In. split; [exact Hin|]. unfold active_filter.
      rewrite Hr. cbn [negb andb]. destruct vmId as [id|]; [|reflexivity].
      rewrite Hv. apply N.eqb_refl.
  - intros x Hx. apply in_map_iff in Hx. destruct Hx as (a & <- & _). reflexivity.
Qed.

Lemma X15_getActiveAlerts_witness :
  exists l,
    fst (getActiveAlerts (Some 7%N) triage_world) = Ok l
    /\ map (fun x => sa_id (aa_alert x)) l = [63%N; 61%N]
    /\ map aa_vm l = [Some (mkPopulatedVM 7%N running); Some (mkPopulatedVM 7%N running)].
Proof.
  destruct (X15_getActiveAlerts triage_world (Some 7%N) eq_refl eq_refl)
    as (l & w' & H1 & _).
  exists l.
  assert (E : fst (getActiveAlerts (Some 7%N) triage_world) = Ok l)
    by (rewrite H1; reflexivity).
  split; [exact E|]. vm_compute in E. injection E as <-. split; reflexivity.
Defined.


Lemma replace_by_id_In_iff (a a' : SystemAlert) (l : list SystemAlert) :
  NoDup (map sa_id l) ->
  find (has_id (sa_id a')) l = Some a ->
  forall b, In b (replace_by_id a' l) <->
            b = a' \/ (In b l /\ sa_id b <> sa_id a').
Proof.
  induction l as [|x l IH]; intros Hnd Hf b; [discriminate Hf|].
  cbn [map] in Hnd. inversion Hnd as [|? ? Hx Hl]; subst.
  cbn [find replace_by_id] in *. unfold has_id in Hf at 1.
  destruct (N.eqb_spec (sa_id x) (sa_id a')) as [E|E].
  - cbn [In]. split.
    + intros [<-|Hb]; [now left|]. right. split; [now right|].
      intro Hid. apply Hx. rewrite E, <- Hid. now apply in_map.
    + intros [->|[[<-|Hb] Hne]]; [now left|contradiction|now right].
  - cbn [In]. rewrite (IH Hl Hf b). split.
    + intros [<-|[->|[Hb Hne]]]; [right; split; [now left|exact E]|now left|].
      right. split; [now right|exact Hne].
    + intros [->|[[<-|Hb] Hne]]; [right; now left|now left|].
      right. right. split; assumption.
Qed.

Lemma active_members (vmId : option ObjectId) (l : list SystemAlert) (b : SystemAlert) :
  In b (sort_by (fun a => - sa_createdAt a) (filter (active_filter vmId) l))
  <-> In b l /\ active_filter vmId b = true.
Proof.
  split.
  - intro H. apply (Permutation_in _ (sort_by_perm _ _)) in H.
    now apply filter_In.
  - intro H. apply (Permutation_in _ (Permutation_sym (sort_by_perm _ _))).
    now apply filter_In.
Qed.

(** X16. A resolved alert leaves the active list, and only that one.
    With a database that answers and unique identifiers, after
    [resolveAlert] on the identifier of a stored alert (the route
    parameter [param] that reads as it), [getActiveAlerts] returns
    exactly the alerts that were unresolved before and have another
    identifier. *)
Theorem X16_resolved_leaves_active (w : World) (param : string) (alertId : ObjectId)
    (resolvedBy : string) (a : SystemAlert) :
  castObjectId param = Some alertId ->
  reliable w ->
  NoDup (map sa_id (w_alerts w)) ->
  In a (w_alerts w) ->
  sa_id a = alertId ->
  exists l,
    fst (getActiveAlerts None (snd (resolveAlert param (Some resolvedBy) w))) = Ok l
    /\ (forall b, In b (map aa_alert l) <->
          In b (w_alerts w) /\ sa_resolved b = false /\ sa_id b <> alertId).
Proof.
  intros Hc Hrel Hnd Hin Hid. subst alertId.
  pose proof (find_id_unique _ a Hnd Hin) as Hf.
  rewrite (resolveAlert_known w param (sa_id a) (Some resolvedBy) a Hc (Hrel _) Hf).
  cbv zeta. cbn [snd default_arg].
  set (a' := set_updatedAt (w_now w) (resolve_update (w_now w) resolvedBy a)).
  set (w1 := set_log _ _).
  assert (Hw1 : w_alerts w1 = replace_by_id a' (w_alerts w)
                /\ w_faults w1 = w_faults w)
    by (subst w1; destruct_world w; split; reflexivity).
  destruct Hw1 as [Ha1 Hf1].
  assert (F0 : w_faults w1 (w_ops w1) = false) by (rewrite Hf1; apply Hrel).
  assert (F1 : w_faults w1 (S (w_ops w1)) = false) by (rewrite Hf1; apply Hrel).
  rewrite (getActiveAlerts_eq w1 None F0 F1). cbv zeta. cbn [fst].
  eexists. split; [reflexivity|].
  intro b. rewrite map_map. cbn [aa_alert]. rewrite map_id.
  rewrite active_members, Ha1.
  assert (Hf' : find (has_id (sa_id a')) (w_alerts w) = Some a) by exact Hf.
  rewrite (replace_by_id_In_iff a a' _ Hnd Hf' b).
  unfold active_filter. rewrite andb_true_r, negb_true_iff.
  change (sa_id a') with (sa_id a).
  split.
  - intros [[->|[Hb Hne]] Hr]; [discriminate Hr|]. auto.
  - intros (Hb & Hr & Hne). split; [right; auto|exact Hr].
Qed.

Lemma X16_resolved_leaves_active_witness :
  exists l,
    fst (getActiveAlerts None
           (snd (resolveAlert "00000000000000000000003f" (Some "bob"%string)
                   triage_world))) = Ok l
    /\ map (fun x => sa_id (aa_alert x)) l = [61%N].
Proof.
  destruct (X16_resolved_leaves_active triage_world "00000000000000000000003f"
              63%N "bob" (alert_of 63%N 7%N 43150000))
    as (l & H1 & _).
  - reflexivity.
  - intro n. reflexivity.
  - repeat constructor; cbn; intuition discriminate.
  - right. right. left. reflexivity.
  - reflexivity.
  - exists l. split; [exact H1|]. vm_compute in H1. injection H1 as <-. reflexivity.
Defined.


(** X17. A raised alert is active.  With a database that answers, on a
    collection of records written by the service, after [createAlert] for
    an instance [getActiveAlerts] for that instance returns one alert
    more than before, among them the new record: unresolved, with count 1,
    the severity of the event as its level and the type of the event as
    its title. *)
Theorem X17_raised_alert_is_active (w : World) (vmId : ObjectId) (ev : AlertEvent) :
  reliable w ->
  Forall untyped (w_alerts w) ->
  let fresh := new_alert (w_nextId w) vmId ev (w_now w) in
  exists before after,
    fst (getActiveAlerts (Some vmId) w) = Ok before
    /\ fst (getActiveAlerts (Some vmId) (snd (createAlert vmId ev w))) = Ok after
    /\ In fresh (map aa_alert after)
    /\ List.length after = S (List.length before)
    /\ sa_resolved fresh = false /\ sa_count fresh = 1
    /\ sa_level fresh = ae_severity ev
    /\ sa_title fresh = AlertType_name (ae_type ev).
Proof.
  intros Hrel Hu fresh.
  rewrite (getActiveAlerts_eq w (Some vmId) (Hrel _) (Hrel _)).
  rewrite (createAlert_not_found vmId ev w (Hrel _) (Hrel _)
             (find_similar_untyped _ _ _ _ Hu)).
  cbn [snd]. set (w1 := set_log _ _).
  assert (Hw1 : w_alerts w1 = w_alerts w ++ [fresh] /\ w_faults w1 = w_faults w)
    by (subst w1 fresh; destruct_world w; split; reflexivity).
  destruct Hw1 as [Ha1 Hf1].
  assert (F0 : w_faults w1 (w_ops w1) = false) by (rewrite Hf1; apply Hrel).
  assert (F1 : w_faults w1 (S (w_ops w1)) = false) by (rewrite Hf1; apply Hrel).
  rewrite (getActiveAlerts_eq w1 (Some vmId) F0 F1). cbv zeta. cbn [fst].
  eexists. eexists. split; [reflexivity|]. split; [reflexivity|].
  assert (Hact : active_filter (Some vmId) fresh = true).
  { subst fresh. unfold active_filter, new_alert.
    cbn [sa_resolved sa_vmId negb andb]. apply N.eqb_refl. }
  split.
  - rewrite map_map. cbn [aa_alert]. rewrite map_id.
    apply active_members. rewrite Ha1. split; [|exact Hact].
    apply in_or_app. right. now left.
  - split.
    + rewrite !length_map.
      rewrite (Permutation_length (sort_by_perm _ _)).
      rewrite (Permutation_length (sort_by_perm _ _)).
      rewrite Ha1, filter_app, length_app. cbn [filter]. rewrite Hact.
      cbn [List.length]. lia.
    + subst fresh. unfold new_alert.
      cbn [sa_resolved sa_count sa_level sa_title]. repeat split.
      destruct (ae_type ev); reflexivity.
Qed.

Lemma X17_raised_alert_is_active_witness :
  exists after,
    fst (getActiveAlerts (Some 7%N) (snd (createAlert 7%N hot_event triage_world)))
      = Ok after
    /\ map (fun x => sa_id (aa_alert x)) after = [1%N; 63%N; 61%N].
Proof.
  destruct (X17_raised_alert_is_active triage_world 7%N hot_event)
    as (before & after & _ & H2 & _).
  - intro n. reflexivity.
  - repeat constructor.
  - exists after. split; [exact H2|]. vm_compute in H2. injection H2 as <-.
    reflexivity.
Defined.


(* ------------------------------------------------------------------ *)
(** ** Further properties: the handlers *)

Lemma count_severity_unrated (s : Severity) (vms : list VM) (l : list SystemAlert) :
  Forall unrated l ->
  count_severity s (map (fun a => mkActiveAlert a (populate_vm vms a)) l) = 0.
Proof.
  intro H. unfold count_severity. rewrite filter_none; [reflexivity|].
  intros x Hx. apply in_map_iff in Hx. destruct Hx as (a & <- & Ha).
  cbn [aa_alert]. rewrite Forall_forall in H. now rewrite (H a Ha).
Qed.

Lemma active_unrated (vmId : option ObjectId) (l : list SystemAlert) :
  Forall unrated l ->
  Forall unrated (sort_by (fun a => - sa_createdAt a) (filter (active_filter vmId) l)).
Proof.
  intro H. rewrite Forall_forall in *. intros a Ha.
  apply active_members in Ha. apply H, Ha.
Qed.

(** The records that [createAlert] leaves have no severity, if those it
    found had none. *)
Lemma replace_by_id_Forall (P : SystemAlert -> Prop) (a' : SystemAlert)
    (l : list SystemAlert) :
  P a' -> Forall P l -> Forall P (replace_by_id a' l).
Proof.
  intros Ha. induction 1 as [|x l Hx Hl IH]; cbn [replace_by_id]; [constructor|].
  destruct (N.eqb (sa_id x) (sa_id a')); constructor; assumption.
Qed.

Lemma createAlert_unrated (vmId : ObjectId) (ev : AlertEvent) (w : World) :
  Forall unrated (w_alerts w) ->
  Forall unrated (w_alerts (snd (createAlert vmId ev w))).
Proof.
  destruct_world w. cbv [w_alerts]. intro Hu.
  unfold createAlert, SystemAlert_findOne, SystemAlert_update, SystemAlert_insert.
  run_world.
  step_store; [exact Hu|].
  destruct (find _ als) as [a|] eqn:Hf; step_store; try exact Hu.
  - apply replace_by_id_Forall; [|exact Hu].
    apply find_some in Hf. destruct Hf as [Hin _].
    rewrite Forall_forall in Hu. exact (Hu a Hin).
  - apply Forall_app. split; [exact Hu|]. constructor; [reflexivity|constructor].
Qed.

(** X18. The dashboard, for a valid time range and a database that
    answers: the handler answers 200 and changes no collection; its
    [systemMetrics] list is empty and [totalDataPoints] is 0 whatever is
    stored; [activeAlertCount] is the number of unresolved alerts; and
    when no stored alert has a [severity], which [createAlert] preserves,
    [criticalAlerts] and [warningAlerts] are 0 whatever the levels of the
    alerts. *)
Theorem X18_dashboard (w : World) (timeRange : option string) (span : Z) :
  reliable w ->
  timeRanges (default_arg timeRange "1h") = Some span ->
  exists data w',
    MonitoringController_getDashboardData timeRange w = (Ok (Res200 data), w')
    /\ w_alerts w' = w_alerts w /\ w_vmMetrics w' = w_vmMetrics w
    /\ w_perf w' = w_perf w
    /\ dd_systemMetrics data = []
    /\ ov_totalDataPoints (dd_overview data) = 0
    /\ ov_activeAlertCount (dd_overview data) =
         Z.of_nat (List.length (filter (fun a => negb (sa_resolved a)) (w_alerts w)))
    /\ (Forall unrated (w_alerts w) ->
        ov_criticalAlerts (dd_overview data) = 0
        /\ ov_warningAlerts (dd_overview data) = 0)
    /\ (forall vmId ev, Forall unrated (w_alerts w) ->
          Forall unrated (w_alerts (snd (createAlert vmId ev w)))).
Proof.
  intros Hrel Hs. destruct_world w. unfold reliable in Hrel. cbv [w_faults] in Hrel.
  unfold MonitoringController_getDashboardData, Promise_all3, settle,
    getSystemMetrics, PerformanceMetrics_find_system,
    getActiveAlerts, SystemAlert_find_active,
    getPerformanceSummary, VMMetrics_aggregate, Logger_logPerformance, since_date.
  cbn [default_arg]. rewrite !Hs. unfold castDate.
  set (found := sort_by (fun a => - sa_createdAt a) (filter (active_filter None) als)).
  assert (Hlen : List.length found =
                 List.length (filter (fun a => negb (sa_resolved a)) als)).
  { subst found. rewrite (Permutation_length (sort_by_perm _ _)).
    f_equal. apply filter_ext. intro a. unfold active_filter. apply andb_true_r. }
  assert (Hfound : Forall unrated als -> Forall unrated found)
    by (subst found; apply active_unrated).
  assert (Hpop : existsb has_reference found = false ->
                 map (fun a => mkActiveAlert a None) found =
                 map (fun a => mkActiveAlert a (populate_vm vms a)) found)
    by apply no_reference_populate.
  unfold found in *. clear found.
  destruct (existsb has_reference _) eqn:E in Hpop;
    [clear Hpop|specialize (Hpop eq_refl)];
    repeat (run_world; progress rewrite ?system_filter_empty, ?Hrel, ?E);
    run_world; rewrite ?Hpop;
    (eexists; eexists; split; [reflexivity|]);
    cbn [dd_systemMetrics dd_overview ov_totalDataPoints ov_activeAlertCount
         ov_criticalAlerts ov_warningAlerts List.length];
    rewrite length_map, Hlen;
    (split; [reflexivity|]); (split; [reflexivity|]); (split; [reflexivity|]);
    (split; [reflexivity|]); (split; [reflexivity|]); (split; [reflexivity|]);
    (split;
     [ intro Hu; split; apply count_severity_unrated; exact (Hfound Hu)
     | intros vmId ev Hu;
       apply (createAlert_unrated vmId ev
                (mkWorld now tz rand ix faults ops nid vms pts als perf log run mi
                   tms nt em) Hu) ]).
Qed.


Lemma X18_dashboard_witness :
  exists data,
    fst (MonitoringController_getDashboardData None triage_world) = Ok (Res200 data)
    /\ map sa_level (map aa_alert (dd_activeAlerts data)) = [critical; critical]
    /\ ov_activeAlertCount (dd_overview data) = 2
    /\ ov_criticalAlerts (dd_overview data) = 0
    /\ ov_totalDataPoints (dd_overview data) = 0.
Proof.
  destruct (X18_dashboard triage_world None (60 * 60 * 1000))
    as (data & w' & H1 & _ & _ & _ & _ & H6 & H7 & H8 & _).
  - intro n. reflexivity.
  - reflexivity.
  - exists data. split; [rewrite H1; reflexivity|].
    split; [|split; [exact H7|split; [|exact H6]]].
    + assert (E : fst (MonitoringController_getDashboardData None triage_world)
                  = Ok (Res200 data)) by (rewrite H1; reflexivity).
      vm_compute in E. injection E as <-. reflexivity.
    + apply H8. repeat constructor.
Defined.

Lemma getSystemMetrics_invalid (w : World) (timeRange : string) :
  timeRanges timeRange = None ->
  getSystemMetrics (Some timeRange) w =
    (Throw (CastError "timestamp"),
     set_log (w_log w ++ [mkLog L1Critical "Failed to get system metrics" None]) w).
Proof.
  intro Hn. destruct_world w.
  unfold getSystemMetrics, PerformanceMetrics_find_system, since_date, default_arg.
  rewrite Hn. unfold castDate. run_world. reflexivity.
Qed.

(** X19. The dashboard, for a time range that is not in the table: the
    handler answers 500, "Failed to fetch dashboard data", whatever the
    state and the database. *)
Theorem X19_dashboard_unknown_range (w : World) (timeRange : string) :
  ~ In timeRange valid_ranges ->
  fst (MonitoringController_getDashboardData (Some timeRange) w) =
    Ok (Res500 "Failed to fetch dashboard data").
Proof.
  intro Hn. apply timeRanges_invalid in Hn.
  unfold MonitoringController_getDashboardData. cbn [default_arg].
  unfold bind at 1, Date_now at 1, gets at 1.
  unfold try_catch at 1, bind at 1, Logger_log at 1, modify at 1.
  set (w1 := set_log _ w).
  unfold bind at 1, Promise_all3 at 1, bind at 1, settle at 1.
  rewrite (getSystemMetrics_invalid w1 timeRange Hn).
  unfold bind at 1, settle at 1.
  destruct (getActiveAlerts None _) as [rb w2].
  unfold bind at 1, settle at 1.
  destruct (getPerformanceSummary (Some timeRange) w2) as [rc w3].
  unfold throw. unfold bind, Logger_log, modify, ret. reflexivity.
Qed.

Lemma X19_dashboard_unknown_range_witness :
  fst (MonitoringController_getDashboardData (Some "2h"%string) day60_world) =
    Ok (Res500 "Failed to fetch dashboard data")
  /\ fst (getPerformanceSummary (Some "2h"%string) day60_world) =
       Ok (summary_group [old_point]).
Proof.
  split; [|reflexivity].
  apply (X19_dashboard_unknown_range day60_world "2h").
  intros [H|[H|[H|[H|[]]]]]; discriminate H.
Defined.


Lemma filterM_untyped (l : list ActiveAlert) (w : World) :
  l <> [] ->
  (forall x, In x l -> sa_type (aa_alert x) = None) ->
  filterM type_includes_crash l w =
    (Throw (TypeError "Cannot read properties of undefined (reading 'includes')"), w).
Proof.
  destruct l as [|x l]; [congruence|]. intros _ H.
  cbn [filterM]. unfold bind, type_includes_crash.
  rewrite (H x (or_introl eq_refl)). reflexivity.
Qed.

(** X20. The performance handler fails as soon as an alert written by
    the service is active.  For a valid time range and a database that
    answers, when the stored alerts have no [type] (as [createAlert]
    writes them) and one of them is unresolved, the handler answers 500,
    "Failed to fetch performance metrics": reading [alert.type.includes]
    throws. *)
Theorem X20_performance_fails_on_active_alert (w : World)
    (timeRange : option string) (span : Z) (a : SystemAlert) :
  reliable w ->
  timeRanges (default_arg timeRange "24h") = Some span ->
  Forall untyped (w_alerts w) ->
  In a (w_alerts w) ->
  sa_resolved a = false ->
  fst (MonitoringController_getPerformanceMetrics timeRange w) =
    Ok (Res500 "Failed to fetch performance metrics").
Proof.
  intros Hrel Hs Hu Hin Hres. destruct_world w.
  unfold reliable in Hrel. cbv [w_faults] in Hrel. cbv [w_alerts] in Hu, Hin.
  pose (found := sort_by (fun a => - sa_createdAt a) (filter (active_filter None) als)).
  assert (Hne : map (fun a => mkActiveAlert a (populate_vm vms a)) found <> []).
  { assert (Ha : In a found)
      by (apply active_members; split; [exact Hin|];
          unfold active_filter; now rewrite Hres).
    destruct found; [contradiction|discriminate]. }
  assert (Hty : forall x,
             In x (map (fun a => mkActiveAlert a (populate_vm vms a)) found) ->
             sa_type (aa_alert x) = None).
  { intros x Hx. apply in_map_iff in Hx. destruct Hx as (b & <- & Hb).
    apply active_members in Hb. rewrite Forall_forall in Hu. apply Hu, Hb. }
  assert (Hpop : existsb has_reference found = false ->
                 map (fun a => mkActiveAlert a None) found =
                 map (fun a => mkActiveAlert a (populate_vm vms a)) found)
    by apply no_reference_populate.
  unfold found in *. clear found.
  unfold MonitoringController_getPerformanceMetrics,
    getSystemMetrics, PerformanceMetrics_find_system,
    getActiveAlerts, SystemAlert_find_active,
    getPerformanceSummary, VMMetrics_aggregate, Logger_logPerformance, since_date.
  cbn [default_arg]. rewrite !Hs. unfold castDate.
  destruct (existsb has_reference _) eqn:E in Hpop;
    [clear Hpop|specialize (Hpop eq_refl)];
    repeat (run_world; progress rewrite ?system_filter_empty, ?Hrel, ?E);
    run_world; rewrite ?Hpop;
    rewrite (filterM_untyped _ _ Hne Hty); reflexivity.
Qed.

Lemma X20_performance_fails_on_active_alert_witness :
  fst (MonitoringController_getPerformanceMetrics None open_world) =
    Ok (Res500 "Failed to fetch performance metrics").
Proof.
  apply (X20_performance_fails_on_active_alert open_world None
           (24 * 60 * 60 * 1000) open_alert).
  - intro n. reflexivity.
  - reflexivity.
  - repeat constructor.
  - left. reflexivity.
  - reflexivity.
Defined.

(** X21. The performance handler at rest.  For a valid time range and a
    database that answers, with no unresolved alert and no point in the
    range, the handler answers 200 and its figures are zero:
    [dataPoints], the CPU, memory, disk and network figures of [system],
    the response time and error rate of [application], and the crash
    count, with no last crash. *)
Theorem X21_performance_at_rest (w : World) (timeRange : option string) (span : Z) :
  reliable w ->
  timeRanges (default_arg timeRange "24h") = Some span ->
  (forall a, In a (w_alerts w) -> sa_resolved a = true) ->
  (forall d, In d (w_vmMetrics w) -> vmm_timestamp d < w_now w - span) ->
  exists data,
    fst (MonitoringController_getPerformanceMetrics timeRange w) = Ok (Res200 data)
    /\ js_get data "dataPoints" = JNum 0
    /\ js_get data "summary" = JObj []
    /\ js_get data "system" =
         JObj [("cpuUsage"%string, JNum 0); ("memoryUsage"%string, JNum 0);
               ("diskUsage"%string, JNum 0); ("networkUtilization"%string, JNum 0)]
    /\ js_get (js_get data "application") "averageResponseTime" = JNum 0
    /\ js_get (js_get data "application") "errorRate" = JNum 0
    /\ js_get (js_get data "crashes") "count24h" = JNum 0
    /\ js_get (js_get data "crashes") "lastCrash" = JNull.
Proof.
  intros Hrel Hs Hres Hold. destruct_world w.
  unfold reliable in Hrel. cbv [w_faults] in Hrel.
  cbv [w_alerts] in Hres. cbv [w_vmMetrics w_now] in Hold.
  assert (Hf : filter (active_filter None) als = []).
  { apply filter_none. intros a Ha. unfold active_filter.
    now rewrite (Hres a Ha). }
  assert (Hm : match_since (ValidDate (now - span)) pts = []).
  { unfold match_since, bson_date. apply filter_none. intros d Hd.
    apply Z.leb_gt, Hold, Hd. }
  unfold MonitoringController_getPerformanceMetrics,
    getSystemMetrics, PerformanceMetrics_find_system,
    getActiveAlerts, SystemAlert_find_active,
    getPerformanceSummary, VMMetrics_aggregate, Logger_logPerformance, since_date.
  cbn [default_arg]. rewrite !Hs. unfold castDate.
  repeat (run_world; progress rewrite ?system_filter_empty, ?Hrel, ?Hf, ?Hm).
  cbn [sort_by fold_left existsb map]. run_world.
  cbn [filterM findM]. run_world.
  eexists. split; [reflexivity|]. repeat split.
Qed.

Lemma X21_performance_at_rest_witness :
  exists data,
    fst (MonitoringController_getPerformanceMetrics (Some "24h"%string)
           (with_alerts [closed_alert] day60_world)) = Ok (Res200 data)
    /\ js_get data "dataPoints" = JNum 0.
Proof.
  destruct (X21_performance_at_rest (with_alerts [closed_alert] day60_world)
              (Some "24h"%string) (24 * 60 * 60 * 1000))
    as (data & H1 & H2 & _).
  - intro n. reflexivity.
  - reflexivity.
  - intros a [<-|[]]. reflexivity.
  - intros d [<-|[]]. reflexivity.
  - exists data. split; assumption.
Defined.


(** X22. The overview handler writes to the database.  When the database
    answers, a request for the overview is answered 200 with the size of
    the fleet, the number of unresolved alerts and the time of the
    request as an ISO string, and it leaves one more [PerformanceMetrics]
    document (operation [system_metrics_collection]) behind; instances,
    samples and alerts are as before. *)
Theorem X22_overview_writes (w : World) (uptime : Q) :
  reliable w ->
  exists data w',
    MonitoringController_getSystemOverview uptime w = (Ok (Res200 data), w')
    /\ totalVMs (so_metrics data) = Z.of_nat (List.length (w_vms w))
    /\ so_alerts data =
         Z.of_nat (List.length (filter (fun a => negb (sa_resolved a)) (w_alerts w)))
    /\ so_uptime data = uptime
    /\ so_lastUpdate data = toISOString (w_now w)
    /\ (exists d, w_perf w' = w_perf w ++ [d]
                  /\ pm_operation d = "system_metrics_collection"%string)
    /\ w_vms w' = w_vms w
    /\ w_vmMetrics w' = w_vmMetrics w
    /\ w_alerts w' = w_alerts w.
Proof.
  intro Hrel. destruct_world w.
  unfold reliable in Hrel. cbv [w_faults] in Hrel.
  pose (found := sort_by (fun a => - sa_createdAt a) (filter (active_filter None) als)).
  assert (Hlen : List.length found =
                 List.length (filter (fun a => negb (sa_resolved a)) als)).
  { unfold found. rewrite (Permutation_length (sort_by_perm _ _)).
    f_equal. apply filter_ext. intro a. unfold active_filter.
    destruct (sa_resolved a); reflexivity. }
  unfold found in Hlen. clear found.
  unfold MonitoringController_getSystemOverview, collectSystemMetrics,
    VM_countDocuments, VMMetrics_aggregate, PerformanceMetrics_save,
    getActiveAlerts, SystemAlert_find_active, Logger_logPerformance.
  repeat (run_world; progress rewrite ?Hrel).
  destruct (existsb has_reference _);
    repeat (run_world; progress rewrite ?Hrel); run_world;
    (do 2 eexists; split; [reflexivity|];
     cbn [so_metrics so_alerts so_uptime so_lastUpdate totalVMs];
     rewrite ?length_map, Hlen, (filter_all (fun _ => true)) by reflexivity;
     repeat split; eexists; split; reflexivity).
Qed.

Lemma X22_overview_writes_witness :
  exists data w',
    MonitoringController_getSystemOverview 12 triage_world = (Ok (Res200 data), w')
    /\ so_alerts data = 2
    /\ List.length (w_perf w') = 1%nat.
Proof.
  destruct (X22_overview_writes triage_world 12)
    as (data & w' & H1 & _ & H3 & _ & _ & (d & H6 & _) & _).
  - intro n. reflexivity.
  - exists data, w'. split; [exact H1|]. split; [exact H3|].
    rewrite H6. reflexivity.
Defined.


(** The loop of [getVMUsageHistory], from the index [i] down to 0: it
    cannot fail, takes five draws for each point, and the point at
    position [k] is the one of the index [i - k]. *)
Lemma usage_loop_spec (t : Z) (i : nat) :
  forall now tz rand ix faults ops nid vms pts als perf log run mi tms nt em,
  exists l,
    usage_loop t i
      (mkWorld now tz rand ix faults ops nid vms pts als perf log run mi tms nt em)
    = (Ok l,
       mkWorld now tz rand (5 * S i + ix) faults ops nid vms pts als perf log
         run mi tms nt em)
    /\ List.length l = S i
    /\ forall k, (k <= i)%nat ->
         exists p, nth_error l k = Some p
           /\ up_timestamp p = toISOString (t - Z.of_nat (i - k) * 5 * 60 * 1000)
           /\ up_cpu p = (rand (5 * k + ix)%nat * 100)%Q
           /\ up_memory p = (rand (5 * k + 1 + ix)%nat * 100)%Q
           /\ up_disk p = (rand (5 * k + 2 + ix)%nat * 100)%Q
           /\ up_inbound p = (rand (5 * k + 3 + ix)%nat * 100)%Q
           /\ up_outbound p = (rand (5 * k + 4 + ix)%nat * 80)%Q.
Proof.
  induction i as [|i IH]; intros.
  - eexists. cbn [usage_loop]. unfold usage_point. run_world.
    split; [reflexivity|]. split; [reflexivity|].
    intros k Hk. assert (k = 0%nat) by lia. subst k.
    eexists. split; [reflexivity|]. repeat split.
  - cbn [usage_loop]. unfold usage_point at 1. run_world.
    destruct (IH now tz rand (S (S (S (S (S ix))))) faults ops nid vms pts als
                perf log run mi tms nt em) as (l & E & Hl & Hp).
    fold usage_loop. rewrite E.
    eexists. split; [|split].
    + f_equal. f_equal. lia.
    + cbn [List.length]. now rewrite Hl.
    + intros [|k] Hk.
      * eexists. split; [reflexivity|]. repeat split.
      * destruct (Hp k ltac:(lia)) as (p & Hn & H1 & H2 & H3 & H4 & H5 & H6).
        exists p. split; [exact Hn|].
        replace (S i - S k)%nat with (i - k)%nat by lia.
        replace (5 * S k + ix)%nat with (5 * k + S (S (S (S (S ix)))))%nat by lia.
        replace (5 * S k + 1 + ix)%nat with (5 * k + 1 + S (S (S (S (S ix)))))%nat by lia.
        replace (5 * S k + 2 + ix)%nat with (5 * k + 2 + S (S (S (S (S ix)))))%nat by lia.
        replace (5 * S k + 3 + ix)%nat with (5 * k + 3 + S (S (S (S (S ix)))))%nat by lia.
        replace (5 * S k + 4 + ix)%nat with (5 * k + 4 + S (S (S (S (S ix)))))%nat by lia.
        repeat split; assumption.
Qed.

(** X23. The usage history is made up, for any instance identifier.
    Whatever the state, the identifier and the query, the handler answers
    200 without a request to the database: [intervals + 1] points (13
    for ["1h"], 289 for ["24h"], 73 for anything else), five minutes
    apart and ending at the time of the request, each taking five draws
    of [Math.random()]; with draws in [0, 1) the CPU, memory, disk and
    inbound figures are in [0, 100) and the outbound figure in [0, 80). *)
Theorem X23_usage_history (w : World) (vmId : ObjectId)
    (timeRange interval : option string) :
  draws_in_range (w_rand w) ->
  let n := usage_intervals (default_arg timeRange "1h") in
  exists l w',
    MonitoringController_getVMUsageHistory vmId timeRange interval w =
      (Ok (Res200 (mkUsageHistory vmId (default_arg timeRange "1h")
                     (default_arg interval "5m") l)), w')
    /\ List.length l = S n
    /\ (forall k, (k <= n)%nat ->
          exists p, nth_error l k = Some p
            /\ up_timestamp p =
                 toISOString (w_now w - Z.of_nat (n - k) * 5 * 60 * 1000))
    /\ Forall (fun p => (0 <= up_cpu p /\ up_cpu p < 100)%Q
                        /\ (0 <= up_memory p /\ up_memory p < 100)%Q
                        /\ (0 <= up_disk p /\ up_disk p < 100)%Q
                        /\ (0 <= up_inbound p /\ up_inbound p < 100)%Q
                        /\ (0 <= up_outbound p /\ up_outbound p < 80)%Q) l
    /\ w_randIx w' = (5 * S n + w_randIx w)%nat
    /\ w_ops w' = w_ops w
    /\ w_vms w' = w_vms w
    /\ w_vmMetrics w' = w_vmMetrics w
    /\ w_perf w' = w_perf w.
Proof.
  intros Hd n. destruct_world w. cbv [w_rand] in Hd.
  unfold MonitoringController_getVMUsageHistory, Logger_logPerformance.
  fold n. run_world.
  destruct (usage_loop_spec now n now tz rand ix faults ops nid vms pts als perf
              (log ++ [mkLog L3Info "Fetching VM usage history" (Some vmId)])
              run mi tms nt em) as (l & E & Hl & Hp).
  rewrite E.
  exists l. eexists. split; [reflexivity|]. split; [exact Hl|].
  split; [|split; [|repeat split]].
  - intros k Hk. destruct (Hp k Hk) as (p & Hn & Ht & _).
    exists p. split; assumption.
  - apply Forall_forall. intros p Hin.
    apply In_nth_error in Hin. destruct Hin as (k & Hk).
    assert (Hlt : (k < List.length l)%nat)
      by (apply nth_error_Some; congruence).
    destruct (Hp k ltac:(lia)) as (p' & Hn & _ & H2 & H3 & H4 & H5 & H6).
    assert (p' = p) by congruence. subst p'.
    rewrite H2, H3, H4, H5, H6.
    pose proof (Hd (5 * k + ix)%nat). pose proof (Hd (5 * k + 1 + ix)%nat).
    pose proof (Hd (5 * k + 2 + ix)%nat). pose proof (Hd (5 * k + 3 + ix)%nat).
    pose proof (Hd (5 * k + 4 + ix)%nat).
    repeat split; lra.
Qed.

Lemma X23_usage_history_witness :
  exists l w',
    MonitoringController_getVMUsageHistory 999%N (Some "7d"%string) None calm_world =
      (Ok (Res200 (mkUsageHistory 999%N "7d" "5m" l)), w')
    /\ List.length l = 73%nat.
Proof.
  destruct (X23_usage_history calm_world 999%N (Some "7d"%string) None)
    as (l & w' & H1 & H2 & _).
  - intro i. unfold calm_world, with_rand, w_rand, half_draws. split; lra.
  - exists l, w'. split; [exact H1|exact H2].
Defined.


(* ------------------------------------------------------------------ *)
(** ** Further properties: the resolve handler *)

(** X24. The resolve handler writes before it emits, and its answer
    depends on the socket setting only.  With a database that answers, on
    the identifier of a stored alert the handler resolves that record in
    place whatever the setting; when a socket server is registered under
    ['io'] it emits the record and answers 200 with it; when none is
    registered, as in the application that [server.js] builds, reading
    [emit] throws after the write and the answer is 500, "Failed to
    resolve alert", although the alert has been resolved. *)
Theorem X24_resolve_handler_socket (w : World) (io : option SocketServer)
    (alertId : string) (userId : option string) (l1 l2 : list SystemAlert)
    (a : SystemAlert) :
  castObjectId alertId = Some (sa_id a) ->
  w_faults w (w_ops w) = false ->
  w_alerts w = l1 ++ a :: l2 ->
  (forall b, In b l1 -> sa_id b <> sa_id a) ->
  exists r w',
    MonitoringController_resolveAlert io alertId userId w =
      (Ok match io with
          | Some _ => Json200 r
          | None => Json500 "Failed to resolve alert"
          end, w')
    /\ w_alerts w' = l1 ++ r :: l2
    /\ sa_id r = sa_id a
    /\ sa_resolved r = true
    /\ sa_resolvedAt r = Some (w_now w)
    /\ w_emitted w' = match io with
                      | Some _ => w_emitted w ++ [r]
                      | None => w_emitted w
                      end.
Proof.
  intros Hc F Hl Hl1.
  assert (Hf : find (has_id (sa_id a)) (w_alerts w) = Some a)
    by (rewrite Hl; now apply find_id_split).
  destruct (controller_known w io alertId (sa_id a) userId a Hc F Hf)
    as (r & w' & E & Hres & Hid & Hat & Hal & Hem).
  exists r, w'. split; [exact E|]. split.
  - rewrite Hal, Hl. now apply replace_by_id_split.
  - repeat split; assumption.
Qed.

Lemma X24_resolve_handler_socket_witness :
  exists r w',
    MonitoringController_resolveAlert server_io id41 None open_world =
      (Ok (Json500 "Failed to resolve alert"), w')
    /\ w_alerts w' = [r]
    /\ sa_id r = 41%N
    /\ sa_resolved r = true.
Proof.
  destruct (X24_resolve_handler_socket open_world server_io id41 None [] []
              open_alert eq_refl eq_refl eq_refl)
    as (r & w' & E & H1 & H2 & H3 & _).
  - intros b [].
  - exists r, w'. split; [exact E|]. split; [exact H1|]. split; [exact H2|exact H3].
Defined.
